(** * Hospital mortuary record system: the record store, validators, browse
    filters and lifecycle operations of [Hospital-Mortuary.py], embedded in Rocq.

    Conventions of the embedding.
    - Python text is a [string] whose characters are code points below 256, so
      that [str.isspace], [str.lower] and the digit class of [re] can be written
      out character by character.
    - A pandas [DataFrame] read with [dtype=str] is a list of column labels and
      a list of rows; a row maps a column label to its text cell, and a label
      without a cell stands for NaN.
    - The CSV file at [CSV_PATH] is represented by the table [pd.read_csv]
      parses from it ([None] while the file does not exist yet); quoting and
      byte-level serialisation are pandas' and are not modelled.
    - An uncaught Python exception is [None] in the option monad; the blocks
      [try ... except Exception] of the source are the matches that turn a
      [None] into the handler's fallback value.
    - The clock ([now_iso]) and the random source ([uuid.uuid4]) are read by the
      handlers; each reading is an explicit argument, one per call in the source.
    - The conversion of a naive time to the system time zone and the
      regular-expression engine are the two services the program takes from
      its platform: class [Platform]. *)

From Stdlib Require Import ZArith Ascii DecimalString.
From stdpp Require Import base option list strings gmap fin_maps.

Set Warnings "-abstract-large-number,-clear-no-such-hyp".

Local Open Scope Z_scope.
Local Open Scope nat_scope.

(** ** Text *)

Module Text.

(** [str.isspace] on one character (code points below 256): TAB..CR,
    FS..US, SPACE, NEL and NBSP. *)
Definition isspace (c : ascii) : bool :=
  let n := nat_of_ascii c in
  ((9 <=? n) && (n <=? 13)) || ((28 <=? n) && (n <=? 32))
  || (n =? 133) || (n =? 160).

Fixpoint lstrip (s : string) : string :=
  match s with
  | EmptyString => EmptyString
  | String c s' => if isspace c then lstrip s' else s
  end.

Definition rstrip (s : string) : string := String.rev (lstrip (String.rev s)).

(** [s.strip()] *)
Definition strip (s : string) : string := rstrip (lstrip s).

(** [s.strip() == ""] *)
Definition blank (s : string) : bool := bool_decide (strip s = "").

(** [str.lower] on one character: A-Z and the upper-case letters of the
    Latin-1 supplement (all of 192..222 but the multiplication sign). *)
Definition lower_char (c : ascii) : ascii :=
  let n := nat_of_ascii c in
  if ((65 <=? n) && (n <=? 90)) || ((192 <=? n) && (n <=? 222) && negb (n =? 215))
  then ascii_of_nat (n + 32) else c.

Fixpoint lower (s : string) : string :=
  match s with
  | EmptyString => EmptyString
  | String c s' => String (lower_char c) (lower s')
  end.

(** [rid.startswith(p)] *)
Definition startswith (s p : string) : bool := String.prefix p s.

(** ["%d" % n] *)
Definition dec (n : nat) : string := NilZero.string_of_uint (Nat.to_uint n).

Fixpoint zeros (k : nat) : string :=
  match k with O => "" | S k' => String "0" (zeros k') end.

(** ["%0wd" % n] for a natural number [n]. *)
Definition zfill (w n : nat) : string :=
  let s := dec n in zeros (w - String.length s) +:+ s.

End Text.

(** ** Calendar dates and times of day ([datetime.date], [datetime.time]) *)

Record date := Date { year : nat; month : nat; day : nat }.
Record time := Time { hour : nat; minute : nat; second : nat; microsecond : nat }.
Record datetime := DateTime { dt_date : date; dt_time : time }.
(** A zone-aware [datetime]: wall clock and offset from UTC in seconds. *)
Record aware_datetime := Aware { wall : datetime; utcoffset : Z }.

#[global] Instance date_eq_dec : EqDecision date.
Proof. solve_decision. Defined.
#[global] Instance time_eq_dec : EqDecision time.
Proof. solve_decision. Defined.

Definition is_leap (y : nat) : bool :=
  (y mod 4 =? 0) && (negb (y mod 100 =? 0) || (y mod 400 =? 0)).

Definition days_in_month (y m : nat) : nat :=
  match m with
  | 2 => if is_leap y then 29 else 28
  | 4 | 6 | 9 | 11 => 30
  | _ => 31
  end.

(** [date(y, m, d)]: [ValueError] outside the proleptic Gregorian calendar
    of years 1..9999. *)
Definition date_new (y m d : nat) : option date :=
  if (1 <=? y) && (y <=? 9999) && (1 <=? m) && (m <=? 12)
     && (1 <=? d) && (d <=? days_in_month y m)
  then Some (Date y m d) else None.

(** [d1 <= d2] on dates. *)
Definition date_le (d1 d2 : date) : bool :=
  (year d1 <? year d2)
  || ((year d1 =? year d2)
      && ((month d1 <? month d2)
          || ((month d1 =? month d2) && (day d1 <=? day d2)))).

(** ** [datetime.strptime] for the two formats the program uses

    [_strptime] turns the format into a regular expression whose directives
    are alternations of fixed character classes, matches it at the start of
    the text ([re.match], first alternative first, backtracking into the rest
    of the pattern) and raises [ValueError] when text is left over. *)
Module Strptime.

(** One alternative: the class of each successive character. *)
Definition alternative := list (ascii → bool).

Definition is_digit (c : ascii) : bool := bool_decide (is_Some (Ascii.is_nat c)).
Definition one_of (cs : string) (c : ascii) : bool :=
  bool_decide (c ∈ String.list_ascii_of_string cs).

(** [match_alternative a s]: the text matched by [a] at the start of [s]
    and the text after it. *)
Fixpoint match_alternative (a : alternative) (s : list ascii)
  : option (list ascii * list ascii) :=
  match a with
  | [] => Some ([], s)
  | p :: a' =>
      match s with
      | c :: s' =>
          if p c then
            match match_alternative a' s' with
            | Some (m, rest) => Some (c :: m, rest)
            | None => None
            end
          else None
      | [] => None
      end
  end.

(** A group [(a1|a2|...)] followed by the rest [k] of the pattern: the
    first alternative after which [k] matches. *)
Fixpoint group {A} (alts : list alternative)
    (k : list ascii → list ascii → option A) (s : list ascii) : option A :=
  match alts with
  | [] => None
  | a :: alts' =>
      match match_alternative a s with
      | Some (m, rest) =>
          match k m rest with
          | Some r => Some r
          | None => group alts' k s
          end
      | None => group alts' k s
      end
  end.

(** A literal character of the format. *)
Definition lit {A} (c : ascii) (k : list ascii → option A) (s : list ascii)
  : option A :=
  match s with
  | c' :: s' => if bool_decide (c' = c) then k s' else None
  | [] => None
  end.

(** [int(m)] on the text of a group: decimal digits, blanks ignored. *)
Definition int_of (m : list ascii) : nat :=
  fold_left (λ n c, match Ascii.is_nat c with Some v => 10 * n + v | None => n end) m 0.

(** [%Y]: [\d\d\d\d]. *)
Definition re_Y : list alternative := [[is_digit; is_digit; is_digit; is_digit]].
(** [%m]: [1[0-2]|0[1-9]|[1-9]]. *)
Definition re_m : list alternative :=
  [[one_of "1"; one_of "012"]; [one_of "0"; one_of "123456789"]; [one_of "123456789"]].
(** [%d]: [3[0-1]|[1-2]\d|0[1-9]|[1-9]| [1-9]]. *)
Definition re_d : list alternative :=
  [[one_of "3"; one_of "01"]; [one_of "12"; is_digit]; [one_of "0"; one_of "123456789"];
   [one_of "123456789"]; [one_of " "; one_of "123456789"]].
(** [%H]: [2[0-3]|[0-1]\d|\d]. *)
Definition re_H : list alternative :=
  [[one_of "2"; one_of "0123"]; [one_of "01"; is_digit]; [is_digit]].
(** [%M]: [[0-5]\d|\d]. *)
Definition re_M : list alternative := [[one_of "012345"; is_digit]; [is_digit]].

(** [datetime.strptime(s, "%Y-%m-%d").date()]; [None] is [ValueError]. *)
Definition date_Ymd (s : string) : option date :=
  '(y, m, d, rest) ←
    group re_Y (λ y, lit "-" (group re_m (λ m, lit "-" (group re_d (λ d rest,
      Some (int_of y, int_of m, int_of d, rest))))))
      (String.list_ascii_of_string s);
  if bool_decide (rest = []) then date_new y m d else None.

(** [datetime.strptime(s, "%H:%M").time()]; [None] is [ValueError]. *)
Definition time_HM (s : string) : option time :=
  '(h, m, rest) ←
    group re_H (λ h, lit ":" (group re_M (λ m rest,
      Some (int_of h, int_of m, rest))))
      (String.list_ascii_of_string s);
  if bool_decide (rest = []) then Some (Time h m 0 0) else None.

End Strptime.

(** ** Printing dates and times *)

(** [d.isoformat()]: ["%04d-%02d-%02d"]. *)
Definition date_isoformat (d : date) : string :=
  Text.zfill 4 (year d) +:+ "-" +:+ Text.zfill 2 (month d) +:+ "-" +:+ Text.zfill 2 (day d).

(** [t.isoformat(timespec="minutes")]: ["%02d:%02d"], the seconds and
    microseconds are not printed. *)
Definition time_isoformat_minutes (t : time) : string :=
  Text.zfill 2 (hour t) +:+ ":" +:+ Text.zfill 2 (minute t).

(** [d.strftime("%Y-%m-%d")] (for a year of four digits). *)
Definition strftime_Ymd (d : date) : string := date_isoformat d.

(** [t.strftime("%H:%M")] *)
Definition strftime_HM (t : time) : string := time_isoformat_minutes t.

(** The UTC offset as [isoformat] prints it: sign, hours and minutes, and the
    seconds only when they are not zero. *)
Definition format_offset (off : Z) : string :=
  let sign := if (off <? 0)%Z then "-" else "+" in
  let a := Z.to_nat (Z.abs off) in
  let hh := a / 3600 in
  let mm := (a mod 3600) / 60 in
  let ss := (a mod 3600) mod 60 in
  sign +:+ Text.zfill 2 hh +:+ ":" +:+ Text.zfill 2 mm
  +:+ (if ss =? 0 then "" else ":" +:+ Text.zfill 2 ss).

(** [dt.isoformat(timespec="minutes")] of an aware [datetime]. *)
Definition isoformat_minutes (dt : aware_datetime) : string :=
  date_isoformat (dt_date (wall dt)) +:+ "T"
  +:+ time_isoformat_minutes (dt_time (wall dt)) +:+ format_offset (utcoffset dt).

(** ** The platform *)

(** What the program takes from outside its own source.
    - [astimezone_tzlocal dt]: [dt.astimezone(tz.tzlocal())] for a naive
      [dt]. The interpreter reads [dt] as a time of the system zone through
      the C library, subtracts the offset it finds to reach UTC, and
      [tz.tzlocal()] of [dateutil] moves that instant to its own wall clock and
      offset. The call raises where the C library refuses the time or the UTC
      value leaves the years 1 to 9999, as it does at the ends of the
      calendar: that is [None]. The wall clock of the result need not be the
      one given (a time skipped by a change of the clocks, a year in which the
      zone had another offset), so the result is the whole aware value.
    - [re_compile pat]: [re.compile(pat)], [None] when it raises [re.error],
      otherwise the test [pat.search(s) is not None]. *)
Class Platform := {
  astimezone_tzlocal : datetime → option aware_datetime;
  re_compile : string → option (string → bool);
}.

(** ** Helpers of the source *)

(** The argument [d] of [combine_date_time]: [None] (a date input left
    unset), a [date] or a [str]. *)
Inductive date_arg := DNone | DDate (d : date) | DStr (s : string).
(** The argument [t] of [combine_date_time]: a [time] or a [str], or the
    [None] that the annotation leaves out and Python lets through. *)
Inductive time_arg := TNone | TTime (t : time) | TStr (s : string).

(** [not d]: true for [None] and for the empty text, false for a [date]. *)
Definition date_arg_falsy (d : date_arg) : bool :=
  match d with
  | DNone => true
  | DDate _ => false
  | DStr s => bool_decide (s = "")
  end.

(** The [d_obj] and [t_obj] of the [try] block; [None] is the exception
    ([ValueError] of [strptime], [TypeError] of [combine] on [None]). *)
Definition date_arg_obj (d : date_arg) : option date :=
  match d with
  | DStr s => Strptime.date_Ymd s
  | DDate d => Some d
  | DNone => None
  end.

Definition time_arg_obj (t : time_arg) : option time :=
  match t with
  | TStr s => Strptime.time_HM s
  | TTime t => Some t
  | TNone => None
  end.

(** [if isinstance(t, str) and t.strip() == "": t = "00:00"] *)
Definition blank_time_is_midnight (t : time_arg) : time_arg :=
  match t with
  | TStr s => if Text.blank s then TStr "00:00" else t
  | _ => t
  end.

Definition combine_date_time `{Platform} (d : date_arg) (t : time_arg) : string :=
  if date_arg_falsy d then ""
  else if (match d with DStr s => Text.blank s | _ => false end) then ""
  else
    let t := blank_time_is_midnight t in
    (* try: ... except Exception: return "" *)
    default ""
      (d_obj ← date_arg_obj d;
       t_obj ← time_arg_obj t;
       dt ← astimezone_tzlocal (DateTime d_obj t_obj);
       Some (isoformat_minutes dt)).

Definition to_date_str (d : option date) : string :=
  match d with None => "" | Some d => strftime_Ymd d end.

Definition to_time_str (t : option time) : string :=
  match t with None => "" | Some t => strftime_HM t end.

(** A value of the [fields] dictionary of [validate_required]. *)
Inductive field_value := FNone | FStr (s : string) | FDate (d : date).

Definition field_missing (v : field_value) : bool :=
  match v with
  | FNone => true
  | FStr s => Text.blank s
  | FDate _ => false
  end.

(** [validate_required(fields)]: the dictionary is walked in insertion order. *)
Fixpoint validate_required (fields : list (string * field_value)) : list string :=
  match fields with
  | [] => []
  | (k, v) :: fields' =>
      if field_missing v then k :: validate_required fields'
      else validate_required fields'
  end.

(** ** Tables (pandas) *)

(** A row: column label to text cell; a label without a cell is NaN. *)
Abbreviation row := (gmap string string).

Record DataFrame := Frame { columns : list string; rows : list row }.

(** A Python dictionary literal with text values, in insertion order; the
    value [None] stands for NaN (a cell copied from a row that has none). *)
Abbreviation dict := (list (string * option string)).

(** The row a dictionary describes ([pd.Series(d)]). *)
Definition row_of_dict (d : dict) : row :=
  list_to_map (omap (λ kv, pair kv.1 <$> kv.2) d).

(** A row re-indexed to the labels [cols]: the cells of other labels are
    dropped, a label without a cell stays without one. *)
Definition reindex (cols : list string) (r : row) : row :=
  list_to_map (omap (λ c, pair c <$> r !! c) cols).

(** [df[c] = v] for a text [v]: the column is overwritten, or appended when
    the frame has no such label. *)
Definition setitem_column (c v : string) (df : DataFrame) : DataFrame :=
  {| columns := if bool_decide (c ∈ columns df) then columns df else columns df ++ [c];
     rows := (λ r : row, <[c := v]> r) <$> rows df |}.

(** [df[cols]]: [KeyError] when a label is not a column of the frame. *)
Definition getitem_columns (cols : list string) (df : DataFrame) : option DataFrame :=
  if forallb (λ c, bool_decide (c ∈ columns df)) cols
  then Some {| columns := cols; rows := reindex cols <$> rows df |}
  else None.

(** [df[mask]] for the boolean mask [p] computed row by row. *)
Definition getitem_mask (p : row → bool) (df : DataFrame) : DataFrame :=
  {| columns := columns df; rows := List.filter p (rows df) |}.

(** [pd.DataFrame([record])] *)
Definition frame_of_record (record : dict) : DataFrame :=
  {| columns := record.*1; rows := [row_of_dict record] |}.

(** [pd.concat([df1, df2], ignore_index=True)]: the rows of [df1], then the
    rows of [df2]; the columns of [df1], then the new ones of [df2]. *)
Definition concat (df1 df2 : DataFrame) : DataFrame :=
  {| columns := columns df1
                ++ List.filter (λ c, negb (bool_decide (c ∈ columns df1))) (columns df2);
     rows := rows df1 ++ rows df2 |}.

(** [df.loc[i, :] = d] for a dictionary [d] and a row [i] of the frame: the
    dictionary is aligned with the columns of the frame. *)
Definition loc_set_row (i : nat) (d : dict) (df : DataFrame) : DataFrame :=
  {| columns := columns df; rows := <[i := reindex (columns df) (row_of_dict d)]> (rows df) |}.

(** [df.loc[i, c] = v] for a row [i] and a column [c] of the frame. *)
Definition loc_set_cell (i : nat) (c v : string) (df : DataFrame) : DataFrame :=
  {| columns := columns df; rows := alter (λ r : row, <[c := v]> r) i (rows df) |}.

(** [df.empty] *)
Definition empty_frame (df : DataFrame) : bool :=
  bool_decide (columns df = []) || bool_decide (rows df = []).

(** ** Config and constants *)

Definition COLUMNS : list string :=
  [ "record_id"; "body_tag_no"; "deceased_name"; "age"; "sex"; "dod_date";
    "tod_time"; "cause_of_death"; "ward_unit"; "brought_by"; "admitted_dt";
    "storage_location"; "next_of_kin"; "next_of_kin_contact"; "id_docs_seen";
    "autopsy_required"; "autopsy_date"; "release_status"; "released_dt";
    "released_to"; "remarks"; "last_updated" ].

Definition SEX_OPTIONS : list string := ["Male"; "Female"; "Other"; "Unknown"].
Definition STATUS_OPTIONS : list string := ["In Storage"; "Released"; "Transferred"].
Definition YN_OPTIONS : list string := ["Yes"; "No"].
Definition AUTO_OPTIONS : list string := ["Yes"; "No"; "Pending"].

(** ** The record store *)

(** The file at [CSV_PATH]: absent, or the table it holds. *)
Abbreviation store := (option DataFrame).

Definition ensure_storage (fs : store) : store :=
  match fs with
  | None => Some {| columns := COLUMNS; rows := [] |}
  | Some _ => fs
  end.

(** The loop that both [load_data] and the import run:
    [for col in COLUMNS: if col not in df.columns: df[col] = ""]. *)
Definition add_missing_columns (df : DataFrame) : DataFrame :=
  fold_left (λ df col, if bool_decide (col ∈ columns df) then df
                       else setitem_column col "" df) COLUMNS df.

(** [load_data()]: the file after the call (it may have been created) and the
    frame returned. *)
Definition load_data (fs : store) : option (store * DataFrame) :=
  let fs := ensure_storage fs in
  df ← fs;
  let df := add_missing_columns df in
  df ← getitem_columns COLUMNS df;
  Some (fs, df).

(** [save_data(df)]: the file after [df[COLUMNS].to_csv(CSV_PATH)]. *)
Definition save_data (df : DataFrame) : option store :=
  df ← getitem_columns COLUMNS df;
  Some (Some df).

(** What the page reports. *)
Inductive message :=
  | Error_required (missing : list string)
  | Success_saved
  | Info_no_records
  | Error_not_located
  | Success_changes_saved
  | Success_released
  | Success_transferred
  | Success_import
  | Error_import.

(** An uploaded file: one [pd.read_csv] fails on, or the table it parses to. *)
Inductive uploaded_csv := Unparsable | Parsed (df : DataFrame).

Definition read_uploaded (u : uploaded_csv) : option DataFrame :=
  match u with Unparsable => None | Parsed df => Some df end.

(** The sidebar's restore/import block. *)
Definition sidebar_import (fs : store) (uploaded : option uploaded_csv)
  : store * option message :=
  match uploaded with
  | None => (fs, None)
  | Some u =>
      (* try: ... except Exception as e: st.error(...) *)
      match (df_imp ← read_uploaded u;
             let df_imp := add_missing_columns df_imp in
             df_imp ← getitem_columns COLUMNS df_imp;
             save_data df_imp) with
      | Some fs' => (fs', Some Success_import)
      | None => (fs, Some Error_import)
      end
  end.

(** ** The Add Record tab *)

(** The values of the widgets of the tab when [Save Record] is pressed. *)
Record add_form := AddForm {
  deceased_name : string;
  age : string;
  sex : string;
  body_tag_no : string;
  ward_unit : string;
  dod : option date;
  tod : time;
  cause : string;
  brought_by : string;
  storage_location : string;
  nok : string;
  nok_contact : string;
  id_docs : string;
  autopsy_required : string;
  autopsy_date : option date;
  remarks : string;
  admitted_date : option date;
  admitted_time : time;
}.

Definition date_field (d : option date) : field_value :=
  match d with None => FNone | Some d => FDate d end.

Definition date_input (d : option date) : date_arg :=
  match d with None => DNone | Some d => DDate d end.

Definition add_required (f : add_form) : list (string * field_value) :=
  [ ("Deceased Name", FStr (deceased_name f));
    ("Body Tag Number", FStr (body_tag_no f));
    ("Date of Death", date_field (dod f));
    ("Storage Location", FStr (storage_location f)) ].

(** The dictionary [record] built by the handler; [uuid4] is the text of the
    UUID drawn by [uuid.uuid4()], [now] the reading of [now_iso()]. *)
Definition add_record `{Platform} (f : add_form) (uuid4 now : string) : dict :=
  [ ("record_id", Some uuid4);
    ("body_tag_no", Some (Text.strip (body_tag_no f)));
    ("deceased_name", Some (Text.strip (deceased_name f)));
    ("age", Some (Text.strip (age f)));
    ("sex", Some (sex f));
    ("dod_date", Some (to_date_str (dod f)));
    ("tod_time", Some (to_time_str (Some (tod f))));
    ("cause_of_death", Some (Text.strip (cause f)));
    ("ward_unit", Some (Text.strip (ward_unit f)));
    ("brought_by", Some (Text.strip (brought_by f)));
    ("admitted_dt", Some (combine_date_time (date_input (admitted_date f))
                                            (TTime (admitted_time f))));
    ("storage_location", Some (Text.strip (storage_location f)));
    ("next_of_kin", Some (Text.strip (nok f)));
    ("next_of_kin_contact", Some (Text.strip (nok_contact f)));
    ("id_docs_seen", Some (id_docs f));
    ("autopsy_required", Some (autopsy_required f));
    ("autopsy_date", Some (match autopsy_date f with
                           | Some d => to_date_str (Some d)
                           | None => ""
                           end));
    ("release_status", Some "In Storage");
    ("released_dt", Some "");
    ("released_to", Some "");
    ("remarks", Some (Text.strip (remarks f)));
    ("last_updated", Some now) ].

(** The handler of [Save Record]: the file afterwards and the message shown. *)
Definition tab_add_save `{Platform} (fs : store) (f : add_form) (uuid4 now : string)
  : option (store * message) :=
  let missing := validate_required (add_required f) in
  if negb (bool_decide (missing = [])) then Some (fs, Error_required missing)
  else
    '(fs, df) ← load_data fs;
    let record := add_record f uuid4 now in
    let df := concat df (frame_of_record record) in
    fs ← save_data df;
    Some (fs, Success_saved).

(** ** The Browse & Filter tab *)

Record browse_filters := Filters {
  f_status : list string;
  f_sex : list string;
  f_from : option date;
  f_to : option date;
  q_name : string;
  q_location : string;
  q_cause : string;
}.

(** [df_f[c].isin(vs)], row by row. *)
Definition isin (c : string) (vs : list string) (r : row) : bool :=
  match r !! c with
  | Some v => bool_decide (v ∈ vs)
  | None => false
  end.

(** [parse_date(x)] of the tab: any exception gives [None]. *)
Definition parse_date (x : option string) : option date :=
  x ← x; Strptime.date_Ymd x.

(** [df_f[c].str.lower().str.contains(q, na=False)] once [q] is compiled to
    the test [m]. *)
Definition lower_contains (m : string → bool) (c : string) (r : row) : bool :=
  match r !! c with
  | Some v => m (Text.lower v)
  | None => false
  end.

(** [c in df.columns]: reading [df[c]] without the column raises
    [KeyError]. *)
Definition has_column (c : string) (df : DataFrame) : bool :=
  bool_decide (c ∈ columns df).

(** [df_f[df_f[c].isin(vs)]]: [isin] returns a boolean Series, also on a
    frame with no rows, and the selection is by mask. *)
Definition getitem_isin (c : string) (vs : list string) (df : DataFrame)
  : option DataFrame :=
  if has_column c df then Some (getitem_mask (isin c vs) df) else None.

(** [df_f[df_f[c].apply(f)]] for an [f] that returns booleans. On a frame
    with rows [apply] gives a boolean Series and the selection is by mask. On
    a frame with no rows [apply] returns an empty Series of dtype object,
    which [df_f[...]] does not take for a mask but for a list of column
    labels, an empty one: the result has no columns (and no rows). *)
Definition getitem_apply (c : string) (f : option string → bool) (df : DataFrame)
  : option DataFrame :=
  if has_column c df
  then Some (if bool_decide (rows df = [])
             then {| columns := []; rows := [] |}
             else getitem_mask (λ r, f (r !! c)) df)
  else None.

Definition filter_status (vs : list string) (df : DataFrame) : option DataFrame :=
  if bool_decide (vs = []) then Some df else getitem_isin "release_status" vs df.

Definition filter_sex (vs : list string) (df : DataFrame) : option DataFrame :=
  if bool_decide (vs = []) then Some df else getitem_isin "sex" vs df.

Definition filter_from (f : option date) (df : DataFrame) : option DataFrame :=
  match f with
  | None => Some df
  | Some f_from =>
      getitem_apply "dod_date"
        (λ x, match parse_date x with
              | Some d => date_le f_from d
              | None => false
              end) df
  end.

Definition filter_to (f : option date) (df : DataFrame) : option DataFrame :=
  match f with
  | None => Some df
  | Some f_to =>
      getitem_apply "dod_date"
        (λ x, match parse_date x with
              | Some d => date_le d f_to
              | None => false
              end) df
  end.

(** A text search over the columns [cs] (joined by [|]): [KeyError] without
    one of the columns, [re.error] on a query that does not compile; the
    mask [str.contains] returns is boolean also on a frame with no rows. *)
Definition filter_text `{Platform} (q : string) (cs : list string) (df : DataFrame)
  : option DataFrame :=
  if Text.blank q then Some df
  else
    let q := Text.lower (Text.strip q) in
    if forallb (λ c, has_column c df) cs
    then m ← re_compile q;
         Some (getitem_mask (λ r, existsb (λ c, lower_contains m c r) cs) df)
    else None.

(** The filters of the tab, in the order of the source. *)
Definition apply_filters `{Platform} (flt : browse_filters) (df : DataFrame)
  : option DataFrame :=
  let df_f := df in
  df_f ← filter_status (f_status flt) df_f;
  df_f ← filter_sex (f_sex flt) df_f;
  df_f ← filter_from (f_from flt) df_f;
  df_f ← filter_to (f_to flt) df_f;
  df_f ← filter_text (q_name flt) ["deceased_name"; "body_tag_no"; "next_of_kin"] df_f;
  df_f ← filter_text (q_location flt) ["storage_location"] df_f;
  filter_text (q_cause flt) ["cause_of_death"] df_f.

Definition tab_browse `{Platform} (fs : store) (flt : browse_filters)
  : option (store * DataFrame) :=
  '(fs, df) ← load_data fs;
  df_f ← apply_filters flt df;
  Some (fs, df_f).

(** ** The Edit / Update tab *)

(** [opts.index(v)] for a [v] of the list. *)
Fixpoint list_index (v : string) (opts : list string) : nat :=
  match opts with
  | [] => 0
  | o :: opts' => if bool_decide (o = v) then 0 else S (list_index v opts')
  end.

(** [max(0, OPTS.index(rec[c]) if rec[c] in OPTS else fallback)]: the index
    the form computes for a select box. *)
Definition selectbox_index (opts : list string) (v : option string) (fallback : nat) : nat :=
  0 `max` match v with
          | Some v => if bool_decide (v ∈ opts) then list_index v opts else fallback
          | None => fallback
          end.

(** The option at the index the form computes for each of its four select
    boxes, for the row [rec]. *)
Definition sex_default (rec : row) : option string :=
  SEX_OPTIONS !! selectbox_index SEX_OPTIONS (rec !! "sex") 3.
Definition id_docs_default (rec : row) : option string :=
  YN_OPTIONS !! selectbox_index YN_OPTIONS (rec !! "id_docs_seen") 1.
Definition autopsy_req_default (rec : row) : option string :=
  AUTO_OPTIONS !! selectbox_index AUTO_OPTIONS (rec !! "autopsy_required") 2.
Definition status_default (rec : row) : option string :=
  STATUS_OPTIONS !! selectbox_index STATUS_OPTIONS (rec !! "release_status") 0.

(** The values of the widgets of the form when a button is pressed
    ([storage_location_e] only seeds [storage_location_e2]). *)
Record edit_form := EditForm {
  deceased_name_e : string;
  age_e : string;
  sex_e : string;
  body_tag_no_e : string;
  dod_e : option date;
  tod_e : time;
  cause_e : string;
  ward_unit_e : string;
  brought_by_e : string;
  nok_e : string;
  nokc_e : string;
  id_docs_e : string;
  autopsy_req_e : string;
  autopsy_date_e : option date;
  remarks_e : string;
  storage_location_e2 : string;
  status_e : string;
  released_to_e : string;
  released_date_e : option date;
  released_time_e : time;
}.

(** The button pressed in this run of the page, with the clock readings its
    handler takes. *)
Inductive edit_button :=
  | No_button
  | Save_changes (f : edit_form) (now : string)
  | Mark_released (now1 now2 : string)
  | Mark_transferred (now1 now2 : string).

(** The search for the row whose [record_id] starts with the identifier taken
    from the chosen label; a NaN identifier has no [startswith]. *)
Fixpoint locate_from (i : nat) (rids : list (option string)) (selected_id : string)
  : option (option nat) :=
  match rids with
  | [] => Some None
  | None :: _ => None
  | Some rid :: rids' =>
      if Text.startswith rid selected_id then Some (Some i)
      else locate_from (S i) rids' selected_id
  end.

Definition locate (df : DataFrame) (selected_id : string) : option (option nat) :=
  locate_from 0 ((λ r : row, r !! "record_id") <$> rows df) selected_id.

Definition edit_required (f : edit_form) : list (string * field_value) :=
  [ ("Deceased Name", FStr (deceased_name_e f));
    ("Body Tag Number", FStr (body_tag_no_e f));
    ("Date of Death", date_field (dod_e f));
    ("Storage Location", FStr (storage_location_e2 f)) ].

(** The dictionary assigned to the row by [Save Changes]. *)
Definition edit_record `{Platform} (rec : row) (f : edit_form) (now : string) : dict :=
  let in_storage := bool_decide (status_e f = "In Storage") in
  [ ("record_id", rec !! "record_id");
    ("body_tag_no", Some (Text.strip (body_tag_no_e f)));
    ("deceased_name", Some (Text.strip (deceased_name_e f)));
    ("age", Some (Text.strip (age_e f)));
    ("sex", Some (sex_e f));
    ("dod_date", Some (to_date_str (dod_e f)));
    ("tod_time", Some (to_time_str (Some (tod_e f))));
    ("cause_of_death", Some (Text.strip (cause_e f)));
    ("ward_unit", Some (Text.strip (ward_unit_e f)));
    ("brought_by", Some (Text.strip (brought_by_e f)));
    ("admitted_dt", rec !! "admitted_dt");
    ("storage_location", Some (Text.strip (storage_location_e2 f)));
    ("next_of_kin", Some (Text.strip (nok_e f)));
    ("next_of_kin_contact", Some (Text.strip (nokc_e f)));
    ("id_docs_seen", Some (id_docs_e f));
    ("autopsy_required", Some (autopsy_req_e f));
    ("autopsy_date", Some (match autopsy_date_e f with
                           | Some d => to_date_str (Some d)
                           | None => ""
                           end));
    ("release_status", Some (status_e f));
    ("released_dt", Some (if negb in_storage
                          then combine_date_time (date_input (released_date_e f))
                                                 (TTime (released_time_e f))
                          else ""));
    ("released_to", Some (if negb in_storage then Text.strip (released_to_e f) else ""));
    ("remarks", Some (Text.strip (remarks_e f)));
    ("last_updated", Some now) ].

(** The quick actions: three cells of the row are assigned, then the frame is
    saved. *)
Definition mark_now (status now1 now2 : string) (row_idx : nat) (df : DataFrame)
  : DataFrame :=
  let df := loc_set_cell row_idx "release_status" status df in
  let df := loc_set_cell row_idx "released_dt" now1 df in
  loc_set_cell row_idx "last_updated" now2 df.

(** One run of the tab: [selected_id] is the identifier taken from the label
    chosen in the select box, [b] the button pressed. *)
Definition tab_edit `{Platform} (fs : store) (selected_id : string) (b : edit_button)
  : option (store * option message) :=
  '(fs, df) ← load_data fs;
  if empty_frame df then Some (fs, Some Info_no_records)
  else
    row_idx ← locate df selected_id;
    match row_idx with
    | None => Some (fs, Some Error_not_located)
    | Some row_idx =>
        rec ← rows df !! row_idx;
        match b with
        | No_button => Some (fs, None)
        | Save_changes f now =>
            let missing := validate_required (edit_required f) in
            if negb (bool_decide (missing = []))
            then Some (fs, Some (Error_required missing))
            else
              let df := loc_set_row row_idx (edit_record rec f now) df in
              fs ← save_data df;
              Some (fs, Some Success_changes_saved)
        | Mark_released now1 now2 =>
            fs ← save_data (mark_now "Released" now1 now2 row_idx df);
            Some (fs, Some Success_released)
        | Mark_transferred now1 now2 =>
            fs ← save_data (mark_now "Transferred" now1 now2 row_idx df);
            Some (fs, Some Success_transferred)
        end
    end.

(** ** Schema normal form and the platform of the examples *)

(** The schema alignment as the specification words it: every declared
    column, in canonical order; the cell of the table where the table has the
    column, the empty text where it has not; every other column dropped. *)
Definition normalize_row (present : list string) (r : row) : row :=
  list_to_map
    (omap (λ c, pair c <$> (if bool_decide (c ∈ present) then r !! c else Some ""))
          COLUMNS).

Definition schema_normalize (t : DataFrame) : DataFrame :=
  {| columns := COLUMNS; rows := normalize_row (columns t) <$> rows t |}.

(** A table as [pd.read_csv(..., dtype=str, keep_default_na=False)] returns
    it: every row has a text cell in every column. *)
Definition rectangular (t : DataFrame) : Prop :=
  Forall (λ r : row, Forall (λ c, is_Some (r !! c)) (columns t)) (rows t).

(** A row without cells outside the declared columns. *)
Definition row_in_schema (r : row) : Prop := ∀ c, is_Some (r !! c) → c ∈ COLUMNS.

(** A frame in the canonical column order whose rows have no other cells. *)
Definition schema_normal (df : DataFrame) : Prop :=
  columns df = COLUMNS ∧ Forall row_in_schema (rows df).

(** The identifiers stored in a frame. *)
Definition record_ids (df : DataFrame) : list (option string) :=
  (λ r : row, r !! "record_id") <$> rows df.

(** Some character of the text is not white space. *)
Fixpoint has_nonspace (s : string) : bool :=
  match s with
  | EmptyString => false
  | String c s' => negb (Text.isspace c) || has_nonspace s'
  end.

(** [d[k]] as a cell: the first entry of key [k] that holds a text. *)
Fixpoint dict_get (k : string) (d : dict) : option string :=
  match d with
  | [] => None
  | (k', v) :: d' =>
      if bool_decide (k' = k)
      then match v with Some x => Some x | None => dict_get k d' end
      else dict_get k d'
  end.

(** [pat in s] *)
Fixpoint contains (pat s : string) : bool :=
  String.prefix pat s
  || match s with
     | EmptyString => false
     | String _ s' => contains pat s'
     end.

Definition plain_char (c : ascii) : bool :=
  let n := nat_of_ascii c in
  ((48 <=? n) && (n <=? 57)) || ((65 <=? n) && (n <=? 90))
  || ((97 <=? n) && (n <=? 122)) || (n =? 32).

(** The time of day in seconds. *)
Definition seconds_of_day (t : time) : nat := hour t * 3600 + minute t * 60 + second t.

(** The platform of the examples. Its zone stands at UTC+05:30 all year and
    in every year, so the conversion keeps the wall clock and attaches that
    offset, except in the first five and a half hours of the calendar, whose
    UTC value would lie before the year 1: there [astimezone] raises
    [OverflowError]. Its engine is asked to compile only patterns made of
    letters, digits and blanks, which search for the pattern as a substring. *)
Definition example_platform : Platform :=
  {| astimezone_tzlocal := λ dt,
       if bool_decide (dt_date dt = Date 1 1 1) && (seconds_of_day (dt_time dt) <? 5 * 3600 + 30 * 60)
       then None else Some (Aware dt 19800%Z);
     re_compile := λ pat,
       if forallb plain_char (String.list_ascii_of_string pat)
       then Some (contains pat) else None |}.

(** ** Data of the examples *)

Definition example_uuid : string := "3f2b8c1e-7d4a-4e59-9a60-5b1c2d3e4f70".
Definition example_now : string := "2024-03-02T10:31:00+05:30".

(** The scenario of the specification: Jane Doe, tag B-102, died on
    2024-03-01, stored in drawer 4. *)
Definition example_add_form : add_form :=
  {| deceased_name := "Jane Doe"; age := "65"; sex := "Female"; body_tag_no := "B-102";
     ward_unit := "Ward 3"; dod := Some (Date 2024 3 1); tod := Time 23 40 0 0;
     cause := "Cardiac arrest"; brought_by := "Ward staff"; storage_location := "Drawer 4";
     nok := "John Doe"; nok_contact := "555-0100"; id_docs := "No";
     autopsy_required := "Pending"; autopsy_date := None; remarks := "";
     admitted_date := Some (Date 2024 3 2); admitted_time := Time 10 30 0 0 |}.

(** The same form with the name left empty. *)
Definition example_add_form_no_name : add_form :=
  {| deceased_name := "  "; age := "65"; sex := "Female"; body_tag_no := "B-102";
     ward_unit := "Ward 3"; dod := Some (Date 2024 3 1); tod := Time 23 40 0 0;
     cause := "Cardiac arrest"; brought_by := "Ward staff"; storage_location := "Drawer 4";
     nok := "John Doe"; nok_contact := "555-0100"; id_docs := "No";
     autopsy_required := "Pending"; autopsy_date := None; remarks := "";
     admitted_date := Some (Date 2024 3 2); admitted_time := Time 10 30 0 0 |}.

(** The store after Jane Doe's record has been added to a new file. *)
Definition example_frame : DataFrame :=
  {| columns := COLUMNS;
     rows := [row_of_dict (@add_record example_platform example_add_form
                                        example_uuid example_now)] |}.

Definition example_store : store := Some example_frame.

(** An edit of that record that sets it back to storage while a recipient
    and a release date are filled in. *)
Definition example_edit_form : edit_form :=
  {| deceased_name_e := "Jane Doe"; age_e := "65"; sex_e := "Female";
     body_tag_no_e := "B-102"; dod_e := Some (Date 2024 3 1); tod_e := Time 23 40 0 0;
     cause_e := "Cardiac arrest"; ward_unit_e := "Ward 3"; brought_by_e := "Ward staff";
     nok_e := "John Doe"; nokc_e := "555-0100"; id_docs_e := "Yes";
     autopsy_req_e := "No"; autopsy_date_e := None; remarks_e := "";
     storage_location_e2 := "Drawer 4"; status_e := "In Storage";
     released_to_e := " Funeral home "; released_date_e := Some (Date 2024 3 5);
     released_time_e := Time 9 15 0 0 |}.

(** A table written by an older version: no [remarks] column (and most
    others), a column the schema does not know, and values outside the option
    sets of [sex] and [release_status]. *)
Definition legacy_table : DataFrame :=
  {| columns := ["record_id"; "deceased_name"; "sex"; "release_status"; "drawer"];
     rows := [ list_to_map [("record_id", "a1"); ("deceased_name", "R. Roe");
                            ("sex", "M"); ("release_status", "Discharged");
                            ("drawer", "7")] ] |}.

(** The two quick actions of the Edit tab. *)
Definition quick_button (released : bool) (now1 now2 : string) : edit_button :=
  if released then Mark_released now1 now2 else Mark_transferred now1 now2.
Definition quick_status (released : bool) : string :=
  if released then "Released" else "Transferred".
Definition quick_message (released : bool) : message :=
  if released then Success_released else Success_transferred.

(** The first half of the uniqueness property as the specification states
    it: whatever [uuid.uuid4()] returns, the identifier of a created record
    differs from every identifier the store held. *)
Definition created_id_always_fresh : Prop :=
  ∀ (P : Platform) (fs fs1 fs' : store) (df : DataFrame) (f : add_form)
    (uuid4 now : string),
    load_data fs = Some (fs1, df) →
    tab_add_save fs f uuid4 now = Some (fs', Success_saved) →
    Some uuid4 ∉ record_ids df.

(** The success rule of [combine_date_time] as the specification states it:
    with a date that is there and parses, and a time that parses or is absent
    ([None] or blank, read as 00:00), the result is a timestamp. *)
Definition time_arg_absent (t : time_arg) : bool :=
  match t with
  | TNone => true
  | TStr s => Text.blank s
  | TTime _ => false
  end.

Definition valid_parts_give_timestamp : Prop :=
  ∀ (P : Platform) (d : date_arg) (t : time_arg) (d_obj : date) (t_obj : time),
    date_arg_obj d = Some d_obj →
    (if time_arg_absent t then Some (Time 0 0 0 0) else time_arg_obj t) = Some t_obj →
    ∃ a : aware_datetime, combine_date_time d t = isoformat_minutes a.

(** The normalisation of option fields as the specification states it:
    every frame [load_data] returns has the four option fields inside their
    option sets. *)
Definition load_normalizes_options : Prop :=
  ∀ (fs fs1 : store) (df : DataFrame),
    load_data fs = Some (fs1, df) →
    Forall (λ r : row,
              (∀ v, r !! "sex" = Some v → v ∈ SEX_OPTIONS)
              ∧ (∀ v, r !! "id_docs_seen" = Some v → v ∈ YN_OPTIONS)
              ∧ (∀ v, r !! "autopsy_required" = Some v → v ∈ AUTO_OPTIONS)
              ∧ (∀ v, r !! "release_status" = Some v → v ∈ STATUS_OPTIONS))
           (rows df).

(** The option the computed index designates, in words: the stored value
    when it is one of the options, the fallback otherwise. *)
Definition value_or_fallback (opts : list string) (v : option string) (fallback : string)
  : string :=
  match v with
  | Some v => if bool_decide (v ∈ opts) then v else fallback
  | None => fallback
  end.

(** A text query is usable when it is blank (no filter) or compiles. *)
Definition query_ok `{Platform} (q : string) : Prop :=
  Text.blank q = true ∨ is_Some (re_compile (Text.lower (Text.strip q))).

(** A frame obtained from another by dropping rows: same columns, and the
    rows kept stand in their original order. *)
Definition narrows (out df : DataFrame) : Prop :=
  columns out = columns df ∧ rows out `sublist_of` rows df.

(** Three records for the Browse examples: Jane Doe in storage, Adam Poe
    released, Max Doe in storage. *)
Definition browse_row_jane : row :=
  row_of_dict (@add_record example_platform example_add_form example_uuid example_now).
Definition browse_row_adam : row :=
  <["release_status" := "Released"]>
    (<["deceased_name" := "Adam Poe"]>
       (<["sex" := "Male"]>
          (<["record_id" := "9c0d1e2f-3a4b-4c5d-8e6f-708192a3b4c5"]> browse_row_jane))).
Definition browse_row_max : row :=
  <["sex" := "Male"]>
    (<["deceased_name" := "Max Doe"]>
       (<["record_id" := "5a6b7c8d-9e0f-4a1b-9c2d-3e4f5a6b7c8d"]> browse_row_jane)).

Definition browse_frame : DataFrame :=
  {| columns := COLUMNS; rows := [browse_row_jane; browse_row_adam; browse_row_max] |}.

(** The edit form of the examples with the tag left blank. *)
Definition example_edit_form_no_tag : edit_form :=
  {| deceased_name_e := "Jane Doe"; age_e := "65"; sex_e := "Female";
     body_tag_no_e := " "; dod_e := Some (Date 2024 3 1); tod_e := Time 23 40 0 0;
     cause_e := "Cardiac arrest"; ward_unit_e := "Ward 3"; brought_by_e := "Ward staff";
     nok_e := "John Doe"; nokc_e := "555-0100"; id_docs_e := "Yes";
     autopsy_req_e := "No"; autopsy_date_e := None; remarks_e := "";
     storage_location_e2 := "Drawer 4"; status_e := "Released";
     released_to_e := " Funeral home "; released_date_e := Some (Date 2024 3 5);
     released_time_e := Time 9 15 0 0 |}.

(** The edit form of the examples set to Released without a release date. *)
Definition example_edit_form_released_undated : edit_form :=
  {| deceased_name_e := "Jane Doe"; age_e := "65"; sex_e := "Female";
     body_tag_no_e := "B-102"; dod_e := Some (Date 2024 3 1); tod_e := Time 23 40 0 0;
     cause_e := "Cardiac arrest"; ward_unit_e := "Ward 3"; brought_by_e := "Ward staff";
     nok_e := "John Doe"; nokc_e := "555-0100"; id_docs_e := "Yes";
     autopsy_req_e := "No"; autopsy_date_e := None; remarks_e := "";
     storage_location_e2 := " Drawer 9 "; status_e := "Released";
     released_to_e := " Funeral home "; released_date_e := None;
     released_time_e := Time 0 0 0 0 |}.

(** The sidebar's [Create Backup (CSV)] button: the frame [load_data]
    returns is written to a new file beside the store; [ts] is the clock
    reading printed as [%Y%m%d_%H%M%S]. The result is the store after the
    call, the path written and the table written there. *)
Definition sidebar_backup (fs : store) (ts : string)
  : option (store * (string * DataFrame)) :=
  '(fs, df_bk) ← load_data fs;
  let backup_path := "data/mortuary_records_backup_" +:+ ts +:+ ".csv" in
  Some (fs, (backup_path, df_bk)).

(** A row passes a text search: the query is blank, or it compiles to a test
    that the lower-cased cell of one of the columns passes. *)
Definition query_matches `{Platform} (q : string) (cs : list string) (r : row) : Prop :=
  Text.blank q = true
  ∨ ∃ m, re_compile (Text.lower (Text.strip q)) = Some m
         ∧ ∃ c v, c ∈ cs ∧ r !! c = Some v ∧ m (Text.lower v) = true.

(** The text [zfill 4 y] is four decimal digits that read as [y]. *)
Definition year_text_ok (y : nat) : bool :=
  match String.list_ascii_of_string (Text.zfill 4 y) with
  | [a; b; c; e] =>
      Strptime.is_digit a && Strptime.is_digit b && Strptime.is_digit c
      && Strptime.is_digit e && (Strptime.int_of [a; b; c; e] =? y)
  | _ => false
  end.

(** The part of the pattern of [%Y-%m-%d] after the year, returning the
    month, the day and the text left over. *)
Definition month_day_pattern (s : list ascii) : option (nat * nat * list ascii) :=
  Strptime.lit "-" (Strptime.group Strptime.re_m (λ m,
    Strptime.lit "-" (Strptime.group Strptime.re_d (λ d rest,
      Some (Strptime.int_of m, Strptime.int_of d, rest))))) s.

(** The columns of the table the Browse tab displays. *)
Definition show_cols : list string :=
  [ "record_id"; "body_tag_no"; "deceased_name"; "age"; "sex";
    "dod_date"; "tod_time"; "storage_location"; "release_status"; "last_updated" ].

(** One run of the Browse tab up to the table it displays,
    [st.dataframe(df_f[show_cols])]: the store, the filtered frame and the
    displayed table; [KeyError] when the filtered frame lacks a displayed
    column. *)
Definition tab_browse_view `{Platform} (fs : store) (flt : browse_filters)
  : option (store * DataFrame * DataFrame) :=
  '(fs, df_f) ← tab_browse fs flt;
  view ← getitem_columns show_cols df_f;
  Some (fs, df_f, view).

(** An empty frame of the schema, as an empty store is loaded. *)
Definition no_records : DataFrame := {| columns := COLUMNS; rows := [] |}.

(** The date the [Date of Death] input of the Edit form starts on: the
    stored text parsed, [None] when it is empty or [strptime] raises. *)
Definition dod_default (rec : row) : option date :=
  x ← rec !! "dod_date";
  if bool_decide (x = "") then None else Strptime.date_Ymd x.

(** The time the [Time of Death] input of the Edit form starts on: the
    stored text parsed, midnight when it is empty or [strptime] raises. *)
Definition tod_default (rec : row) : time :=
  default (Time 0 0 0 0)
    (x ← rec !! "tod_time";
     if bool_decide (x = "") then None else Strptime.time_HM x).

(** * Properties *)

(** ** Rows and frames *)

Lemma lookup_reindex (cols : list string) (r : row) (c : string) :
  reindex cols r !! c = if decide (c ∈ cols) then r !! c else None.
Proof.
  unfold reindex. induction cols as [|a cols IH]; csimpl.
  - done.
  - destruct (decide (a = c)) as [->|Hne].
    + rewrite decide_True by set_solver.
      destruct (r !! c) eqn:Hc; csimpl.
      * by rewrite lookup_insert_eq.
      * rewrite IH. by case_decide.
    + destruct (r !! a); csimpl; rewrite ?lookup_insert_ne by done;
        rewrite IH; destruct (decide (c ∈ cols)) as [?|?], (decide (c ∈ a :: cols)) as [?|?];
        set_solver.
Qed.

Lemma reindex_id (cols : list string) (r : row) :
  (∀ c, is_Some (r !! c) → c ∈ cols) → reindex cols r = r.
Proof.
  intros Hdom. apply map_eq. intros c. rewrite lookup_reindex.
  case_decide as Hc; [done|].
  destruct (r !! c) eqn:E; [|done]. exfalso. apply Hc, Hdom. by rewrite E.
Qed.

Lemma reindex_in_schema (r : row) : row_in_schema (reindex COLUMNS r).
Proof.
  intros c. rewrite lookup_reindex. case_decide; [done|]. by intros [? ?].
Qed.

Lemma lookup_normalize_row (present : list string) (r : row) (c : string) :
  normalize_row present r !! c =
    if decide (c ∈ COLUMNS)
    then (if decide (c ∈ present) then r !! c else Some "")
    else None.
Proof.
  unfold normalize_row. generalize COLUMNS as cols.
  induction cols as [|a cols IH]; csimpl.
  - done.
  - destruct (decide (a = c)) as [->|Hne].
    + rewrite decide_True by set_solver.
      case_bool_decide as Hp.
      * rewrite decide_True by done.
        destruct (r !! c) eqn:Hc; csimpl; [by rewrite lookup_insert_eq|].
        rewrite IH. destruct (decide (c ∈ cols)); [by rewrite decide_True|done].
      * rewrite decide_False by done. csimpl. by rewrite lookup_insert_eq.
    + destruct (if bool_decide (a ∈ present) then r !! a else Some ""); csimpl;
        rewrite ?lookup_insert_ne by done; rewrite IH;
        destruct (decide (c ∈ cols)), (decide (c ∈ a :: cols)); set_solver.
Qed.

Lemma add_missing_columns_columns (df : DataFrame) (c : string) :
  c ∈ columns (add_missing_columns df) ↔ c ∈ columns df ∨ c ∈ COLUMNS.
Proof.
  unfold add_missing_columns. generalize COLUMNS as cs. intros cs.
  revert df. induction cs as [|a cs IH]; intros df; cbn [fold_left].
  - set_solver.
  - rewrite IH. case_bool_decide as Ha; cbn [columns setitem_column].
    + set_solver.
    + rewrite bool_decide_eq_false_2 by done. set_solver.
Qed.

Lemma add_missing_columns_rows (df : DataFrame) :
  Forall2 (λ r r' : row, ∀ c,
             r' !! c = if decide (c ∈ COLUMNS ∧ c ∉ columns df) then Some "" else r !! c)
          (rows df) (rows (add_missing_columns df)).
Proof.
  unfold add_missing_columns. generalize COLUMNS as cs. intros cs.
  revert df. induction cs as [|a cs IH]; intros df; cbn [fold_left].
  - apply Forall2_same_length_lookup_2; [done|].
    intros i r r' Hr Hr' c. rewrite decide_False by set_solver. congruence.
  - case_bool_decide as Ha.
    + eapply Forall2_impl; [apply IH|]. intros r r' Hrr c. rewrite Hrr.
      destruct (decide (c ∈ cs ∧ c ∉ columns df)) as [?|?],
               (decide (c ∈ a :: cs ∧ c ∉ columns df)) as [?|?]; set_solver.
    + specialize (IH (setitem_column a "" df)).
      unfold setitem_column in IH at 1. simpl in IH.
      apply Forall2_fmap_l in IH.
      eapply Forall2_impl; [apply IH|]. intros r r' Hrr c. simpl in Hrr.
      rewrite Hrr. rewrite bool_decide_eq_false_2 by done.
      destruct (decide (a = c)) as [->|Hne].
      * rewrite decide_False by set_solver. rewrite decide_True by set_solver.
        by rewrite lookup_insert_eq.
      * rewrite lookup_insert_ne by done.
        destruct (decide (c ∈ cs ∧ c ∉ columns df ++ [a])) as [?|?],
                 (decide (c ∈ a :: cs ∧ c ∉ columns df)) as [?|?]; set_solver.
Qed.

Lemma getitem_columns_add_missing (df : DataFrame) :
  getitem_columns COLUMNS (add_missing_columns df) = Some (schema_normalize df).
Proof.
  unfold getitem_columns.
  assert (forallb (λ c, bool_decide (c ∈ columns (add_missing_columns df))) COLUMNS = true)
    as ->.
  { apply forallb_forall. intros c Hc. apply bool_decide_eq_true.
    apply add_missing_columns_columns. right. by apply list_elem_of_In. }
  unfold schema_normalize. do 2 f_equal.
  pose proof (add_missing_columns_rows df) as HF.
  induction HF as [|r r' l l' Hrr _ IH]; csimpl; [done|]. f_equal; [|done].
  apply map_eq. intros c. rewrite lookup_reindex, lookup_normalize_row, Hrr.
  destruct (decide (c ∈ COLUMNS)) as [Hc|Hc]; [|done].
  destruct (decide (c ∈ columns df)) as [Hp|Hp].
  - rewrite decide_False; [done|]. by intros [_ ?].
  - by rewrite decide_True.
Qed.

(** Reduction of the option monad by rewriting. *)
Lemma bind_ret {A B} (x : A) (f : A → option B) : Some x ≫= f = f x.
Proof. reflexivity. Qed.

Lemma load_data_unfold (fs : store) :
  load_data fs =
    ensure_storage fs ≫= λ df,
      getitem_columns COLUMNS (add_missing_columns df) ≫= λ df',
        Some (ensure_storage fs, df').
Proof. reflexivity. Qed.

Lemma ensure_storage_Some (fs : store) : ∃ t, ensure_storage fs = Some t.
Proof.
  destruct fs as [t|]; [by exists t|].
  exists {| columns := COLUMNS; rows := [] |}. reflexivity.
Qed.

(** [load_data] on a file that is missing or holds a table: it returns the
    schema normal form of the table, the file being created by
    [ensure_storage] if need be. *)
Lemma load_data_spec (fs : store) :
  ∃ t, ensure_storage fs = Some t
       ∧ load_data fs = Some (Some t, schema_normalize t).
Proof.
  destruct (ensure_storage_Some fs) as [t Ht].
  exists t. split; [done|].
  rewrite load_data_unfold, Ht, bind_ret, getitem_columns_add_missing, bind_ret.
  reflexivity.
Qed.

Lemma normalize_row_in_schema (present : list string) (r : row) :
  row_in_schema (normalize_row present r).
Proof.
  intros c. rewrite lookup_normalize_row. case_decide; [done|]. by intros [? ?].
Qed.

Lemma schema_normalize_normal (t : DataFrame) : schema_normal (schema_normalize t).
Proof.
  split; [done|]. simpl. apply Forall_fmap, Forall_forall. intros r _.
  apply normalize_row_in_schema.
Qed.

Lemma getitem_columns_normal (df : DataFrame) :
  schema_normal df → getitem_columns COLUMNS df = Some df.
Proof.
  destruct df as [cols rs]. intros [Hc Hr]. simpl in *. subst cols.
  unfold getitem_columns. simpl. f_equal. f_equal.
  induction Hr as [|r l Hrow _ IH]; csimpl; [done|].
  f_equal; [|done]. by apply reindex_id.
Qed.

Lemma save_data_normal (df : DataFrame) : schema_normal df → save_data df = Some (Some df).
Proof. intros Hn. unfold save_data. by rewrite getitem_columns_normal. Qed.

Lemma schema_normalize_id (df : DataFrame) : schema_normal df → schema_normalize df = df.
Proof.
  destruct df as [cols rs]. intros [Hc Hr]. simpl in *. subst cols.
  unfold schema_normalize. simpl. f_equal.
  induction Hr as [|r l Hrow _ IH]; csimpl; [done|].
  f_equal; [|done].
  apply map_eq. intros c. rewrite lookup_normalize_row.
  destruct (decide (c ∈ COLUMNS)) as [Hc|Hc]; [done|].
  destruct (r !! c) eqn:E; [|done]. exfalso. apply Hc, Hrow. by rewrite E.
Qed.

Lemma load_data_normal (df : DataFrame) :
  schema_normal df → load_data (Some df) = Some (Some df, df).
Proof.
  intros Hn. destruct (load_data_spec (Some df)) as (t & Ht & ->).
  simpl in Ht. injection Ht as <-. by rewrite schema_normalize_id.
Qed.

(** Membership of a literal in a literal list, by evaluation. *)
Ltac decide_elem := apply (bool_decide_unpack _); vm_compute; exact I.

Lemma load_data_schema_normal (fs fs1 : store) (df : DataFrame) :
  load_data fs = Some (fs1, df) → schema_normal df ∧ fs1 = ensure_storage fs.
Proof.
  destruct (load_data_spec fs) as (t & Ht & ->). intros [= <- <-].
  split; [apply schema_normalize_normal | done].
Qed.

Lemma lookup_row_of_dict (d : dict) (k : string) : row_of_dict d !! k = dict_get k d.
Proof.
  unfold row_of_dict. induction d as [|[k' v] d IH]; csimpl; [done|].
  destruct v as [x|]; csimpl.
  - case_bool_decide as Hk.
    + subst k'. by rewrite lookup_insert_eq.
    + by rewrite lookup_insert_ne.
  - case_bool_decide; done.
Qed.

Lemma row_of_dict_keys (d : dict) (c : string) :
  is_Some (row_of_dict d !! c) → c ∈ d.*1.
Proof.
  rewrite lookup_row_of_dict. induction d as [|[k' v] d IH]; csimpl.
  - by intros [? ?].
  - case_bool_decide as Hk.
    + subst k'. intros _. apply list_elem_of_here.
    + intros Hs. apply list_elem_of_further. by apply IH.
Qed.

Lemma add_record_keys `{Platform} (f : add_form) (uuid4 now : string) :
  (add_record f uuid4 now).*1 = COLUMNS.
Proof. reflexivity. Qed.

Lemma edit_record_keys `{Platform} (rec : row) (f : edit_form) (now : string) :
  (edit_record rec f now).*1 = COLUMNS.
Proof. reflexivity. Qed.

Lemma concat_record_normal (df : DataFrame) (record : dict) :
  schema_normal df → record.*1 = COLUMNS →
  concat df (frame_of_record record)
    = {| columns := COLUMNS; rows := rows df ++ [row_of_dict record] |}
  ∧ schema_normal {| columns := COLUMNS; rows := rows df ++ [row_of_dict record] |}.
Proof.
  intros [Hc Hr] Hk. split.
  - unfold concat, frame_of_record. cbn [columns rows]. rewrite Hc, Hk.
    assert (COLUMNS ++ List.filter (λ c, negb (bool_decide (c ∈ COLUMNS))) COLUMNS
            = COLUMNS) as -> by (vm_compute; reflexivity).
    reflexivity.
  - split; [done|]. cbn [rows]. apply Forall_app. split; [done|].
    apply Forall_singleton. intros c Hs. rewrite <- Hk. by apply row_of_dict_keys.
Qed.

Lemma loc_set_row_normal (i : nat) (d : dict) (df : DataFrame) :
  schema_normal df → schema_normal (loc_set_row i d df).
Proof.
  intros [Hc Hr]. split; [done|]. cbn [rows loc_set_row]. rewrite Hc.
  destruct (decide (i < length (rows df))) as [Hi|Hi].
  - apply Forall_insert; [done|]. apply reindex_in_schema.
  - rewrite list_insert_ge by lia. done.
Qed.

Lemma loc_set_cell_normal (i : nat) (c v : string) (df : DataFrame) :
  c ∈ COLUMNS → schema_normal df → schema_normal (loc_set_cell i c v df).
Proof.
  intros Hin [Hc Hr]. split; [done|]. cbn [rows loc_set_cell].
  apply Forall_alter; [done|]. intros r _ Hrow k.
  destruct (decide (c = k)) as [<-|Hne]; [done|].
  rewrite lookup_insert_ne by done. apply Hrow.
Qed.

Lemma mark_now_normal (status now1 now2 : string) (i : nat) (df : DataFrame) :
  schema_normal df → schema_normal (mark_now status now1 now2 i df).
Proof.
  intros Hn. unfold mark_now.
  repeat (apply loc_set_cell_normal; [decide_elem|]). done.
Qed.

(** ** The handlers, step by step *)

Lemma locate_from_found (rids : list (option string)) (sel : string) (i j : nat) :
  locate_from i rids sel = Some (Some j) →
  i ≤ j ∧ ∃ rid, rids !! (j - i) = Some (Some rid) ∧ Text.startswith rid sel = true.
Proof.
  revert i. induction rids as [|[rid|] rids IH]; intros i; cbn [locate_from]; [done| |done].
  destruct (Text.startswith rid sel) eqn:Hp.
  - intros [= <-]. split; [lia|]. exists rid. by rewrite Nat.sub_diag.
  - intros Hf. apply IH in Hf as (Hle & rid' & Hl & Hs). split; [lia|].
    exists rid'. split; [|done].
    replace (j - i) with (S (j - S i)) by lia. done.
Qed.

Lemma locate_found (df : DataFrame) (sel : string) (j : nat) :
  locate df sel = Some (Some j) →
  ∃ (r : row) rid, rows df !! j = Some r ∧ r !! "record_id" = Some rid
                   ∧ Text.startswith rid sel = true.
Proof.
  intros Hf. apply locate_from_found in Hf as (_ & rid & Hl & Hs).
  rewrite Nat.sub_0_r, list_lookup_fmap in Hl.
  destruct (rows df !! j) as [r|] eqn:Hr; [|done].
  exists r, rid. by injection Hl as ->.
Qed.

Lemma empty_frame_false (df : DataFrame) (j : nat) (r : row) :
  schema_normal df → rows df !! j = Some r → empty_frame df = false.
Proof.
  intros [Hc _] Hr. unfold empty_frame. rewrite Hc.
  rewrite !bool_decide_eq_false_2; [done| |done].
  intros Hnil. by rewrite Hnil in Hr.
Qed.

(** What one run of the Edit tab does once the record is located. *)
Lemma tab_edit_found `{Platform} (fs fs1 : store) (df : DataFrame) (sel : string)
    (i : nat) (b : edit_button) :
  load_data fs = Some (fs1, df) →
  locate df sel = Some (Some i) →
  ∃ rec : row, rows df !! i = Some rec ∧
    tab_edit fs sel b =
      match b with
      | No_button => Some (fs1, None)
      | Save_changes f now =>
          if negb (bool_decide (validate_required (edit_required f) = []))
          then Some (fs1, Some (Error_required (validate_required (edit_required f))))
          else Some (Some (loc_set_row i (edit_record rec f now) df),
                     Some Success_changes_saved)
      | Mark_released now1 now2 =>
          Some (Some (mark_now "Released" now1 now2 i df), Some Success_released)
      | Mark_transferred now1 now2 =>
          Some (Some (mark_now "Transferred" now1 now2 i df), Some Success_transferred)
      end.
Proof.
  intros Hload Hloc.
  destruct (load_data_schema_normal _ _ _ Hload) as [Hn _].
  destruct (locate_found _ _ _ Hloc) as (rec & rid & Hrec & _ & _).
  exists rec. split; [done|].
  unfold tab_edit. rewrite Hload, bind_ret. cbv beta iota.
  rewrite (empty_frame_false _ _ _ Hn Hrec), Hloc, bind_ret, Hrec, bind_ret.
  destruct b as [|f now|now1 now2|now1 now2]; [done| | |].
  - destruct (negb (bool_decide (validate_required (edit_required f) = []))); [done|].
    rewrite save_data_normal by (by apply loc_set_row_normal). by rewrite bind_ret.
  - rewrite save_data_normal by (by apply mark_now_normal). by rewrite bind_ret.
  - rewrite save_data_normal by (by apply mark_now_normal). by rewrite bind_ret.
Qed.

(** What [Save Record] does. *)
Lemma tab_add_save_spec `{Platform} (fs : store) (f : add_form) (uuid4 now : string) :
  ∃ fs1 df, load_data fs = Some (fs1, df) ∧ schema_normal df ∧
    tab_add_save fs f uuid4 now =
      if negb (bool_decide (validate_required (add_required f) = []))
      then Some (fs, Error_required (validate_required (add_required f)))
      else Some (Some {| columns := COLUMNS;
                         rows := rows df ++ [row_of_dict (add_record f uuid4 now)] |},
                 Success_saved).
Proof.
  destruct (load_data_spec fs) as (t & Ht & Hload).
  exists (Some t), (schema_normalize t). split; [done|].
  split; [apply schema_normalize_normal|].
  unfold tab_add_save. cbv zeta.
  destruct (negb (bool_decide (validate_required (add_required f) = []))); [done|].
  rewrite Hload, bind_ret. cbv beta iota zeta.
  destruct (concat_record_normal (schema_normalize t) (add_record f uuid4 now)
              (schema_normalize_normal t) (add_record_keys f uuid4 now)) as [-> Hn].
  rewrite save_data_normal by done. by rewrite bind_ret.
Qed.

(** ** Text and the parsers *)

Lemma lstrip_has_nonspace (s : string) :
  has_nonspace s = true → has_nonspace (Text.lstrip s) = true.
Proof.
  induction s as [|c s IH]; cbn [has_nonspace Text.lstrip]; [done|].
  destruct (Text.isspace c) eqn:Hc; cbn [negb orb]; [exact IH|].
  intros _. cbn [has_nonspace]. by rewrite Hc.
Qed.

Lemma rev_app_has_nonspace (s acc : string) :
  has_nonspace s || has_nonspace acc = true → has_nonspace (String.rev_app s acc) = true.
Proof.
  revert acc. induction s as [|c s IH]; intros acc; cbn [has_nonspace String.rev_app].
  - done.
  - intros Hs. apply IH. cbn [has_nonspace].
    destruct (Text.isspace c), (has_nonspace s), (has_nonspace acc); done.
Qed.

Lemma strip_has_nonspace (s : string) :
  has_nonspace s = true → Text.blank s = false.
Proof.
  intros Hs. unfold Text.blank. apply bool_decide_eq_false_2. intros Hblank.
  assert (has_nonspace (Text.strip s) = true) as Hn; [|by rewrite Hblank in Hn].
  unfold Text.strip, Text.rstrip, String.rev.
  apply rev_app_has_nonspace. rewrite orb_true_iff. left.
  apply lstrip_has_nonspace, rev_app_has_nonspace. rewrite orb_true_iff. left.
  by apply lstrip_has_nonspace.
Qed.

Lemma digit_not_space (c : ascii) : Strptime.is_digit c = true → Text.isspace c = false.
Proof. destruct c as [[] [] [] [] [] [] [] []]; vm_compute; congruence. Qed.

Lemma group_first_char {A} (alts : list Strptime.alternative)
    (k : list ascii → list ascii → option A) (s : list ascii) (p : ascii → bool) (r : A) :
  Forall (λ a, ∃ q a', a = q :: a' ∧ ∀ c, q c = true → p c = true) alts →
  Strptime.group alts k s = Some r → ∃ c s', s = c :: s' ∧ p c = true.
Proof.
  induction 1 as [|a alts (q & a' & -> & Hq) _ IH]; cbn [Strptime.group]; [done|].
  cbn [Strptime.match_alternative].
  destruct s as [|c s']; [exact IH|].
  destruct (q c) eqn:Hqc; [|exact IH].
  intros _. exists c, s'. split; [done|]. by apply Hq.
Qed.

Lemma one_of_digits (cs : string) (c : ascii) :
  forallb Strptime.is_digit (String.list_ascii_of_string cs) = true →
  Strptime.one_of cs c = true → Strptime.is_digit c = true.
Proof.
  intros Hall Hc. unfold Strptime.one_of in Hc. apply bool_decide_eq_true in Hc.
  rewrite forallb_forall in Hall. by apply Hall, list_elem_of_In.
Qed.

(** The first class of an alternative accepts digits only. *)
Ltac digit_first :=
  eexists _, _; split; [reflexivity|]; intros ?;
  first [ by intros ? | by apply one_of_digits ].

Lemma date_Ymd_not_blank (s : string) (d : date) :
  Strptime.date_Ymd s = Some d → Text.blank s = false.
Proof.
  unfold Strptime.date_Ymd. intros Hd.
  destruct (Strptime.group Strptime.re_Y _ _) as [[[[y m] dd] rest]|] eqn:Hg; [|done].
  apply (group_first_char _ _ _ Strptime.is_digit) in Hg as (c & s' & Hs & Hc).
  - destruct s as [|c0 s0]; [done|]. injection Hs as -> _.
    apply strip_has_nonspace. cbn [has_nonspace].
    by rewrite (digit_not_space _ Hc).
  - unfold Strptime.re_Y. apply Forall_singleton. digit_first.
Qed.

Lemma time_HM_not_blank (s : string) (t : time) :
  Strptime.time_HM s = Some t → Text.blank s = false.
Proof.
  unfold Strptime.time_HM. intros Ht.
  destruct (Strptime.group Strptime.re_H _ _) as [[[h m] rest]|] eqn:Hg; [|done].
  apply (group_first_char _ _ _ Strptime.is_digit) in Hg as (c & s' & Hs & Hc).
  - destruct s as [|c0 s0]; [done|]. injection Hs as -> _.
    apply strip_has_nonspace. cbn [has_nonspace]. by rewrite (digit_not_space _ Hc).
  - unfold Strptime.re_H. repeat (apply Forall_cons; split; [digit_first|]).
    apply Forall_nil_2.
Qed.

(** ** Dates and times printed and read back *)

Lemma append_empty (s1 s2 : string) : s1 +:+ s2 = "" → s1 = "" ∧ s2 = "".
Proof. destruct s1; [done|]. intros Hs. discriminate Hs. Qed.

Lemma date_isoformat_nonempty (d : date) : date_isoformat d ≠ "".
Proof.
  unfold date_isoformat. intros Hs.
  apply append_empty in Hs as [_ Hs]. discriminate Hs.
Qed.

Lemma isoformat_minutes_nonempty (dt : aware_datetime) : isoformat_minutes dt ≠ "".
Proof.
  unfold isoformat_minutes. intros Hs.
  apply append_empty in Hs as [Hs _]. by apply date_isoformat_nonempty in Hs.
Qed.

Lemma time_HM_strftime_HM (h m s us : nat) :
  h < 24 → m < 60 →
  Strptime.time_HM (strftime_HM (Time h m s us)) = Some (Time h m 0 0).
Proof.
  intros Hh Hm.
  assert (forallb (λ h, forallb (λ m,
            bool_decide (Strptime.time_HM (strftime_HM (Time h m 0 0))
                         = Some (Time h m 0 0))) (seq 0 60)) (seq 0 24) = true) as Hall
    by (vm_compute; reflexivity).
  rewrite forallb_forall in Hall.
  assert (In h (seq 0 24)) as Hin by (apply in_seq; lia).
  specialize (Hall h Hin). rewrite forallb_forall in Hall.
  assert (In m (seq 0 60)) as Hin' by (apply in_seq; lia).
  exact (proj1 (bool_decide_eq_true _) (Hall m Hin')).
Qed.

Lemma list_ascii_of_string_app (s1 s2 : string) :
  String.list_ascii_of_string (s1 +:+ s2)
    = String.list_ascii_of_string s1 ++ String.list_ascii_of_string s2.
Proof.
  induction s1 as [|c s1 IH]; [reflexivity|].
  change (String c s1 +:+ s2) with (String c (s1 +:+ s2)).
  cbn [String.list_ascii_of_string app]. by rewrite IH.
Qed.

Lemma lit_fmap {A B} (f : A → B) (c : ascii) (k : list ascii → option A)
    (k' : list ascii → option B) (s : list ascii) :
  (∀ r, k' r = f <$> k r) → Strptime.lit c k' s = f <$> Strptime.lit c k s.
Proof.
  intros Hk. unfold Strptime.lit. destruct s as [|c' s]; [done|].
  destruct (bool_decide (c' = c)); [apply Hk | done].
Qed.

Lemma group_fmap {A B} (f : A → B) (alts : list Strptime.alternative)
    (k : list ascii → list ascii → option A) (k' : list ascii → list ascii → option B)
    (s : list ascii) :
  (∀ m r, k' m r = f <$> k m r) →
  Strptime.group alts k' s = f <$> Strptime.group alts k s.
Proof.
  intros Hk. induction alts as [|a alts IH]; cbn [Strptime.group]; [done|].
  destruct (Strptime.match_alternative a s) as [[m rest]|]; [|exact IH].
  rewrite Hk. destruct (k m rest); [done | exact IH].
Qed.

Lemma years_text_ok (y : nat) : y < 10 * 1000 → year_text_ok y = true.
Proof.
  intros Hy.
  assert (forallb year_text_ok (seq 0 (10 * 1000)) = true) as Hall
    by (vm_compute; reflexivity).
  rewrite forallb_forall in Hall. apply Hall, in_seq. lia.
Qed.

Lemma month_day_text_ok (m d : nat) :
  1 ≤ m ≤ 12 → 1 ≤ d ≤ 31 →
  month_day_pattern (String.list_ascii_of_string
                       ("-" +:+ Text.zfill 2 m +:+ "-" +:+ Text.zfill 2 d))
    = Some (m, d, []).
Proof.
  intros Hm Hd.
  assert (forallb (λ m, forallb (λ d,
            bool_decide (month_day_pattern
                           (String.list_ascii_of_string
                              ("-" +:+ Text.zfill 2 m +:+ "-" +:+ Text.zfill 2 d))
                         = Some (m, d, []))) (seq 1 31)) (seq 1 12) = true) as Hall
    by (vm_compute; reflexivity).
  rewrite forallb_forall in Hall.
  assert (In m (seq 1 12)) as Hin by (apply in_seq; lia).
  specialize (Hall m Hin). rewrite forallb_forall in Hall.
  assert (In d (seq 1 31)) as Hin' by (apply in_seq; lia).
  exact (proj1 (bool_decide_eq_true _) (Hall d Hin')).
Qed.

Lemma date_new_Some (y m d : nat) (dt : date) :
  date_new y m d = Some dt →
  dt = Date y m d ∧ 1 ≤ y < 10 * 1000 ∧ 1 ≤ m ≤ 12 ∧ 1 ≤ d ≤ 31.
Proof.
  unfold date_new.
  destruct ((1 <=? y) && (y <=? 9999) && (1 <=? m) && (m <=? 12) && (1 <=? d)
            && (d <=? days_in_month y m)) eqn:Hok; [|done].
  intros [= <-]. rewrite !andb_true_iff, !Nat.leb_le in Hok.
  destruct Hok as (((((? & Hy) & ?) & ?) & ?) & Hd). split; [done|].
  assert (9999 = 9 * 1000 + 999) as H9 by (vm_compute; reflexivity).
  rewrite H9 in Hy.
  assert (days_in_month y m ≤ 31).
  { unfold days_in_month.
    destruct m as [|[|[|[|[|[|[|[|[|[|[|[|m]]]]]]]]]]]];
      try lia; destruct (is_leap y); lia. }
  lia.
Qed.

Lemma date_Ymd_date_isoformat (y m d : nat) (dt : date) :
  date_new y m d = Some dt →
  Strptime.date_Ymd (date_isoformat dt) = Some dt.
Proof.
  intros Hnew.
  destruct (date_new_Some _ _ _ _ Hnew) as (-> & Hyr & Hm & Hd).
  pose proof (years_text_ok y ltac:(lia)) as Hyear. unfold year_text_ok in Hyear.
  pose proof (month_day_text_ok m d Hm Hd) as Hmd.
  unfold Strptime.date_Ymd, date_isoformat.
  cbn [year month day].
  rewrite list_ascii_of_string_app.
  destruct (String.list_ascii_of_string (Text.zfill 4 y))
    as [|a [|b [|c [|e [|? ?]]]]]; try discriminate Hyear.
  rewrite !andb_true_iff, Nat.eqb_eq in Hyear.
  destruct Hyear as ((((Ha & Hb) & Hc) & He) & Hval).
  unfold Strptime.re_Y. cbn [Strptime.group Strptime.match_alternative app].
  rewrite Ha, Hb, Hc, He.
  rewrite (lit_fmap (λ p : nat * nat * list ascii,
                       (Strptime.int_of [a; b; c; e], p.1.1, p.1.2, p.2)) _
             (λ s, Strptime.group Strptime.re_m (λ m0,
                Strptime.lit "-" (Strptime.group Strptime.re_d (λ d0 rest,
                  Some (Strptime.int_of m0, Strptime.int_of d0, rest)))) s)).
  - change (Strptime.lit "-" _ ?s) with (month_day_pattern s). rewrite Hmd.
    cbn [fmap option_fmap option_map]. cbv beta iota. cbn [fst snd].
    rewrite bind_ret. cbv beta iota. rewrite Hval.
    rewrite bool_decide_eq_true_2 by done. exact Hnew.
  - intros r. apply group_fmap. intros m0 r0. apply lit_fmap. intros r1.
    apply group_fmap. intros d0 rest. reflexivity.
Qed.

Lemma date_Ymd_strftime_Ymd (y m d : nat) (dt : date) :
  1000 ≤ y → date_new y m d = Some dt →
  Strptime.date_Ymd (strftime_Ymd dt) = Some dt.
Proof. intros _. apply date_Ymd_date_isoformat. Qed.

(** ** [combine_date_time] *)

Lemma combine_date_time_no_date `{Platform} (d : date_arg) (t : time_arg) :
  date_arg_obj d = None → combine_date_time d t = "".
Proof.
  intros Hd. unfold combine_date_time.
  destruct (date_arg_falsy d); [done|].
  destruct (match d with DStr s => Text.blank s | _ => false end); [done|].
  cbv zeta. rewrite Hd. reflexivity.
Qed.

Lemma combine_date_time_no_time `{Platform} (d : date_arg) (t : time_arg) :
  time_arg_obj (blank_time_is_midnight t) = None → combine_date_time d t = "".
Proof.
  intros Ht. unfold combine_date_time.
  destruct (date_arg_falsy d); [done|].
  destruct (match d with DStr s => Text.blank s | _ => false end); [done|].
  cbv zeta. destruct (date_arg_obj d) as [d_obj|]; [|done].
  rewrite bind_ret, Ht. reflexivity.
Qed.

(** With a date and a time the result is the text of what the conversion to
    the system zone returns, and the empty text when it raises. *)
Lemma combine_date_time_parts `{Platform} (d : date_arg) (t : time_arg)
    (d_obj : date) (t_obj : time) :
  date_arg_obj d = Some d_obj → time_arg_obj (blank_time_is_midnight t) = Some t_obj →
  combine_date_time d t =
    match astimezone_tzlocal (DateTime d_obj t_obj) with
    | Some a => isoformat_minutes a
    | None => ""
    end.
Proof.
  intros Hd Ht. unfold combine_date_time.
  assert (date_arg_falsy d = false) as ->.
  { destruct d as [|d|s]; [done|done|]. cbn [date_arg_falsy].
    apply bool_decide_eq_false_2. intros ->. by vm_compute in Hd. }
  assert ((match d with DStr s => Text.blank s | _ => false end) = false) as ->.
  { destruct d as [|d|s]; [done|done|]. by eapply date_Ymd_not_blank. }
  cbv zeta. rewrite Hd, bind_ret, Ht, bind_ret.
  destruct (astimezone_tzlocal (DateTime d_obj t_obj)) as [a|]; reflexivity.
Qed.

Lemma blank_time_is_midnight_id (t : time_arg) (t_obj : time) :
  time_arg_obj t = Some t_obj → blank_time_is_midnight t = t.
Proof.
  destruct t as [|t|s]; [done|done|]. intros Ht. cbn [blank_time_is_midnight].
  by rewrite (time_HM_not_blank _ _ Ht).
Qed.

Lemma blank_time_is_midnight_blank (s : string) :
  Text.blank s = true →
  time_arg_obj (blank_time_is_midnight (TStr s)) = Some (Time 0 0 0 0).
Proof. intros Hs. cbn [blank_time_is_midnight]. rewrite Hs. reflexivity. Qed.

Lemma combine_date_time_blank_time `{Platform} (d : date_arg) (s : string) :
  Text.blank s = true → combine_date_time d (TStr s) = combine_date_time d (TStr "00:00").
Proof.
  intros Hs. unfold combine_date_time, blank_time_is_midnight. rewrite Hs.
  assert (Text.blank "00:00" = false) as -> by (vm_compute; reflexivity). done.
Qed.

Lemma combine_date_time_bad_time `{Platform} (d : date_arg) (s : string) :
  Text.blank s = false → Strptime.time_HM s = None → combine_date_time d (TStr s) = "".
Proof.
  intros Hs Ht. apply combine_date_time_no_time.
  cbn [blank_time_is_midnight]. rewrite Hs. exact Ht.
Qed.

(** The time part is missing exactly for [None] and for a text that is not
    blank and that [strptime] rejects. *)
Lemma time_arg_obj_None (t : time_arg) :
  time_arg_obj (blank_time_is_midnight t) = None
  ↔ t = TNone ∨ ∃ s, t = TStr s ∧ Text.blank s = false ∧ Strptime.time_HM s = None.
Proof.
  destruct t as [|t|s]; cbn [blank_time_is_midnight].
  - split; [by left | done].
  - split; [done | by intros [?|(s & ? & _)]].
  - destruct (Text.blank s) eqn:Hs.
    + split; [by intros Hm; vm_compute in Hm | by intros [?|(s' & [= <-] & Hs' & _)]; congruence].
    + split; [intros Ht; right; by exists s | by intros [?|(s' & [= <-] & _ & Ht)]].
Qed.

(** When [combine_date_time] returns the empty text: a part is missing or
    the conversion to the system zone raises. *)
Lemma combine_date_time_empty `{Platform} (d : date_arg) (t : time_arg) :
  combine_date_time d t = ""
  ↔ date_arg_obj d = None
    ∨ time_arg_obj (blank_time_is_midnight t) = None
    ∨ ∃ d_obj t_obj,
        date_arg_obj d = Some d_obj
        ∧ time_arg_obj (blank_time_is_midnight t) = Some t_obj
        ∧ astimezone_tzlocal (DateTime d_obj t_obj) = None.
Proof.
  destruct (date_arg_obj d) as [d_obj|] eqn:Hd.
  - destruct (time_arg_obj (blank_time_is_midnight t)) as [t_obj|] eqn:Ht.
    + rewrite (combine_date_time_parts d t d_obj t_obj Hd Ht).
      destruct (astimezone_tzlocal (DateTime d_obj t_obj)) as [a|] eqn:Ha.
      * split; [by intros ?%isoformat_minutes_nonempty|].
        intros [?|[?|(d' & t' & [= <-] & [= <-] & Ha')]]; [done|done|congruence].
      * split; [|done]. intros _. right. right. by exists d_obj, t_obj.
    + rewrite (combine_date_time_no_time d t Ht). split; [by right; left | done].
  - rewrite (combine_date_time_no_date d t Hd). split; [by left | done].
Qed.

(** A date picked in a date input and a time picked in a time input: the
    result is empty exactly when no date is picked or the conversion raises. *)
Lemma combine_date_time_inputs_empty `{Platform} (d : option date) (t : time) :
  combine_date_time (date_input d) (TTime t) = ""
  ↔ d = None ∨ ∃ d_obj, d = Some d_obj ∧ astimezone_tzlocal (DateTime d_obj t) = None.
Proof.
  rewrite combine_date_time_empty. destruct d as [d_obj|]; cbn [date_input date_arg_obj
    blank_time_is_midnight time_arg_obj].
  - split.
    + intros [?|[?|(d' & t' & [= <-] & [= <-] & Ha)]]; [done|done|]. right. by exists d_obj.
    + intros [?|(d' & [= <-] & Ha)]; [done|]. right. right. by exists d_obj, t.
  - split; [by left | by left].
Qed.

Lemma append_empty_r (s : string) : s +:+ "" = s.
Proof.
  induction s as [|c s IH]; [reflexivity|].
  change (String c s +:+ "") with (String c (s +:+ "")). by rewrite IH.
Qed.

(** The offset of a whole number of minutes is printed as a sign, hours and
    minutes. *)
Lemma format_offset_minutes (k : nat) :
  format_offset (Z.of_nat (60 * k))
    = "+" +:+ Text.zfill 2 (k / 60) +:+ ":" +:+ Text.zfill 2 (k mod 60)
  ∧ (0 < k →
     format_offset (- Z.of_nat (60 * k))
       = "-" +:+ Text.zfill 2 (k / 60) +:+ ":" +:+ Text.zfill 2 (k mod 60)).
Proof.
  assert ((60 * k) / 3600 = k / 60) as Hh.
  { change 3600 with (60 * 60). rewrite Nat.Div0.div_mul_cancel_l; lia. }
  assert (((60 * k) mod 3600) / 60 = k mod 60) as Hm.
  { change 3600 with (60 * 60). rewrite Nat.Div0.mul_mod_distr_l.
    rewrite Nat.mul_comm. apply Nat.div_mul. lia. }
  assert (((60 * k) mod 3600) mod 60 = 0) as Hs.
  { change 3600 with (60 * 60). rewrite Nat.Div0.mul_mod_distr_l.
    rewrite Nat.mul_comm. apply Nat.Div0.mod_mul. }
  split.
  - unfold format_offset.
    assert ((Z.of_nat (60 * k) <? 0)%Z = false) as -> by (apply Z.ltb_ge; lia).
    assert (Z.to_nat (Z.abs (Z.of_nat (60 * k))) = 60 * k) as -> by lia.
    cbv zeta. rewrite Hh, Hm, Hs. cbn [Nat.eqb]. by rewrite append_empty_r.
  - intros Hk. unfold format_offset.
    assert ((- Z.of_nat (60 * k) <? 0)%Z = true) as -> by (apply Z.ltb_lt; lia).
    assert (Z.to_nat (Z.abs (- Z.of_nat (60 * k))) = 60 * k) as -> by lia.
    cbv zeta. rewrite Hh, Hm, Hs. cbn [Nat.eqb]. by rewrite append_empty_r.
Qed.

(** C4 as stated fails: a date and a time that are both there and valid do
    not always give a timestamp. In the zone of the examples the midnight of
    the first day of the calendar has no UTC value, the conversion raises and
    the empty text is returned; and a time of [None] with a valid date gives
    the empty text, not midnight. *)
Lemma combine_date_time_empty_for_valid_parts :
  @combine_date_time example_platform (DDate (Date 1 1 1)) (TTime (Time 0 0 0 0)) = ""
  ∧ @combine_date_time example_platform (DDate (Date 2024 1 5)) TNone = ""
  ∧ @combine_date_time example_platform (DDate (Date 2024 1 5)) (TStr "")
    = "2024-01-05T00:00+05:30"
  ∧ ¬ valid_parts_give_timestamp.
Proof.
  assert (@combine_date_time example_platform (DDate (Date 1 1 1)) (TTime (Time 0 0 0 0))
          = "") as Hfirst by (vm_compute; reflexivity).
  split_and!; [exact Hfirst | vm_compute; reflexivity | vm_compute; reflexivity |].
  intros Hall.
  destruct (Hall example_platform (DDate (Date 1 1 1)) (TTime (Time 0 0 0 0))
              (Date 1 1 1) (Time 0 0 0 0) eq_refl eq_refl) as [a Ha].
  rewrite Hfirst in Ha. symmetry in Ha. by apply isoformat_minutes_nonempty in Ha.
Qed.

(** C4, amended. [combine_date_time] is a total function to text (nothing is
    raised to the caller). It returns the empty text when the date is [None]
    or a blank text; a blank time text counts as 00:00, while a time of [None]
    gives the empty text; a date or time text that [strptime] rejects gives
    the empty text; and so does a date and time whose conversion to the system
    zone raises. Otherwise the result is the date, [T], the hour and the minute
    of the wall clock the conversion returns, followed by the offset it
    returns: a text that is not empty, whose date part and time part read back
    as that date and as that hour and minute with no seconds, and whose offset
    part is a sign, hours and minutes when the offset is a whole number of
    minutes. The two cases the specification names are instances: [None] for
    the date gives the empty text whatever the time, and 2024-01-05 with an
    empty time gives 2024-01-05T00:00 followed by the offset wherever the zone
    keeps that midnight. *)
Theorem combine_date_time_rules `{Platform} :
  (∀ t, combine_date_time DNone t = "")
  ∧ (∀ s t, Text.blank s = true → combine_date_time (DStr s) t = "")
  ∧ (∀ d s, Text.blank s = true →
       combine_date_time d (TStr s) = combine_date_time d (TStr "00:00"))
  ∧ (∀ d, combine_date_time d TNone = "")
  ∧ (∀ s t, Strptime.date_Ymd s = None → combine_date_time (DStr s) t = "")
  ∧ (∀ d s, Text.blank s = false → Strptime.time_HM s = None →
       combine_date_time d (TStr s) = "")
  ∧ (∀ d t d_obj t_obj,
       date_arg_obj d = Some d_obj → time_arg_obj t = Some t_obj →
       astimezone_tzlocal (DateTime d_obj t_obj) = None →
       combine_date_time d t = "")
  ∧ (∀ d t d_obj t_obj w off,
       date_arg_obj d = Some d_obj → time_arg_obj t = Some t_obj →
       astimezone_tzlocal (DateTime d_obj t_obj) = Some (Aware w off) →
       combine_date_time d t
         = date_isoformat (dt_date w) +:+ "T"
           +:+ time_isoformat_minutes (dt_time w) +:+ format_offset off
       ∧ combine_date_time d t ≠ "")
  ∧ (∀ y m dd dt h mi s us,
       date_new y m dd = Some dt → h < 24 → mi < 60 →
       Strptime.date_Ymd (date_isoformat dt) = Some dt
       ∧ Strptime.time_HM (time_isoformat_minutes (Time h mi s us)) = Some (Time h mi 0 0))
  ∧ (∀ k : nat,
       format_offset (Z.of_nat (60 * k))
         = "+" +:+ Text.zfill 2 (k / 60) +:+ ":" +:+ Text.zfill 2 (k mod 60)
       ∧ (0 < k →
          format_offset (- Z.of_nat (60 * k))
            = "-" +:+ Text.zfill 2 (k / 60) +:+ ":" +:+ Text.zfill 2 (k mod 60)))
  ∧ (∀ off,
       astimezone_tzlocal (DateTime (Date 2024 1 5) (Time 0 0 0 0))
         = Some (Aware (DateTime (Date 2024 1 5) (Time 0 0 0 0)) off) →
       combine_date_time (DStr "2024-01-05") (TStr "")
         = "2024-01-05T00:00" +:+ format_offset off).
Proof.
  assert (Text.blank "" = true) as Hempty by (vm_compute; reflexivity).
  split_and!.
  - done.
  - intros s t Hs. unfold combine_date_time.
    destruct (date_arg_falsy (DStr s)); [done|]. by rewrite Hs.
  - intros d s. apply combine_date_time_blank_time.
  - intros d. by apply combine_date_time_no_time.
  - intros s t Hs. by apply combine_date_time_no_date.
  - intros d s. apply combine_date_time_bad_time.
  - intros d t d_obj t_obj Hd Ht Ha.
    rewrite (combine_date_time_parts d t d_obj t_obj Hd), Ha; [done|].
    by rewrite (blank_time_is_midnight_id t t_obj Ht).
  - intros d t d_obj t_obj w off Hd Ht Ha.
    assert (combine_date_time d t = isoformat_minutes (Aware w off)) as ->.
    { rewrite (combine_date_time_parts d t d_obj t_obj Hd), Ha; [done|].
      by rewrite (blank_time_is_midnight_id t t_obj Ht). }
    split; [reflexivity | apply isoformat_minutes_nonempty].
  - intros y m dd dt h mi s us Hnew Hh Hmi. split.
    + by apply (date_Ymd_date_isoformat y m dd).
    + by apply time_HM_strftime_HM.
  - intros k. apply format_offset_minutes.
  - intros off Ha.
    rewrite (combine_date_time_parts _ _ (Date 2024 1 5) (Time 0 0 0 0)), Ha;
      [reflexivity | by vm_compute | by apply blank_time_is_midnight_blank].
Qed.

(** In a zone at UTC+05:30: midnight for an empty time, the minutes of a
    time given with seconds, and the empty text for an unset date, an
    impossible date and a malformed time. *)
Example combine_date_time_samples :
  @combine_date_time example_platform (DStr "2024-01-05") (TStr "") = "2024-01-05T00:00+05:30"
  ∧ @combine_date_time example_platform (DDate (Date 2024 3 2)) (TTime (Time 10 30 59 7))
    = "2024-03-02T10:30+05:30"
  ∧ @combine_date_time example_platform DNone (TStr "12:00") = ""
  ∧ @combine_date_time example_platform (DStr "2024-02-30") (TStr "12:00") = ""
  ∧ @combine_date_time example_platform (DStr "2024-01-05") (TStr "25:00") = "".
Proof. split_and!; vm_compute; reflexivity. Qed.

(** ** Add Record *)

Lemma validate_required_add (f : add_form) :
  validate_required (add_required f) =
    (if Text.blank (deceased_name f) then ["Deceased Name"] else [])
    ++ (if Text.blank (body_tag_no f) then ["Body Tag Number"] else [])
    ++ (if bool_decide (dod f = None) then ["Date of Death"] else [])
    ++ (if Text.blank (storage_location f) then ["Storage Location"] else []).
Proof.
  unfold add_required. cbn [validate_required field_missing].
  destruct (Text.blank (deceased_name f)), (Text.blank (body_tag_no f)),
    (dod f), (Text.blank (storage_location f)); reflexivity.
Qed.

Lemma add_record_cells `{Platform} (f : add_form) (uuid4 now : string) :
  let r := row_of_dict (add_record f uuid4 now) in
  r !! "record_id" = Some uuid4
  ∧ r !! "admitted_dt"
      = Some (combine_date_time (date_input (admitted_date f)) (TTime (admitted_time f)))
  ∧ r !! "release_status" = Some "In Storage"
  ∧ r !! "released_dt" = Some ""
  ∧ r !! "released_to" = Some ""
  ∧ r !! "last_updated" = Some now.
Proof. cbv zeta. rewrite !lookup_row_of_dict. split_and!; reflexivity. Qed.

(** C3. [Save Record] first validates the four required fields. The labels
    of those that are empty after trimming (or unset, for the date) are
    reported, in the order name, tag, date, location; when there is one, the
    handler stops with that list and the file is what it was. When there is
    none, the file is rewritten with the loaded rows followed by one new row,
    whose status is In Storage, whose release fields are empty and whose
    [last_updated] is the clock reading. *)
Theorem save_record_validation `{Platform} (fs : store) (f : add_form) (uuid4 now : string) :
  let missing :=
    (if Text.blank (deceased_name f) then ["Deceased Name"] else [])
    ++ (if Text.blank (body_tag_no f) then ["Body Tag Number"] else [])
    ++ (if bool_decide (dod f = None) then ["Date of Death"] else [])
    ++ (if Text.blank (storage_location f) then ["Storage Location"] else []) in
  validate_required (add_required f) = missing
  ∧ (missing ≠ [] ↔
       Text.blank (deceased_name f) = true ∨ Text.blank (body_tag_no f) = true
       ∨ dod f = None ∨ Text.blank (storage_location f) = true)
  ∧ (missing ≠ [] → tab_add_save fs f uuid4 now = Some (fs, Error_required missing))
  ∧ (missing = [] →
       ∃ fs1 df (r : row),
         load_data fs = Some (fs1, df)
         ∧ tab_add_save fs f uuid4 now
             = Some (Some {| columns := COLUMNS; rows := rows df ++ [r] |}, Success_saved)
         ∧ length (rows df ++ [r]) = S (length (rows df))
         ∧ r !! "release_status" = Some "In Storage"
         ∧ r !! "released_dt" = Some ""
         ∧ r !! "released_to" = Some ""
         ∧ r !! "last_updated" = Some now).
Proof.
  cbv zeta. rewrite <- validate_required_add.
  destruct (tab_add_save_spec fs f uuid4 now) as (fs1 & df & Hload & _ & Hsave).
  split_and!.
  - reflexivity.
  - rewrite validate_required_add.
    destruct (Text.blank (deceased_name f)), (Text.blank (body_tag_no f)),
      (dod f), (Text.blank (storage_location f)); cbn; naive_solver.
  - intros Hm. rewrite Hsave. by rewrite bool_decide_eq_false_2.
  - intros Hm. exists fs1, df, (row_of_dict (add_record f uuid4 now)).
    destruct (add_record_cells f uuid4 now) as (_ & _ & Hs & Hd & Ht & Hu).
    split_and!; try done.
    + rewrite Hsave. by rewrite bool_decide_eq_true_2.
    + rewrite length_app. cbn. lia.
Qed.

(** The two scenarios of the specification: Jane Doe's record is appended
    to a new file; the same form without a name is refused with the label of
    the name, and the store stays as it was. *)
Example save_record_scenarios :
  @tab_add_save example_platform None example_add_form example_uuid example_now
    = Some (example_store, Success_saved)
  ∧ @tab_add_save example_platform example_store example_add_form_no_name
      example_uuid example_now
    = Some (example_store, Error_required ["Deceased Name"]).
Proof. split; vm_compute; reflexivity. Qed.

(** ** Edit / Update *)

Lemma edit_record_cells `{Platform} (rec : row) (f : edit_form) (now : string) :
  let r := reindex COLUMNS (row_of_dict (edit_record rec f now)) in
  r !! "record_id" = rec !! "record_id"
  ∧ r !! "admitted_dt" = rec !! "admitted_dt"
  ∧ r !! "release_status" = Some (status_e f)
  ∧ r !! "released_dt"
      = Some (if negb (bool_decide (status_e f = "In Storage"))
              then combine_date_time (date_input (released_date_e f))
                                     (TTime (released_time_e f))
              else "")
  ∧ r !! "released_to"
      = Some (if negb (bool_decide (status_e f = "In Storage"))
              then Text.strip (released_to_e f) else "")
  ∧ r !! "last_updated" = Some now.
Proof.
  cbv zeta. rewrite !lookup_reindex, !lookup_row_of_dict.
  rewrite !decide_True by decide_elem.
  split_and!; try reflexivity.
  - unfold edit_record. cbn [dict_get]. by destruct (rec !! "record_id").
  - unfold edit_record. cbn [dict_get]. by destruct (rec !! "admitted_dt").
Qed.

(** [Save Changes] on a located record with the required fields filled:
    the row is replaced by the aligned dictionary, the others stay. *)
Lemma save_changes_spec `{Platform} (fs fs1 : store) (df : DataFrame) (sel : string)
    (i : nat) (f : edit_form) (now : string) :
  load_data fs = Some (fs1, df) →
  locate df sel = Some (Some i) →
  validate_required (edit_required f) = [] →
  ∃ rec : row,
    rows df !! i = Some rec
    ∧ tab_edit fs sel (Save_changes f now)
        = Some (Some (loc_set_row i (edit_record rec f now) df), Some Success_changes_saved)
    ∧ rows (loc_set_row i (edit_record rec f now) df) !! i
        = Some (reindex COLUMNS (row_of_dict (edit_record rec f now)))
    ∧ (∀ j, j ≠ i → rows (loc_set_row i (edit_record rec f now) df) !! j = rows df !! j)
    ∧ length (rows (loc_set_row i (edit_record rec f now) df)) = length (rows df).
Proof.
  intros Hload Hloc Hvalid.
  destruct (tab_edit_found fs fs1 df sel i (Save_changes f now) Hload Hloc)
    as (rec & Hrec & Hrun).
  destruct (load_data_schema_normal _ _ _ Hload) as [[Hc _] _].
  exists rec. split_and!.
  - done.
  - rewrite Hrun, Hvalid. by rewrite bool_decide_eq_true_2.
  - cbn [rows loc_set_row]. rewrite Hc.
    apply list_lookup_insert_eq. by eapply lookup_lt_Some.
  - intros j Hj. cbn [rows loc_set_row]. by apply list_lookup_insert_ne.
  - cbn [rows loc_set_row]. apply length_insert.
Qed.

(** C1. When [Save Changes] updates a located record (the required fields
    being filled), the saved row has the status chosen in the form; if that
    status is In Storage its [released_dt] and [released_to] are empty whatever
    was entered for them; for any other status [released_dt] is
    [combine_date_time] of the entered release date and time and [released_to]
    is the entered text, trimmed. *)
Theorem save_changes_release_fields `{Platform} (fs fs1 : store) (df : DataFrame)
    (sel : string) (i : nat) (f : edit_form) (now : string) :
  load_data fs = Some (fs1, df) →
  locate df sel = Some (Some i) →
  validate_required (edit_required f) = [] →
  ∃ df' (r' : row),
    tab_edit fs sel (Save_changes f now) = Some (Some df', Some Success_changes_saved)
    ∧ rows df' !! i = Some r'
    ∧ r' !! "release_status" = Some (status_e f)
    ∧ (status_e f = "In Storage" →
         r' !! "released_dt" = Some "" ∧ r' !! "released_to" = Some "")
    ∧ (status_e f ≠ "In Storage" →
         r' !! "released_dt"
           = Some (combine_date_time (date_input (released_date_e f))
                                     (TTime (released_time_e f)))
         ∧ r' !! "released_to" = Some (Text.strip (released_to_e f))).
Proof.
  intros Hload Hloc Hvalid.
  destruct (save_changes_spec fs fs1 df sel i f now Hload Hloc Hvalid)
    as (rec & Hrec & Hrun & Hrow & _).
  destruct (edit_record_cells rec f now) as (_ & _ & Hs & Hd & Ht & _).
  eexists _, _. split_and!; [exact Hrun | exact Hrow | exact Hs | |].
  - intros Hin. rewrite Hd, Ht. by rewrite bool_decide_eq_true_2.
  - intros Hout. rewrite Hd, Ht. by rewrite bool_decide_eq_false_2.
Qed.

(** The record added in the examples is edited back to In Storage with a
    recipient and a release date entered: both release fields are saved
    empty. *)
Lemma save_changes_release_fields_example :
  ∃ df' (r' : row),
    @tab_edit example_platform example_store "3f2b8c1e"
       (Save_changes example_edit_form example_now)
      = Some (Some df', Some Success_changes_saved)
    ∧ rows df' !! 0 = Some r'
    ∧ r' !! "released_dt" = Some "" ∧ r' !! "released_to" = Some "".
Proof.
  destruct (@save_changes_release_fields example_platform example_store example_store
              example_frame "3f2b8c1e" 0 example_edit_form example_now)
    as (df' & r' & Hrun & Hrow & _ & Hin & _).
  - vm_compute. reflexivity.
  - vm_compute. reflexivity.
  - vm_compute. reflexivity.
  - exists df', r'. split; [exact Hrun|]. split; [exact Hrow|].
    apply Hin. reflexivity.
Defined.

(** C2 as stated fails where the specification gives no mechanism: the
    handler stores the text of the UUID it draws and never compares it with
    the stored identifiers. In a store that holds Jane Doe's record, a draw
    equal to her identifier is stored again. *)
Lemma created_id_collision :
  @tab_add_save example_platform example_store example_add_form example_uuid example_now
    = Some (Some {| columns := COLUMNS; rows := rows example_frame ++ rows example_frame |},
            Success_saved)
  ∧ record_ids {| columns := COLUMNS; rows := rows example_frame ++ rows example_frame |}
    = [Some example_uuid; Some example_uuid]
  ∧ ¬ created_id_always_fresh.
Proof.
  assert (@tab_add_save example_platform example_store example_add_form example_uuid
            example_now
          = Some (Some {| columns := COLUMNS;
                          rows := rows example_frame ++ rows example_frame |},
                  Success_saved)) as Hrun by (vm_compute; reflexivity).
  split_and!; [exact Hrun | by vm_compute |].
  intros Hall.
  apply (Hall example_platform example_store example_store
           (Some {| columns := COLUMNS; rows := rows example_frame ++ rows example_frame |})
           example_frame example_add_form example_uuid example_now);
    [by vm_compute | exact Hrun |].
  vm_compute. apply list_elem_of_here.
Qed.

(** C2, amended. A created record carries the UUID drawn for it and the
    admission timestamp combined from the form; it differs from every stored
    identifier whenever the draw does, which the handler does not check. Any
    later [Save Changes], on any located record of any store, leaves the
    [record_id] and the [admitted_dt] of every row as they were loaded. *)
Theorem created_id_drawn_and_kept `{Platform} (fs fs1 : store) (df : DataFrame)
    (f : add_form) (uuid4 now : string)
    (fs2 fs3 : store) (df2 : DataFrame) (sel : string) (i : nat) (g : edit_form)
    (now2 : string) :
  load_data fs = Some (fs1, df) →
  validate_required (add_required f) = [] →
  load_data fs2 = Some (fs3, df2) →
  locate df2 sel = Some (Some i) →
  validate_required (edit_required g) = [] →
  (∃ (r : row),
     tab_add_save fs f uuid4 now
       = Some (Some {| columns := COLUMNS; rows := rows df ++ [r] |}, Success_saved)
     ∧ r !! "record_id" = Some uuid4
     ∧ r !! "admitted_dt"
         = Some (combine_date_time (date_input (admitted_date f)) (TTime (admitted_time f)))
     ∧ (Some uuid4 ∉ record_ids df →
          Forall (λ r0 : row, r0 !! "record_id" ≠ r !! "record_id") (rows df)))
  ∧ (∃ df3,
       tab_edit fs2 sel (Save_changes g now2) = Some (Some df3, Some Success_changes_saved)
       ∧ length (rows df3) = length (rows df2)
       ∧ ∀ j (r : row), rows df2 !! j = Some r →
           ∃ r' : row, rows df3 !! j = Some r'
                       ∧ r' !! "record_id" = r !! "record_id"
                       ∧ r' !! "admitted_dt" = r !! "admitted_dt").
Proof.
  intros Hload Hvalid Hload2 Hloc Hvalid2. split.
  - destruct (tab_add_save_spec fs f uuid4 now) as (fs1' & df' & Hload' & _ & Hsave).
    rewrite Hload in Hload'. injection Hload' as <- <-.
    destruct (add_record_cells f uuid4 now) as (Hid & Hadm & _).
    exists (row_of_dict (add_record f uuid4 now)). split_and!; [|done|done|].
    + rewrite Hsave, Hvalid. by rewrite bool_decide_eq_true_2.
    + intros Hfresh. apply Forall_forall. intros r0 Hr0 Heq.
      apply Hfresh. rewrite <- Hid, <- Heq. unfold record_ids.
      by apply (list_elem_of_fmap_2 (λ r : row, r !! "record_id")).
  - destruct (save_changes_spec fs2 fs3 df2 sel i g now2 Hload2 Hloc Hvalid2)
      as (rec & Hrec & Hrun & Hrow & Hother & Hlen).
    destruct (edit_record_cells rec g now2) as (Hid & Hadm & _).
    eexists. split_and!; [exact Hrun | exact Hlen |].
    intros j r Hr. destruct (decide (j = i)) as [->|Hj].
    + rewrite Hrec in Hr. injection Hr as <-. eauto.
    + exists r. by rewrite Hother.
Qed.

(** Jane Doe's record is created in a new file with the UUID of the examples
    and then edited: the identifier stored is that UUID, and it survives the
    edit together with the admission timestamp. *)
Lemma created_id_drawn_and_kept_example :
  (∃ r : row,
     @tab_add_save example_platform None example_add_form example_uuid example_now
       = Some (Some {| columns := COLUMNS; rows := [r] |}, Success_saved)
     ∧ r !! "record_id" = Some example_uuid)
  ∧ (∃ df3 (r' : row),
       @tab_edit example_platform example_store "3f2b8c1e"
          (Save_changes example_edit_form example_now)
         = Some (Some df3, Some Success_changes_saved)
       ∧ rows df3 !! 0 = Some r'
       ∧ r' !! "record_id" = Some example_uuid
       ∧ r' !! "admitted_dt" = Some "2024-03-02T10:30+05:30").
Proof.
  destruct (@created_id_drawn_and_kept example_platform
              None (Some {| columns := COLUMNS; rows := [] |})
              {| columns := COLUMNS; rows := [] |}
              example_add_form example_uuid example_now
              example_store example_store example_frame "3f2b8c1e" 0
              example_edit_form example_now)
    as [(r & Hrun & Hid & _) (df3 & Hrun3 & _ & Hkeep)].
  - vm_compute. reflexivity.
  - vm_compute. reflexivity.
  - vm_compute. reflexivity.
  - vm_compute. reflexivity.
  - vm_compute. reflexivity.
  - split.
    + exists r. split; [exact Hrun | exact Hid].
    + destruct (Hkeep 0 _ eq_refl) as (r' & Hr' & Hid' & Hadm').
      exists df3, r'. split; [exact Hrun3|]. split; [exact Hr'|].
      split; [rewrite Hid' | rewrite Hadm']; vm_compute; reflexivity.
Defined.

(** ** The quick actions *)

(** A cell of a row after assignments to cells of literal labels. *)
Ltac lookup_cell :=
  repeat (rewrite lookup_insert_ne by done); rewrite ?lookup_insert_eq; done.

Lemma mark_now_rows (status now1 now2 : string) (i : nat) (df : DataFrame) :
  columns (mark_now status now1 now2 i df) = columns df
  ∧ length (rows (mark_now status now1 now2 i df)) = length (rows df)
  ∧ rows (mark_now status now1 now2 i df) !! i
      = (λ r : row, <["last_updated" := now2]>
                      (<["released_dt" := now1]> (<["release_status" := status]> r)))
          <$> rows df !! i
  ∧ ∀ j, j ≠ i → rows (mark_now status now1 now2 i df) !! j = rows df !! j.
Proof.
  unfold mark_now, loc_set_cell. cbn [rows columns]. split_and!.
  - done.
  - by rewrite !length_alter.
  - rewrite !list_lookup_alter_eq. by destruct (rows df !! i).
  - intros j Hj. by rewrite !list_lookup_alter_ne.
Qed.

Lemma mark_now_record_ids (status now1 now2 : string) (i : nat) (df : DataFrame) :
  record_ids (mark_now status now1 now2 i df) = record_ids df.
Proof.
  destruct (mark_now_rows status now1 now2 i df) as (_ & _ & Hi & Hother).
  unfold record_ids. apply list_eq. intros j. rewrite !list_lookup_fmap.
  destruct (decide (j = i)) as [->|Hj].
  - rewrite Hi. destruct (rows df !! i) as [r|]; [|done]. cbn.
    by rewrite !lookup_insert_ne.
  - by rewrite Hother.
Qed.

Lemma quick_button_run `{Platform} (fs fs1 : store) (df : DataFrame) (sel : string)
    (i : nat) (released : bool) (now1 now2 : string) :
  load_data fs = Some (fs1, df) →
  locate df sel = Some (Some i) →
  tab_edit fs sel (quick_button released now1 now2)
    = Some (Some (mark_now (quick_status released) now1 now2 i df),
            Some (quick_message released)).
Proof.
  intros Hload Hloc.
  destruct (tab_edit_found fs fs1 df sel i (quick_button released now1 now2) Hload Hloc)
    as (rec & _ & ->).
  by destruct released.
Qed.

(** C6. A quick action on a located record writes the file with the loaded
    frame in which that row has [release_status] set to Released (or
    Transferred), [released_dt] set to the first clock reading and
    [last_updated] to the second; every other cell of the row, [released_to]
    among them, and every other row are as they were loaded. *)
Theorem quick_action_frame `{Platform} (fs fs1 : store) (df : DataFrame) (sel : string)
    (i : nat) (released : bool) (now1 now2 : string) :
  load_data fs = Some (fs1, df) →
  locate df sel = Some (Some i) →
  ∃ (r r' : row) df',
    rows df !! i = Some r
    ∧ tab_edit fs sel (quick_button released now1 now2)
        = Some (Some df', Some (quick_message released))
    ∧ columns df' = columns df
    ∧ length (rows df') = length (rows df)
    ∧ rows df' !! i = Some r'
    ∧ r' !! "release_status" = Some (quick_status released)
    ∧ r' !! "released_dt" = Some now1
    ∧ r' !! "last_updated" = Some now2
    ∧ r' !! "released_to" = r !! "released_to"
    ∧ (∀ c, c ∉ ["release_status"; "released_dt"; "last_updated"] → r' !! c = r !! c)
    ∧ (∀ j, j ≠ i → rows df' !! j = rows df !! j).
Proof.
  intros Hload Hloc.
  destruct (locate_found _ _ _ Hloc) as (r & rid & Hr & _ & _).
  destruct (mark_now_rows (quick_status released) now1 now2 i df)
    as (Hc & Hlen & Hi & Hother).
  rewrite Hr in Hi. change ((?f <$> Some r)) with (Some (f r)) in Hi. cbv beta in Hi.
  eexists r, _, _. split_and!;
    [exact Hr | exact (quick_button_run _ _ _ _ _ _ _ _ Hload Hloc) | exact Hc | exact Hlen
    | exact Hi | ..].
  - lookup_cell.
  - lookup_cell.
  - lookup_cell.
  - lookup_cell.
  - intros c Hc'. rewrite !lookup_insert_ne; [done|..]; intros <-; apply Hc'; decide_elem.
  - exact Hother.
Qed.

(** Jane Doe's record, in storage with no recipient, is marked as released:
    the status and the two timestamps change, [released_to] stays empty. *)
Lemma quick_action_frame_example :
  ∃ (r' : row) df',
    @tab_edit example_platform example_store "3f2b8c1e"
       (Mark_released "2024-03-05T09:00:00+05:30" "2024-03-05T09:00:01+05:30")
      = Some (Some df', Some Success_released)
    ∧ rows df' !! 0 = Some r'
    ∧ r' !! "release_status" = Some "Released"
    ∧ r' !! "released_dt" = Some "2024-03-05T09:00:00+05:30"
    ∧ r' !! "last_updated" = Some "2024-03-05T09:00:01+05:30"
    ∧ r' !! "released_to" = Some "".
Proof.
  destruct (@quick_action_frame example_platform example_store example_store
              example_frame "3f2b8c1e" 0 true
              "2024-03-05T09:00:00+05:30" "2024-03-05T09:00:01+05:30")
    as (r & r' & df' & Hr & Hrun & _ & _ & Hr' & Hs & Hd & Hu & Hto & _).
  - vm_compute. reflexivity.
  - vm_compute. reflexivity.
  - exists r', df'. split; [exact Hrun|]. split; [exact Hr'|].
    split; [exact Hs|]. split; [exact Hd|]. split; [exact Hu|].
    rewrite Hto. injection Hr as <-. vm_compute. reflexivity.
Defined.

(** C10. The quick actions look at no field of the record: for a located
    record in any state, a first quick action followed by a second, in any of
    the four combinations of Released and Transferred, both run, and the
    record ends with the status of the second action and with [released_dt]
    and [last_updated] overwritten by its clock readings. *)
Theorem quick_actions_unguarded `{Platform} (fs fs1 : store) (df : DataFrame)
    (sel : string) (i : nat) (first second : bool) (t1 t2 t3 t4 : string) :
  load_data fs = Some (fs1, df) →
  locate df sel = Some (Some i) →
  ∃ (r2 r3 : row) (df2 df3 : DataFrame),
    tab_edit fs sel (quick_button first t1 t2)
      = Some (Some df2, Some (quick_message first))
    ∧ rows df2 !! i = Some r2
    ∧ r2 !! "release_status" = Some (quick_status first)
    ∧ r2 !! "released_dt" = Some t1
    ∧ tab_edit (Some df2) sel (quick_button second t3 t4)
        = Some (Some df3, Some (quick_message second))
    ∧ rows df3 !! i = Some r3
    ∧ r3 !! "release_status" = Some (quick_status second)
    ∧ r3 !! "released_dt" = Some t3
    ∧ r3 !! "last_updated" = Some t4.
Proof.
  intros Hload Hloc.
  destruct (load_data_schema_normal _ _ _ Hload) as [Hn _].
  pose proof (mark_now_normal (quick_status first) t1 t2 i df Hn) as Hn2.
  pose proof (load_data_normal _ Hn2) as Hload2.
  assert (locate (mark_now (quick_status first) t1 t2 i df) sel = Some (Some i)) as Hloc2.
  { unfold locate. change (locate_from 0 (record_ids (mark_now (quick_status first) t1 t2 i df))
                             sel = Some (Some i)).
    by rewrite mark_now_record_ids. }
  destruct (locate_found _ _ _ Hloc) as (r & rid & Hr & _ & _).
  destruct (mark_now_rows (quick_status first) t1 t2 i df) as (_ & _ & Hi2 & _).
  rewrite Hr in Hi2. change ((?f <$> Some r)) with (Some (f r)) in Hi2. cbv beta in Hi2.
  destruct (mark_now_rows (quick_status second) t3 t4 i
              (mark_now (quick_status first) t1 t2 i df)) as (_ & _ & Hi3 & _).
  rewrite Hi2 in Hi3. change ((?f <$> Some ?x)) with (Some (f x)) in Hi3. cbv beta in Hi3.
  eexists _, _, (mark_now (quick_status first) t1 t2 i df),
    (mark_now (quick_status second) t3 t4 i (mark_now (quick_status first) t1 t2 i df)).
  split_and!;
    [ exact (quick_button_run _ _ _ _ _ _ _ _ Hload Hloc) | exact Hi2 | lookup_cell
    | lookup_cell | exact (quick_button_run _ _ _ _ _ _ _ _ Hload2 Hloc2) | exact Hi3
    | lookup_cell | lookup_cell | lookup_cell ].
Qed.

(** Jane Doe's record is marked released, then transferred, by the quick
    actions alone. *)
Lemma quick_actions_unguarded_example :
  ∃ (df2 df3 : DataFrame) (r3 : row),
    @tab_edit example_platform example_store "3f2b8c1e" (Mark_released "t1" "t2")
      = Some (Some df2, Some Success_released)
    ∧ @tab_edit example_platform (Some df2) "3f2b8c1e" (Mark_transferred "t3" "t4")
        = Some (Some df3, Some Success_transferred)
    ∧ rows df3 !! 0 = Some r3
    ∧ r3 !! "release_status" = Some "Transferred"
    ∧ r3 !! "released_dt" = Some "t3".
Proof.
  destruct (@quick_actions_unguarded example_platform example_store example_store
              example_frame "3f2b8c1e" 0 true false "t1" "t2" "t3" "t4")
    as (r2 & r3 & df2 & df3 & H1 & _ & _ & _ & H2 & H3 & H4 & H5 & _).
  - vm_compute. reflexivity.
  - vm_compute. reflexivity.
  - exists df2, df3, r3. split; [exact H1|]. split; [exact H2|].
    split; [exact H3|]. split; [exact H4 | exact H5].
Defined.

(** ** The record store: load, save, import *)

Lemma schema_normalize_cells (t : DataFrame) :
  Forall2 (λ r r' : row, ∀ c,
             r' !! c = if decide (c ∈ COLUMNS)
                       then (if decide (c ∈ columns t) then r !! c else Some "")
                       else None)
          (rows t) (rows (schema_normalize t)).
Proof.
  cbn [rows schema_normalize]. apply Forall2_fmap_r, Forall_Forall2_diag, Forall_forall.
  intros r _ c. apply lookup_normalize_row.
Qed.

Lemma schema_normalize_total (t : DataFrame) :
  rectangular t →
  Forall (λ r' : row, ∀ c, c ∈ COLUMNS → is_Some (r' !! c)) (rows (schema_normalize t)).
Proof.
  intros Hrect. cbn [rows schema_normalize]. apply Forall_fmap.
  eapply Forall_impl; [exact Hrect|]. intros r Hr c Hc. cbv beta.
  rewrite lookup_normalize_row, decide_True by done.
  destruct (decide (c ∈ columns t)) as [Hp|Hp]; [|by eexists].
  rewrite Forall_forall in Hr. by apply Hr.
Qed.

(** C5. For a table [t] in the file (rectangular, as [read_csv] parses it),
    [load_data] returns the schema normal form of [t]: the declared columns
    in canonical order, with the cell of [t] where [t] has the column and the
    empty text where it has not, every other column dropped, and a text (never
    NaN) in every declared column. [save_data] of that frame writes exactly
    that frame, loading the written file returns it again, and when [t] was
    already in normal form the file holds [t] itself. A missing file is
    created empty in normal form. *)
Theorem save_load_roundtrip (t : DataFrame) :
  rectangular t →
  ∃ df,
    load_data (Some t) = Some (Some t, df)
    ∧ df = schema_normalize t
    ∧ columns df = COLUMNS
    ∧ length (rows df) = length (rows t)
    ∧ Forall2 (λ r r' : row, ∀ c,
                 r' !! c = if decide (c ∈ COLUMNS)
                           then (if decide (c ∈ columns t) then r !! c else Some "")
                           else None)
              (rows t) (rows df)
    ∧ Forall (λ r' : row, ∀ c, c ∈ COLUMNS → is_Some (r' !! c)) (rows df)
    ∧ save_data df = Some (Some df)
    ∧ load_data (Some df) = Some (Some df, df)
    ∧ (schema_normal t → df = t)
    ∧ load_data None
        = Some (Some {| columns := COLUMNS; rows := [] |},
                {| columns := COLUMNS; rows := [] |})
    ∧ save_data {| columns := COLUMNS; rows := [] |}
        = Some (Some {| columns := COLUMNS; rows := [] |}).
Proof.
  intros Hrect. exists (schema_normalize t).
  pose proof (schema_normalize_normal t) as Hn.
  assert (schema_normal {| columns := COLUMNS; rows := [] |}) as Hn0
    by (split; [reflexivity | apply Forall_nil_2]).
  split_and!.
  - destruct (load_data_spec (Some t)) as (t' & [= <-] & Hl). exact Hl.
  - done.
  - done.
  - cbn [rows schema_normalize]. apply length_fmap.
  - apply schema_normalize_cells.
  - by apply schema_normalize_total.
  - by apply save_data_normal.
  - by apply load_data_normal.
  - apply schema_normalize_id.
  - destruct (load_data_spec None) as (t' & [= <-] & Hl).
    rewrite Hl. by rewrite (schema_normalize_id _ Hn0).
  - by apply save_data_normal.
Qed.

(** The table of an older version is loaded: the missing [remarks] column
    comes back empty, the unknown [drawer] column is gone, the name is kept,
    and saving writes what was loaded. *)
Lemma save_load_roundtrip_example :
  ∃ df (r' : row),
    load_data (Some legacy_table) = Some (Some legacy_table, df)
    ∧ columns df = COLUMNS
    ∧ rows df = [r']
    ∧ r' !! "remarks" = Some ""
    ∧ r' !! "deceased_name" = Some "R. Roe"
    ∧ r' !! "drawer" = None
    ∧ save_data df = Some (Some df)
    ∧ load_data (Some df) = Some (Some df, df).
Proof.
  destruct (save_load_roundtrip legacy_table)
    as (df & Hload & -> & Hc & _ & _ & _ & Hsave & Hload' & _).
  - apply (bool_decide_unpack _). vm_compute. exact I.
  - eexists _, _. split; [exact Hload|]. split; [exact Hc|].
    split; [reflexivity|]. split; [by vm_compute|]. split; [by vm_compute|].
    split; [by vm_compute|]. split; [exact Hsave | exact Hload'].
Defined.

(** The file is left alone by an upload that does not parse and replaced by
    the normal form of one that does. *)
Lemma sidebar_import_spec (fs : store) (t : DataFrame) :
  sidebar_import fs None = (fs, None)
  ∧ sidebar_import fs (Some Unparsable) = (fs, Some Error_import)
  ∧ sidebar_import fs (Some (Parsed t)) = (Some (schema_normalize t), Some Success_import).
Proof.
  split_and!; [reflexivity | reflexivity |].
  unfold sidebar_import. cbn [read_uploaded]. rewrite bind_ret. cbv zeta.
  rewrite getitem_columns_add_missing, bind_ret.
  by rewrite (save_data_normal _ (schema_normalize_normal t)).
Qed.

(** C8. The import aligns the uploaded table to the schema (each declared
    column in canonical order, the uploaded cell where the upload has the
    column and the empty text where it has not, other columns dropped, one row
    per uploaded row) and replaces the whole file with the result, whatever
    the file held; an upload that [read_csv] cannot parse is reported as a
    failed import and the file is what it was. *)
Theorem import_replaces_store_or_leaves_it (fs : store) (t : DataFrame) :
  sidebar_import fs (Some Unparsable) = (fs, Some Error_import)
  ∧ ∃ df,
      sidebar_import fs (Some (Parsed t)) = (Some df, Some Success_import)
      ∧ df = schema_normalize t
      ∧ columns df = COLUMNS
      ∧ length (rows df) = length (rows t)
      ∧ Forall2 (λ r r' : row, ∀ c,
                   r' !! c = if decide (c ∈ COLUMNS)
                             then (if decide (c ∈ columns t) then r !! c else Some "")
                             else None)
                (rows t) (rows df).
Proof.
  destruct (sidebar_import_spec fs t) as (_ & Hbad & Hgood).
  split; [exact Hbad|]. exists (schema_normalize t). split_and!.
  - exact Hgood.
  - reflexivity.
  - reflexivity.
  - cbn [rows schema_normalize]. apply length_fmap.
  - apply schema_normalize_cells.
Qed.

(** The scenario of the specification: a table without the [remarks] column
    is imported over Jane Doe's store; the stored table has the column, empty,
    and keeps the uploaded data. An unparsable upload leaves her store. *)
Example import_without_remarks :
  ∃ r' : row,
    sidebar_import example_store (Some (Parsed legacy_table))
      = (Some {| columns := COLUMNS; rows := [r'] |}, Some Success_import)
    ∧ r' !! "remarks" = Some ""
    ∧ r' !! "record_id" = Some "a1"
    ∧ r' !! "deceased_name" = Some "R. Roe"
    ∧ sidebar_import example_store (Some Unparsable) = (example_store, Some Error_import).
Proof.
  destruct (sidebar_import_spec example_store legacy_table) as (_ & Hbad & Hgood).
  exists (normalize_row (columns legacy_table)
            (list_to_map [("record_id", "a1"); ("deceased_name", "R. Roe");
                          ("sex", "M"); ("release_status", "Discharged");
                          ("drawer", "7")])).
  split; [exact Hgood|]. split_and!; [by vm_compute..| exact Hbad].
Qed.

(** ** Option fields *)

Lemma list_index_lookup (v : string) (opts : list string) :
  v ∈ opts → opts !! list_index v opts = Some v.
Proof.
  induction opts as [|o opts IH]; cbn [list_index]; [by intros ?%elem_of_nil|].
  case_bool_decide as Ho; [by subst|].
  intros [?|Hin]%elem_of_cons; [by subst|]. by apply IH.
Qed.

Lemma selectbox_default (opts : list string) (v : option string) (k : nat) (fallback : string) :
  opts !! k = Some fallback →
  opts !! selectbox_index opts v k = Some (value_or_fallback opts v fallback).
Proof.
  intros Hk. unfold selectbox_index, value_or_fallback. rewrite Nat.max_0_l.
  destruct v as [v|]; [|done]. case_bool_decide; [|done]. by apply list_index_lookup.
Qed.

Lemma value_or_fallback_elem (opts : list string) (v : option string) (fallback : string) :
  fallback ∈ opts → value_or_fallback opts v fallback ∈ opts.
Proof.
  intros Hf. unfold value_or_fallback. destruct v as [v|]; [|done]. by case_bool_decide.
Qed.

(** C7 as stated fails: [load_data] copies the cells of the option fields as
    they are. The table of the older version has the sex M and the status
    Discharged, neither in its option set, and both come back from the load. *)
Lemma load_keeps_out_of_set_values :
  load_data (Some legacy_table) = Some (Some legacy_table, schema_normalize legacy_table)
  ∧ (λ r : row, (r !! "sex", r !! "release_status")) <$> rows (schema_normalize legacy_table)
    = [(Some "M", Some "Discharged")]
  ∧ ("M" ∉ SEX_OPTIONS)
  ∧ ("Discharged" ∉ STATUS_OPTIONS)
  ∧ ¬ load_normalizes_options.
Proof.
  assert (load_data (Some legacy_table)
          = Some (Some legacy_table, schema_normalize legacy_table)) as Hload.
  { destruct (load_data_spec (Some legacy_table)) as (t' & [= <-] & Hl). exact Hl. }
  assert ("M" ∉ SEX_OPTIONS) as HM by (apply (bool_decide_unpack _); vm_compute; exact I).
  split_and!; [exact Hload | by vm_compute | exact HM
              | apply (bool_decide_unpack _); vm_compute; exact I |].
  intros Hall. specialize (Hall _ _ _ Hload).
  cbn [rows schema_normalize] in Hall. rewrite Forall_fmap in Hall.
  unfold legacy_table in Hall at 1. cbn [rows] in Hall.
  apply Forall_cons_1 in Hall as [(Hin & _) _].
  apply HM, Hin. vm_compute. reflexivity.
Qed.

(** C7, amended. [load_data] accepts every table and returns the cells of an
    option field exactly as the file has them, in or out of the option set.
    The safe default exists only as an index: the index the Edit form computes
    for each of its four select boxes designates the stored value when that is
    one of the options and otherwise Unknown, No, Pending or In Storage,
    always an option of the box. *)
Theorem load_keeps_option_cells (t : DataFrame) (c : string) :
  c ∈ ["sex"; "id_docs_seen"; "autopsy_required"; "release_status"] →
  c ∈ columns t →
  ∃ df,
    load_data (Some t) = Some (Some t, df)
    ∧ Forall2 (λ r r' : row, r' !! c = r !! c) (rows t) (rows df)
    ∧ ∀ rec : row,
        sex_default rec = Some (value_or_fallback SEX_OPTIONS (rec !! "sex") "Unknown")
        ∧ id_docs_default rec
            = Some (value_or_fallback YN_OPTIONS (rec !! "id_docs_seen") "No")
        ∧ autopsy_req_default rec
            = Some (value_or_fallback AUTO_OPTIONS (rec !! "autopsy_required") "Pending")
        ∧ status_default rec
            = Some (value_or_fallback STATUS_OPTIONS (rec !! "release_status") "In Storage")
        ∧ value_or_fallback SEX_OPTIONS (rec !! "sex") "Unknown" ∈ SEX_OPTIONS
        ∧ value_or_fallback YN_OPTIONS (rec !! "id_docs_seen") "No" ∈ YN_OPTIONS
        ∧ value_or_fallback AUTO_OPTIONS (rec !! "autopsy_required") "Pending" ∈ AUTO_OPTIONS
        ∧ value_or_fallback STATUS_OPTIONS (rec !! "release_status") "In Storage"
            ∈ STATUS_OPTIONS.
Proof.
  intros Hc Hp. exists (schema_normalize t). split_and!.
  - destruct (load_data_spec (Some t)) as (t' & [= <-] & Hl). exact Hl.
  - eapply Forall2_impl; [apply schema_normalize_cells|]. intros r r' Hrr.
    rewrite Hrr. rewrite decide_True, decide_True; [done | done |].
    assert (["sex"; "id_docs_seen"; "autopsy_required"; "release_status"] ⊆ COLUMNS)
      as Hsub by (apply (bool_decide_unpack _); vm_compute; exact I).
    by apply Hsub.
  - intros rec. split_and!;
      first [ by apply selectbox_default
            | apply value_or_fallback_elem; decide_elem ].
Qed.

(** The table of the older version again: the sex M is what the load
    returns, and the index computed for the select box is that of Unknown. *)
Lemma load_keeps_option_cells_example :
  ∃ df (r' : row),
    load_data (Some legacy_table) = Some (Some legacy_table, df)
    ∧ rows df !! 0 = Some r'
    ∧ r' !! "sex" = Some "M"
    ∧ sex_default r' = Some "Unknown".
Proof.
  destruct (load_keeps_option_cells legacy_table "sex")
    as (df & Hload & Hcells & Hdef).
  - apply (bool_decide_unpack _). vm_compute. exact I.
  - apply (bool_decide_unpack _). vm_compute. exact I.
  - unfold legacy_table in Hcells. cbn [rows] in Hcells.
    destruct (rows df) as [|r' l] eqn:Hrows; [by apply Forall2_length in Hcells|].
    apply Forall2_cons_1 in Hcells as [Hsex _].
    exists df, r'. split; [exact Hload|]. rewrite Hrows. split; [reflexivity|].
    split; [rewrite Hsex; reflexivity|].
    destruct (Hdef r') as (-> & _). rewrite Hsex. reflexivity.
Defined.

(** ** Browse & Filter *)

Lemma list_filter_sublist {A} (p : A → bool) (l : list A) : List.filter p l `sublist_of` l.
Proof.
  induction l as [|x l IH]; cbn [List.filter]; [constructor|].
  destruct (p x); by constructor.
Qed.

Lemma list_filter_comm {A} (p q : A → bool) (l : list A) :
  List.filter p (List.filter q l) = List.filter q (List.filter p l).
Proof.
  induction l as [|x l IH]; cbn [List.filter]; [done|].
  destruct (q x) eqn:Hq, (p x) eqn:Hp; cbn [List.filter]; rewrite ?Hq, ?Hp, IH; done.
Qed.

Lemma narrows_refl (df : DataFrame) : narrows df df.
Proof. by split. Qed.

Lemma narrows_trans (a b c : DataFrame) : narrows a b → narrows b c → narrows a c.
Proof. intros [Hc1 Hs1] [Hc2 Hs2]. split; [congruence | by etrans]. Qed.

Lemma getitem_mask_narrows (p : row → bool) (df : DataFrame) :
  narrows (getitem_mask p df) df.
Proof. split; [done | apply list_filter_sublist]. Qed.

Lemma getitem_isin_narrows (c : string) (vs : list string) (df out : DataFrame) :
  getitem_isin c vs df = Some out → narrows out df.
Proof.
  unfold getitem_isin. destruct (has_column c df); [|done].
  intros [= <-]. apply getitem_mask_narrows.
Qed.

Lemma filter_status_narrows (vs : list string) (df out : DataFrame) :
  filter_status vs df = Some out → narrows out df.
Proof.
  unfold filter_status. case_bool_decide.
  - intros [= <-]. apply narrows_refl.
  - apply getitem_isin_narrows.
Qed.

Lemma filter_sex_narrows (vs : list string) (df out : DataFrame) :
  filter_sex vs df = Some out → narrows out df.
Proof.
  unfold filter_sex. case_bool_decide.
  - intros [= <-]. apply narrows_refl.
  - apply getitem_isin_narrows.
Qed.

(** The selection by [apply]: the rows kept stand in their order; the
    columns are kept when the frame has rows and are all lost when it has
    none. *)
Lemma getitem_apply_rows (c : string) (f : option string → bool) (df out : DataFrame) :
  getitem_apply c f df = Some out →
  rows out `sublist_of` rows df
  ∧ (rows df ≠ [] → columns out = columns df)
  ∧ (rows df = [] → columns out = [])
  ∧ (rows out ≠ [] → columns out = columns df).
Proof.
  unfold getitem_apply. destruct (has_column c df); [|done].
  case_bool_decide as Hrows; intros [= <-]; cbn [rows columns getitem_mask].
  - split_and!; [apply sublist_nil_l | done | done | done].
  - split_and!; [apply list_filter_sublist | done | done | done].
Qed.

Lemma filter_from_rows (d : option date) (df out : DataFrame) :
  filter_from d df = Some out →
  rows out `sublist_of` rows df
  ∧ (rows df ≠ [] ∨ d = None → columns out = columns df)
  ∧ (rows out ≠ [] → columns out = columns df).
Proof.
  destruct d as [a|]; cbn [filter_from].
  - intros (Hs & Hc & _ & Hc')%getitem_apply_rows.
    split_and!; [done | by intros [?|?]; [apply Hc|] | done].
  - intros [= <-]. done.
Qed.

Lemma filter_to_rows (d : option date) (df out : DataFrame) :
  filter_to d df = Some out →
  rows out `sublist_of` rows df
  ∧ (rows df ≠ [] ∨ d = None → columns out = columns df)
  ∧ (rows out ≠ [] → columns out = columns df).
Proof.
  destruct d as [a|]; cbn [filter_to].
  - intros (Hs & Hc & _ & Hc')%getitem_apply_rows.
    split_and!; [done | by intros [?|?]; [apply Hc|] | done].
  - intros [= <-]. done.
Qed.

Lemma filter_text_narrows `{Platform} (q : string) (cs : list string) (df out : DataFrame) :
  filter_text q cs df = Some out → narrows out df.
Proof.
  unfold filter_text. destruct (Text.blank q).
  - intros [= <-]. apply narrows_refl.
  - cbv zeta. destruct (forallb (λ c, has_column c df) cs); [|done].
    destruct (re_compile (Text.lower (Text.strip q))) as [m|]; [|done].
    rewrite bind_ret. intros [= <-]. apply getitem_mask_narrows.
Qed.

(** A text search returns exactly when its query is blank, or the frame has
    the columns searched and the query compiles. *)
Lemma filter_text_is_Some `{Platform} (q : string) (cs : list string) (df : DataFrame) :
  is_Some (filter_text q cs df)
  ↔ Text.blank q = true
    ∨ (Forall (λ c, c ∈ columns df) cs
       ∧ is_Some (re_compile (Text.lower (Text.strip q)))).
Proof.
  unfold filter_text. destruct (Text.blank q).
  - split; [by left | by eexists].
  - cbv zeta.
    destruct (forallb (λ c, has_column c df) cs) eqn:Hcs.
    + assert (Forall (λ c, c ∈ columns df) cs) as Hall.
      { apply Forall_forall. intros c Hc. rewrite forallb_forall in Hcs.
        apply list_elem_of_In, Hcs in Hc. by apply bool_decide_eq_true in Hc. }
      destruct (re_compile (Text.lower (Text.strip q))) as [m|].
      * rewrite bind_ret. split; [intros _; right; split; [done | by eexists] | by eexists].
      * split; [by intros [? ?] | by intros [?|[_ [? ?]]]].
    + split; [by intros [? ?]|]. intros [?|[Hall _]]; [done|].
      exfalso. apply not_true_iff_false in Hcs. apply Hcs, forallb_forall.
      intros c Hc. apply bool_decide_eq_true. rewrite Forall_forall in Hall.
      by apply Hall, list_elem_of_In.
Qed.

Lemma filter_text_schema `{Platform} (q : string) (cs : list string) (df : DataFrame) :
  cs ⊆ columns df → is_Some (filter_text q cs df) ↔ query_ok q.
Proof.
  intros Hcs. rewrite filter_text_is_Some. unfold query_ok.
  assert (Forall (λ c, c ∈ columns df) cs) as Hall by (apply Forall_forall; intros c; apply Hcs).
  tauto.
Qed.

Lemma apply_filters_unfold `{Platform} (flt : browse_filters) (df : DataFrame) :
  apply_filters flt df =
    filter_status (f_status flt) df
    ≫= λ d1, filter_sex (f_sex flt) d1
    ≫= λ d2, filter_from (f_from flt) d2
    ≫= λ d3, filter_to (f_to flt) d3
    ≫= λ d4, filter_text (q_name flt) ["deceased_name"; "body_tag_no"; "next_of_kin"] d4
    ≫= λ d5, filter_text (q_location flt) ["storage_location"] d5
    ≫= λ d6, filter_text (q_cause flt) ["cause_of_death"] d6.
Proof. reflexivity. Qed.

(** The frames of the chain, one per step. *)
Lemma apply_filters_steps `{Platform} (flt : browse_filters) (df out : DataFrame) :
  apply_filters flt df = Some out →
  ∃ d1 d2 d3 d4 d5 d6,
    filter_status (f_status flt) df = Some d1
    ∧ filter_sex (f_sex flt) d1 = Some d2
    ∧ filter_from (f_from flt) d2 = Some d3
    ∧ filter_to (f_to flt) d3 = Some d4
    ∧ filter_text (q_name flt) ["deceased_name"; "body_tag_no"; "next_of_kin"] d4 = Some d5
    ∧ filter_text (q_location flt) ["storage_location"] d5 = Some d6
    ∧ filter_text (q_cause flt) ["cause_of_death"] d6 = Some out.
Proof.
  rewrite apply_filters_unfold. intros Hrun.
  destruct (filter_status (f_status flt) df) as [d1|] eqn:H1; [|done].
  rewrite bind_ret in Hrun.
  destruct (filter_sex (f_sex flt) d1) as [d2|] eqn:H2; [|done].
  rewrite bind_ret in Hrun.
  destruct (filter_from (f_from flt) d2) as [d3|] eqn:H3; [|done].
  rewrite bind_ret in Hrun.
  destruct (filter_to (f_to flt) d3) as [d4|] eqn:H4; [|done].
  rewrite bind_ret in Hrun.
  destruct (filter_text (q_name flt) _ d4) as [d5|] eqn:H5; [|done].
  rewrite bind_ret in Hrun.
  destruct (filter_text (q_location flt) _ d5) as [d6|] eqn:H6; [|done].
  rewrite bind_ret in Hrun.
  exists d1, d2, d3, d4, d5, d6. split_and!; first [reflexivity | assumption].
Qed.

(** What the chain returns: a subsequence of the rows; the columns too when
    a row is left or no date bound is set, and no column otherwise at all. *)
Lemma apply_filters_rows `{Platform} (flt : browse_filters) (df out : DataFrame) :
  apply_filters flt df = Some out →
  rows out `sublist_of` rows df
  ∧ (rows out ≠ [] ∨ (f_from flt = None ∧ f_to flt = None) → columns out = columns df)
  ∧ (columns out = columns df ∨ (columns out = [] ∧ rows out = []
                                 ∧ (is_Some (f_from flt) ∨ is_Some (f_to flt)))).
Proof.
  intros (d1 & d2 & d3 & d4 & d5 & d6 & H1 & H2 & H3 & H4 & H5 & H6 & H7)%apply_filters_steps.
  apply filter_status_narrows in H1 as [Hc1 Hs1].
  apply filter_sex_narrows in H2 as [Hc2 Hs2].
  apply filter_text_narrows in H5 as [Hc5 Hs5], H6 as [Hc6 Hs6], H7 as [Hc7 Hs7].
  assert (rows out `sublist_of` rows d4) as Hs74 by (by repeat (etrans; [eassumption|])).
  assert (columns out = columns d4) as Hc74 by congruence.
  assert (columns d2 = columns df) as Hc20 by congruence.
  assert (rows d2 `sublist_of` rows df) as Hs20 by (by etrans).
  assert (∀ a b : DataFrame, rows a `sublist_of` rows b → rows a ≠ [] → rows b ≠ []) as Hne.
  { intros a b Hab Ha Hb. rewrite Hb in Hab. by apply sublist_nil_r in Hab. }
  destruct (f_from flt) as [a|] eqn:Hfrom, (f_to flt) as [b|] eqn:Hto;
    cbn [filter_from filter_to] in H3, H4.
  - apply getitem_apply_rows in H3 as (Hs3 & Hc3 & Hc3' & _).
    apply getitem_apply_rows in H4 as (Hs4 & Hc4 & Hc4' & _).
    split_and!.
    + by repeat (etrans; [eassumption|]).
    + intros [Hrows|[? _]]; [|done].
      pose proof (Hne _ _ Hs74 Hrows) as Hr4. pose proof (Hne _ _ Hs4 Hr4) as Hr3.
      pose proof (Hne _ _ Hs3 Hr3) as Hr2. rewrite Hc74, Hc4, Hc3; done.
    + destruct (decide (rows d3 = [])) as [Hr3|Hr3].
      * right. rewrite Hc74, (Hc4' Hr3). split; [done|]. split; [|by left].
        rewrite Hr3 in Hs4. apply sublist_nil_r in Hs4. rewrite Hs4 in Hs74.
        by apply sublist_nil_r in Hs74.
      * left. pose proof (Hne _ _ Hs3 Hr3) as Hr2. rewrite Hc74, Hc4, Hc3; done.
  - apply getitem_apply_rows in H3 as (Hs3 & Hc3 & Hc3' & _).
    injection H4 as <-. split_and!.
    + by repeat (etrans; [eassumption|]).
    + intros [Hrows|[? _]]; [|done].
      pose proof (Hne _ _ Hs74 Hrows) as Hr3. pose proof (Hne _ _ Hs3 Hr3) as Hr2.
      rewrite Hc74, Hc3; done.
    + destruct (decide (rows d2 = [])) as [Hr2|Hr2].
      * right. rewrite Hc74, (Hc3' Hr2). split; [done|]. split; [|by left].
        rewrite Hr2 in Hs3. apply sublist_nil_r in Hs3. rewrite Hs3 in Hs74.
        by apply sublist_nil_r in Hs74.
      * left. rewrite Hc74, Hc3; done.
  - injection H3 as <-.
    apply getitem_apply_rows in H4 as (Hs4 & Hc4 & Hc4' & _).
    split_and!.
    + by repeat (etrans; [eassumption|]).
    + intros [Hrows|[_ ?]]; [|done].
      pose proof (Hne _ _ Hs74 Hrows) as Hr4. pose proof (Hne _ _ Hs4 Hr4) as Hr2.
      rewrite Hc74, Hc4; done.
    + destruct (decide (rows d2 = [])) as [Hr2|Hr2].
      * right. rewrite Hc74, (Hc4' Hr2). split; [done|]. split; [|by right].
        rewrite Hr2 in Hs4. apply sublist_nil_r in Hs4. rewrite Hs4 in Hs74.
        by apply sublist_nil_r in Hs74.
      * left. rewrite Hc74, Hc4; done.
  - injection H3 as <-. injection H4 as <-.
    split_and!; [by repeat (etrans; [eassumption|]) | intros _; congruence | left; congruence].
Qed.

(** C9. Filtering by status and then by sex gives the same result as
    filtering by sex and then by status, and on a frame that has the two
    columns, as every loaded frame has, both return. Every filter of the tab
    that returns only drops rows: the rows kept are a subsequence of the rows
    it was given, in their order, and so are the rows of the whole chain; the
    columns stay, except that a date bound applied to a frame with no rows
    returns a frame with no columns. Without a date bound the chain returns
    exactly when each text query is blank or compiles. An empty selection,
    an unset date bound and a blank query each return the frame unchanged,
    and so does the chain when all of them are empty. *)
Theorem browse_filters_commute_and_keep_order `{Platform}
    (statuses sexes : list string) (flt : browse_filters) (df : DataFrame) :
  (filter_status statuses df ≫= filter_sex sexes)
    = (filter_sex sexes df ≫= filter_status statuses)
  ∧ ("release_status" ∈ columns df → "sex" ∈ columns df →
       ∃ out, filter_status statuses df ≫= filter_sex sexes = Some out ∧ narrows out df)
  ∧ (∀ out, filter_status statuses df = Some out → narrows out df)
  ∧ (∀ out, filter_sex sexes df = Some out → narrows out df)
  ∧ (∀ d out, filter_from d df = Some out ∨ filter_to d df = Some out →
       rows out `sublist_of` rows df
       ∧ (rows df ≠ [] ∨ d = None → columns out = columns df))
  ∧ (∀ d, "dod_date" ∈ columns df →
       is_Some (filter_from d df) ∧ is_Some (filter_to d df))
  ∧ (∀ q cs out, filter_text q cs df = Some out → narrows out df)
  ∧ (∀ out, apply_filters flt df = Some out →
       rows out `sublist_of` rows df
       ∧ (rows out ≠ [] ∨ (f_from flt = None ∧ f_to flt = None) →
          columns out = columns df))
  ∧ (COLUMNS ⊆ columns df → f_from flt = None → f_to flt = None →
       (is_Some (apply_filters flt df)
        ↔ query_ok (q_name flt) ∧ query_ok (q_location flt) ∧ query_ok (q_cause flt)))
  ∧ filter_status [] df = Some df
  ∧ filter_sex [] df = Some df
  ∧ filter_from None df = Some df
  ∧ filter_to None df = Some df
  ∧ (∀ q cs, Text.blank q = true → filter_text q cs df = Some df)
  ∧ (f_status flt = [] → f_sex flt = [] → f_from flt = None → f_to flt = None →
     Text.blank (q_name flt) = true → Text.blank (q_location flt) = true →
     Text.blank (q_cause flt) = true →
     apply_filters flt df = Some df).
Proof.
  assert (∀ q cs d, Text.blank q = true → filter_text q cs d = Some d) as Hblank.
  { intros q cs d Hq. unfold filter_text. by rewrite Hq. }
  assert ((filter_status statuses df ≫= filter_sex sexes)
          = (filter_sex sexes df ≫= filter_status statuses)) as Hcomm.
  { unfold filter_sex, filter_status, getitem_isin, has_column.
    destruct (bool_decide (sexes = [])), (bool_decide (statuses = []));
      rewrite ?bind_ret; try reflexivity.
    - by destruct (bool_decide ("release_status" ∈ columns df)).
    - by destruct (bool_decide ("sex" ∈ columns df)).
    - destruct (bool_decide ("release_status" ∈ columns df)) eqn:H1,
        (bool_decide ("sex" ∈ columns df)) eqn:H2; rewrite ?bind_ret;
        cbn [columns getitem_mask]; rewrite ?H1, ?H2; try reflexivity.
      unfold getitem_mask. cbn [rows columns]. do 2 f_equal. apply list_filter_comm. }
  split_and!.
  - exact Hcomm.
  - intros Hst Hsx.
    assert (∃ d1, filter_status statuses df = Some d1) as [d1 H1].
    { unfold filter_status, getitem_isin, has_column.
      rewrite (bool_decide_eq_true_2 _ Hst). destruct (bool_decide (statuses = [])); by eexists. }
    pose proof (filter_status_narrows _ _ _ H1) as [Hc1 Hs1].
    assert (∃ d2, filter_sex sexes d1 = Some d2) as [d2 H2].
    { unfold filter_sex, getitem_isin, has_column. rewrite Hc1.
      rewrite (bool_decide_eq_true_2 _ Hsx). destruct (bool_decide (sexes = [])); by eexists. }
    exists d2. rewrite H1, bind_ret. split; [exact H2|].
    eapply narrows_trans; [by eapply filter_sex_narrows | by split].
  - intros out. apply filter_status_narrows.
  - intros out. apply filter_sex_narrows.
  - intros d out [Hf|Hf].
    + apply filter_from_rows in Hf as (? & ? & _). done.
    + apply filter_to_rows in Hf as (? & ? & _). done.
  - intros d Hc. unfold filter_from, filter_to, getitem_apply, has_column.
    rewrite (bool_decide_eq_true_2 _ Hc). destruct d; split; by eexists.
  - intros q cs out. apply filter_text_narrows.
  - intros out Hrun. apply apply_filters_rows in Hrun as (? & ? & _). done.
  - intros Hcols Hfrom Hto. rewrite apply_filters_unfold, Hfrom, Hto.
    assert (∃ d1, filter_status (f_status flt) df = Some d1 ∧ columns d1 = columns df)
      as (d1 & H1 & Hc1).
    { unfold filter_status, getitem_isin, has_column.
      rewrite (bool_decide_eq_true_2 ("release_status" ∈ columns df))
        by (apply Hcols; decide_elem).
      destruct (bool_decide (f_status flt = [])); by eexists. }
    assert (∃ d2, filter_sex (f_sex flt) d1 = Some d2 ∧ columns d2 = columns df)
      as (d2 & H2 & Hc2).
    { unfold filter_sex, getitem_isin, has_column. rewrite Hc1.
      rewrite (bool_decide_eq_true_2 ("sex" ∈ columns df))
        by (apply Hcols; decide_elem).
      destruct (bool_decide (f_sex flt = [])); by eexists. }
    rewrite H1, bind_ret, H2, bind_ret. cbn [filter_from filter_to].
    rewrite !bind_ret.
    assert (∀ cs d, cs ⊆ COLUMNS → columns d = columns df → cs ⊆ columns d) as Hsub.
    { intros cs d Hcs Hd c Hc. rewrite Hd. by apply Hcols, Hcs. }
    assert (["deceased_name"; "body_tag_no"; "next_of_kin"] ⊆ COLUMNS) as Hn
      by (apply (bool_decide_unpack _); vm_compute; exact I).
    assert (["storage_location"] ⊆ COLUMNS) as Hl
      by (apply (bool_decide_unpack _); vm_compute; exact I).
    assert (["cause_of_death"] ⊆ COLUMNS) as Hcd
      by (apply (bool_decide_unpack _); vm_compute; exact I).
    rewrite <- (filter_text_schema (q_name flt) _ d2 (Hsub _ _ Hn Hc2)).
    destruct (filter_text (q_name flt) _ d2) as [d5|] eqn:H5; [rewrite bind_ret|].
    + pose proof (filter_text_narrows _ _ _ _ H5) as [Hc5 _].
      rewrite <- (filter_text_schema (q_location flt) _ d5
                    (Hsub _ _ Hl (eq_trans Hc5 Hc2))).
      destruct (filter_text (q_location flt) _ d5) as [d6|] eqn:H6; [rewrite bind_ret|].
      * pose proof (filter_text_narrows _ _ _ _ H6) as [Hc6 _].
        rewrite <- (filter_text_schema (q_cause flt) _ d6
                      (Hsub _ _ Hcd (eq_trans Hc6 (eq_trans Hc5 Hc2)))).
        split; [intros Hs; split_and!; [by eexists | by eexists | exact Hs]
               | by intros (_ & _ & ?)].
      * split; [by intros [? ?] | by intros (_ & [? ?] & _)].
    + split; [by intros [? ?] | by intros ([? ?] & _)].
  - reflexivity.
  - reflexivity.
  - reflexivity.
  - reflexivity.
  - intros q cs. apply Hblank.
  - intros Hs Hx Hf Ht Hn Hl Hc. rewrite apply_filters_unfold, Hs, Hx, Hf, Ht.
    change (filter_status [] df) with (Some df). rewrite bind_ret.
    change (filter_sex [] df) with (Some df). rewrite bind_ret.
    cbn [filter_from filter_to]. rewrite !bind_ret.
    rewrite (Hblank _ _ _ Hn), bind_ret, (Hblank _ _ _ Hl), bind_ret. by apply Hblank.
Qed.

(** Among the three records of the examples, the search for doe among those
    in storage keeps the first and the third, in that order; the status and
    sex filters give the same frame in either order. *)
Example browse_in_storage_doe :
  @apply_filters example_platform
    {| f_status := ["In Storage"]; f_sex := []; f_from := None; f_to := None;
       q_name := " Doe "; q_location := ""; q_cause := "" |} browse_frame
    = Some {| columns := COLUMNS; rows := [browse_row_jane; browse_row_max] |}
  ∧ (filter_status ["In Storage"] browse_frame ≫= filter_sex ["Male"])
    = Some {| columns := COLUMNS; rows := [browse_row_max] |}
  ∧ (filter_sex ["Male"] browse_frame ≫= filter_status ["In Storage"])
    = Some {| columns := COLUMNS; rows := [browse_row_max] |}.
Proof. split_and!; vm_compute; reflexivity. Qed.

(** * Further properties of the source *)

(** ** Loading *)

(** X1. On a store whose file is missing or holds a table, [load_data] is a
    read: an existing file is left as it is, a missing file is created with
    the bare header, and loading again gives the same frame and the same
    file. *)
Theorem load_data_reads_only (fs : store) :
  ∃ df,
    load_data fs = Some (ensure_storage fs, df)
    ∧ load_data (ensure_storage fs) = Some (ensure_storage fs, df)
    ∧ (∀ t, fs = Some t → ensure_storage fs = Some t)
    ∧ (fs = None →
         ensure_storage fs = Some {| columns := COLUMNS; rows := [] |}
         ∧ df = {| columns := COLUMNS; rows := [] |}).
Proof.
  destruct (load_data_spec fs) as (t & Ht & Hload).
  exists (schema_normalize t). rewrite Ht. split_and!.
  - exact Hload.
  - destruct (load_data_spec (Some t)) as (t' & [= <-] & Hl). exact Hl.
  - intros t' ->. cbn [ensure_storage] in Ht. congruence.
  - intros ->. cbn [ensure_storage] in Ht. injection Ht as <-.
    split; [reflexivity|].
    apply schema_normalize_id. split; [reflexivity | apply Forall_nil_2].
Qed.

(** ** [validate_required] *)

(** X2. For any dictionary of fields, [validate_required] returns exactly the
    keys whose value is [None] or a blank text, in the order of the
    dictionary; the list is empty exactly when no value is missing. *)
Theorem validate_required_labels (fields : list (string * field_value)) :
  (∀ l, l ∈ validate_required fields
        ↔ ∃ v, (l, v) ∈ fields ∧ field_missing v = true)
  ∧ validate_required fields `sublist_of` fields.*1
  ∧ (validate_required fields = []
     ↔ Forall (λ kv, field_missing kv.2 = false) fields).
Proof.
  induction fields as [|[k v] fields (IHin & IHsub & IHnil)];
    cbn [validate_required].
  - split_and!.
    + intros l. split; [by intros ?%elem_of_nil|]. by intros (v & ?%elem_of_nil & _).
    + constructor.
    + split; [constructor | done].
  - destruct (field_missing v) eqn:Hv.
    + split_and!.
      * intros l. rewrite elem_of_cons, IHin. split.
        -- intros [->|(v' & Hin & Hm)].
           ++ exists v. split; [apply list_elem_of_here | done].
           ++ exists v'. split; [by apply list_elem_of_further | done].
        -- intros (v' & [[= -> ->]|Hin]%elem_of_cons & Hm); [by left|].
           right. by exists v'.
      * by constructor.
      * split; [done|]. intros [Hf _]%Forall_cons_1. cbn in Hf. congruence.
    + split_and!.
      * intros l. rewrite IHin. split.
        -- intros (v' & Hin & Hm). exists v'. split; [by apply list_elem_of_further | done].
        -- intros (v' & [[= -> ->]|Hin]%elem_of_cons & Hm); [congruence|]. by exists v'.
      * by constructor.
      * rewrite IHnil. split.
        -- intros Hf. by constructor.
        -- by intros [_ Hf]%Forall_cons_1.
Qed.

(** ** [combine_date_time], both directions *)

(** X3. [combine_date_time] returns the empty text exactly when the date is
    unset, blank or not a date [strptime] accepts, or the time is [None] or a
    non-blank text that [strptime] rejects, or the date and the time are both
    there (a blank time text being midnight) and their conversion to the
    system zone raises; in every other case the result is the text of the
    converted time, which is not empty. *)
Theorem combine_date_time_empty_iff `{Platform} (d : date_arg) (t : time_arg) :
  (combine_date_time d t = ""
   ↔ date_arg_obj d = None
     ∨ t = TNone
     ∨ (∃ s, t = TStr s ∧ Text.blank s = false ∧ Strptime.time_HM s = None)
     ∨ ∃ d_obj t_obj,
         date_arg_obj d = Some d_obj
         ∧ time_arg_obj (blank_time_is_midnight t) = Some t_obj
         ∧ astimezone_tzlocal (DateTime d_obj t_obj) = None)
  ∧ (combine_date_time d t ≠ "" →
     ∃ d_obj t_obj a,
       date_arg_obj d = Some d_obj
       ∧ time_arg_obj (blank_time_is_midnight t) = Some t_obj
       ∧ astimezone_tzlocal (DateTime d_obj t_obj) = Some a
       ∧ combine_date_time d t = isoformat_minutes a).
Proof.
  split.
  - rewrite combine_date_time_empty, time_arg_obj_None. tauto.
  - intros Hne.
    destruct (date_arg_obj d) as [d_obj|] eqn:Hd;
      [|by rewrite combine_date_time_no_date in Hne].
    destruct (time_arg_obj (blank_time_is_midnight t)) as [t_obj|] eqn:Ht;
      [|by rewrite combine_date_time_no_time in Hne].
    rewrite (combine_date_time_parts d t d_obj t_obj Hd Ht) in Hne |- *.
    destruct (astimezone_tzlocal (DateTime d_obj t_obj)) as [a|] eqn:Ha; [|done].
    by exists d_obj, t_obj, a.
Qed.

(** ** Times of day printed and parsed back *)

(** X4. A time of day printed by [to_time_str] is parsed back by
    [strptime(..., "%H:%M")] to the same hour and minute, the seconds and
    microseconds being lost; the text is never empty, so it is told apart from
    the empty text [to_time_str] gives for no time. *)
Theorem to_time_str_parses_back (h m s us : nat) :
  h < 24 → m < 60 →
  Strptime.time_HM (to_time_str (Some (Time h m s us))) = Some (Time h m 0 0)
  ∧ to_time_str (Some (Time h m s us)) ≠ to_time_str None
  ∧ Strptime.time_HM (to_time_str None) = None.
Proof.
  intros Hh Hm. split_and!.
  - by apply time_HM_strftime_HM.
  - cbn [to_time_str]. intros Hempty.
    pose proof (time_HM_strftime_HM h m s us Hh Hm) as Hparse.
    rewrite Hempty in Hparse. discriminate Hparse.
  - reflexivity.
Qed.

(** Twenty to midnight, with seconds. *)
Lemma to_time_str_parses_back_example :
  Strptime.time_HM (to_time_str (Some (Time 23 40 59 0))) = Some (Time 23 40 0 0).
Proof. apply (to_time_str_parses_back 23 40 59 0); lia. Defined.

(** ** Locating the record to edit *)

Lemma locate_from_spec (rids : list (option string)) (sel : string) (i0 : nat) :
  (∀ i, locate_from i0 rids sel = Some (Some i)
        ↔ i0 ≤ i
          ∧ (∃ rid, rids !! (i - i0) = Some (Some rid) ∧ Text.startswith rid sel = true)
          ∧ ∀ j, j < i - i0 →
              ∃ rid, rids !! j = Some (Some rid) ∧ Text.startswith rid sel = false)
  ∧ (locate_from i0 rids sel = Some None
     ↔ Forall (λ o, ∃ rid, o = Some rid ∧ Text.startswith rid sel = false) rids).
Proof.
  revert i0. induction rids as [|[rid|] rids IH]; intros i0; cbn [locate_from].
  - split.
    + intros i. split; [done|]. by intros (_ & (rid & Hl & _) & _).
    + split; [constructor | done].
  - destruct (Text.startswith rid sel) eqn:Hp.
    + split.
      * intros i. split.
        -- intros [= <-]. rewrite Nat.sub_diag. split_and!; [lia | by exists rid | lia].
        -- intros (Hle & (rid' & Hl & Hs) & Hbefore).
           destruct (decide (i = i0)) as [->|Hne]; [done|].
           destruct (Hbefore 0) as (rid0 & [= <-] & Hs0); [lia | congruence].
      * split; [done|]. intros [(rid' & [= <-] & Hs) _]%Forall_cons_1. congruence.
    + destruct (IH (S i0)) as [IHfound IHnone]. split.
      * intros i. rewrite IHfound. split.
        -- intros (Hle & (rid' & Hl & Hs) & Hbefore). split_and!; [lia | |].
           ++ exists rid'. split; [|done].
              replace (i - i0) with (S (i - S i0)) by lia. done.
           ++ intros [|j] Hj; [by exists rid|]. apply Hbefore. lia.
        -- intros (Hle & (rid' & Hl & Hs) & Hbefore).
           destruct (decide (i = i0)) as [->|Hne].
           { rewrite Nat.sub_diag in Hl. injection Hl as ->. congruence. }
           split_and!; [lia | |].
           ++ exists rid'. split; [|done].
              replace (i - i0) with (S (i - S i0)) in Hl by lia. done.
           ++ intros j Hj. apply (Hbefore (S j)). lia.
      * rewrite IHnone. split.
        -- intros Hf. constructor; [by exists rid | done].
        -- by intros [_ Hf]%Forall_cons_1.
  - split.
    + intros i. split; [done|]. intros (Hle & (rid' & Hl & Hs) & Hbefore).
      destruct (decide (i = i0)) as [->|Hne].
      * rewrite Nat.sub_diag in Hl. done.
      * destruct (Hbefore 0) as (rid0 & [=] & _). lia.
    + split; [done|]. by intros [(rid' & [=] & _) _]%Forall_cons_1.
Qed.

(** X5. The Edit tab works on the first row whose [record_id] starts with
    the identifier taken from the label: a row is the one located exactly when
    its identifier starts with it and no earlier row's does; and no row is
    located exactly when no identifier starts with it. *)
Theorem locate_first_match (df : DataFrame) (sel : string) :
  (∀ i, locate df sel = Some (Some i)
        ↔ (∃ rid, record_ids df !! i = Some (Some rid) ∧ Text.startswith rid sel = true)
          ∧ ∀ j, j < i →
              ∃ rid, record_ids df !! j = Some (Some rid)
                     ∧ Text.startswith rid sel = false)
  ∧ (locate df sel = Some None
     ↔ Forall (λ o, ∃ rid, o = Some rid ∧ Text.startswith rid sel = false)
              (record_ids df)).
Proof.
  destruct (locate_from_spec (record_ids df) sel 0) as [Hfound Hnone].
  split; [|exact Hnone].
  intros i. unfold locate. fold (record_ids df). rewrite Hfound, Nat.sub_0_r.
  split; [by intros (_ & ? & ?) | intros [? ?]; split_and!; [lia | done | done]].
Qed.

(** ** The Edit tab without a record, and with an incomplete form *)

Lemma empty_frame_no_rows (df : DataFrame) : rows df = [] → empty_frame df = true.
Proof.
  intros Hr. unfold empty_frame. rewrite Hr.
  destruct (bool_decide (columns df = [])); reflexivity.
Qed.

Lemma empty_frame_rows (df : DataFrame) :
  schema_normal df → rows df ≠ [] → empty_frame df = false.
Proof.
  intros Hn Hr. destruct (rows df) as [|r l] eqn:Hrows; [done|].
  apply (empty_frame_false df 0 r Hn). by rewrite Hrows.
Qed.

(** A store whose loaded frame has a row is an existing file. *)
Lemma load_data_rows_file (fs fs1 : store) (df : DataFrame) :
  load_data fs = Some (fs1, df) → rows df ≠ [] → fs1 = fs.
Proof.
  intros Hload Hrows.
  destruct (load_data_spec fs) as (t & Ht & Hload').
  rewrite Hload in Hload'. injection Hload' as -> ->.
  destruct fs as [t'|]; cbn [ensure_storage] in Ht; [congruence|].
  injection Ht as <-. exfalso. apply Hrows. reflexivity.
Qed.

(** X6. Whatever button is pressed, the Edit tab writes nothing when the
    loaded frame has no rows (it reports that there are no records) or when
    no identifier starts with the selected one (it reports that the record
    could not be located): the file is the one [load_data] left. *)
Theorem tab_edit_without_record `{Platform} (fs fs1 : store) (df : DataFrame)
    (sel : string) (b : edit_button) :
  load_data fs = Some (fs1, df) →
  rows df = [] ∨ locate df sel = Some None →
  fs1 = ensure_storage fs
  ∧ tab_edit fs sel b
      = Some (fs1, Some (if bool_decide (rows df = []) then Info_no_records
                         else Error_not_located)).
Proof.
  intros Hload Hcase.
  destruct (load_data_schema_normal _ _ _ Hload) as [Hn Hfs]. split; [exact Hfs|].
  unfold tab_edit. rewrite Hload, bind_ret. cbv beta iota.
  case_bool_decide as Hrows.
  - by rewrite (empty_frame_no_rows _ Hrows).
  - rewrite (empty_frame_rows _ Hn Hrows).
    destruct Hcase as [?|Hloc]; [done|]. by rewrite Hloc, bind_ret.
Qed.

(** On a missing file the tab creates the file with its header and reports
    that there are no records, also when a quick action is pressed. *)
Lemma tab_edit_without_record_example :
  @tab_edit example_platform None "3f2b8c1e" (Mark_released "t1" "t2")
    = Some (Some {| columns := COLUMNS; rows := [] |}, Some Info_no_records).
Proof.
  destruct (@tab_edit_without_record example_platform None
              (Some {| columns := COLUMNS; rows := [] |})
              {| columns := COLUMNS; rows := [] |} "3f2b8c1e" (Mark_released "t1" "t2"))
    as [_ Hrun].
  - vm_compute. reflexivity.
  - left. reflexivity.
  - exact Hrun.
Defined.

Lemma validate_required_edit (f : edit_form) :
  validate_required (edit_required f) =
    (if Text.blank (deceased_name_e f) then ["Deceased Name"] else [])
    ++ (if Text.blank (body_tag_no_e f) then ["Body Tag Number"] else [])
    ++ (if bool_decide (dod_e f = None) then ["Date of Death"] else [])
    ++ (if Text.blank (storage_location_e2 f) then ["Storage Location"] else []).
Proof.
  unfold edit_required. cbn [validate_required field_missing].
  destruct (Text.blank (deceased_name_e f)), (Text.blank (body_tag_no_e f)),
    (dod_e f), (Text.blank (storage_location_e2 f)); reflexivity.
Qed.

(** X7. [Save Changes] with a required field of the form blank or unset
    (name, tag, date of death, the confirmed storage location) reports the
    labels of those fields, in that order, and leaves the file exactly as it
    was. *)
Theorem save_changes_refused `{Platform} (fs fs1 : store) (df : DataFrame)
    (sel : string) (i : nat) (f : edit_form) (now : string) :
  load_data fs = Some (fs1, df) →
  locate df sel = Some (Some i) →
  Text.blank (deceased_name_e f) = true ∨ Text.blank (body_tag_no_e f) = true
  ∨ dod_e f = None ∨ Text.blank (storage_location_e2 f) = true →
  tab_edit fs sel (Save_changes f now)
    = Some (fs, Some (Error_required
         ((if Text.blank (deceased_name_e f) then ["Deceased Name"] else [])
          ++ (if Text.blank (body_tag_no_e f) then ["Body Tag Number"] else [])
          ++ (if bool_decide (dod_e f = None) then ["Date of Death"] else [])
          ++ (if Text.blank (storage_location_e2 f) then ["Storage Location"] else [])))).
Proof.
  intros Hload Hloc Hmissing.
  destruct (tab_edit_found fs fs1 df sel i (Save_changes f now) Hload Hloc)
    as (rec & Hrec & ->).
  assert (fs1 = fs) as ->.
  { apply (load_data_rows_file _ _ _ Hload). intros Hnil. by rewrite Hnil in Hrec. }
  rewrite validate_required_edit.
  rewrite bool_decide_eq_false_2; [done|].
  destruct Hmissing as [Hm|[Hm|[Hm|Hm]]]; rewrite Hm;
    destruct (Text.blank (deceased_name_e f)), (Text.blank (body_tag_no_e f));
    try case_bool_decide; try done;
    destruct (Text.blank (storage_location_e2 f)); done.
Qed.

Lemma save_changes_refused_example :
  @tab_edit example_platform example_store "3f2b8c1e"
     (Save_changes example_edit_form_no_tag example_now)
    = Some (example_store, Some (Error_required ["Body Tag Number"])).
Proof.
  rewrite (@save_changes_refused example_platform example_store example_store
             example_frame "3f2b8c1e" 0 example_edit_form_no_tag example_now).
  - vm_compute. reflexivity.
  - vm_compute. reflexivity.
  - vm_compute. reflexivity.
  - right. left. vm_compute. reflexivity.
Defined.

(** ** What [Save Changes] and [Save Record] store *)

Lemma edit_row_cell `{Platform} (rec : row) (f : edit_form) (now c : string) :
  c ∈ COLUMNS →
  reindex COLUMNS (row_of_dict (edit_record rec f now)) !! c
    = dict_get c (edit_record rec f now).
Proof. intros Hc. by rewrite lookup_reindex, decide_True, lookup_row_of_dict. Qed.

Lemma blank_false_strip (s : string) : Text.blank s = false → Text.strip s ≠ "".
Proof. unfold Text.blank. by intros ?%bool_decide_eq_false. Qed.

Lemma validate_required_edit_nil (f : edit_form) :
  validate_required (edit_required f) = [] →
  Text.blank (deceased_name_e f) = false ∧ Text.blank (body_tag_no_e f) = false
  ∧ (∃ d, dod_e f = Some d) ∧ Text.blank (storage_location_e2 f) = false.
Proof.
  rewrite validate_required_edit.
  destruct (Text.blank (deceased_name_e f)), (Text.blank (body_tag_no_e f)),
    (dod_e f) as [d|], (Text.blank (storage_location_e2 f));
    intros Hnil; try discriminate Hnil.
  split_and!; [done | done | by exists d | done].
Qed.

Lemma validate_required_add_nil (f : add_form) :
  validate_required (add_required f) = [] →
  Text.blank (deceased_name f) = false ∧ Text.blank (body_tag_no f) = false
  ∧ (∃ d, dod f = Some d) ∧ Text.blank (storage_location f) = false.
Proof.
  rewrite validate_required_add.
  destruct (Text.blank (deceased_name f)), (Text.blank (body_tag_no f)),
    (dod f) as [d|], (Text.blank (storage_location f));
    intros Hnil; try discriminate Hnil.
  split_and!; [done | done | by exists d | done].
Qed.

(** X8. A successful [Save Changes] rewrites one row: the frame written has
    the canonical columns and as many rows as were loaded, every row but the
    located one is as loaded, and the located row carries the clock reading in
    [last_updated] and the trimmed name, tag and confirmed storage location,
    none of them empty, with the date of death printed from the form. *)
Theorem save_changes_rewrites_one_row `{Platform} (fs fs1 : store) (df : DataFrame)
    (sel : string) (i : nat) (f : edit_form) (now : string) :
  load_data fs = Some (fs1, df) →
  locate df sel = Some (Some i) →
  validate_required (edit_required f) = [] →
  ∃ df' (r' : row),
    tab_edit fs sel (Save_changes f now) = Some (Some df', Some Success_changes_saved)
    ∧ columns df' = COLUMNS
    ∧ length (rows df') = length (rows df)
    ∧ (∀ j, j ≠ i → rows df' !! j = rows df !! j)
    ∧ rows df' !! i = Some r'
    ∧ (∀ c, is_Some (r' !! c) → c ∈ COLUMNS)
    ∧ r' !! "last_updated" = Some now
    ∧ r' !! "deceased_name" = Some (Text.strip (deceased_name_e f))
    ∧ r' !! "body_tag_no" = Some (Text.strip (body_tag_no_e f))
    ∧ r' !! "storage_location" = Some (Text.strip (storage_location_e2 f))
    ∧ r' !! "dod_date" = Some (to_date_str (dod_e f))
    ∧ Text.strip (deceased_name_e f) ≠ ""
    ∧ Text.strip (body_tag_no_e f) ≠ ""
    ∧ Text.strip (storage_location_e2 f) ≠ ""
    ∧ to_date_str (dod_e f) ≠ "".
Proof.
  intros Hload Hloc Hvalid.
  destruct (save_changes_spec fs fs1 df sel i f now Hload Hloc Hvalid)
    as (rec & Hrec & Hrun & Hrow & Hother & Hlen).
  destruct (load_data_schema_normal _ _ _ Hload) as [[Hc _] _].
  destruct (validate_required_edit_nil f Hvalid) as (Hn & Ht & [d Hd] & Hs).
  eexists _, _. split_and!;
    [exact Hrun | exact Hc | exact Hlen | exact Hother | exact Hrow
    | apply reindex_in_schema | .. ].
  - rewrite edit_row_cell by decide_elem. reflexivity.
  - rewrite edit_row_cell by decide_elem. reflexivity.
  - rewrite edit_row_cell by decide_elem. reflexivity.
  - rewrite edit_row_cell by decide_elem. reflexivity.
  - rewrite edit_row_cell by decide_elem. reflexivity.
  - by apply blank_false_strip.
  - by apply blank_false_strip.
  - by apply blank_false_strip.
  - rewrite Hd. apply date_isoformat_nonempty.
Qed.

(** Jane Doe's record is saved as Released with another drawer. *)
Lemma save_changes_rewrites_one_row_example :
  ∃ df' (r' : row),
    @tab_edit example_platform example_store "3f2b8c1e"
       (Save_changes example_edit_form_released_undated "2024-03-06T08:00:00+05:30")
      = Some (Some df', Some Success_changes_saved)
    ∧ rows df' !! 0 = Some r'
    ∧ length (rows df') = 1
    ∧ r' !! "last_updated" = Some "2024-03-06T08:00:00+05:30"
    ∧ r' !! "storage_location" = Some "Drawer 9".
Proof.
  destruct (@save_changes_rewrites_one_row example_platform example_store example_store
              example_frame "3f2b8c1e" 0 example_edit_form_released_undated
              "2024-03-06T08:00:00+05:30")
    as (df' & r' & Hrun & _ & Hlen & _ & Hrow & _ & Hu & _ & _ & Hs & _).
  - vm_compute. reflexivity.
  - vm_compute. reflexivity.
  - vm_compute. reflexivity.
  - exists df', r'. split; [exact Hrun|]. split; [exact Hrow|].
    split; [exact Hlen|]. split; [exact Hu|]. rewrite Hs. vm_compute. reflexivity.
Defined.

(** X9. After a successful [Save Changes] the saved [released_dt] is empty
    exactly when the chosen status is In Storage, or no release date is set in
    the form, or the conversion of the release date and time to the system
    zone raises: a record can be saved as Released or Transferred without a
    release timestamp, and never as In Storage with one. *)
Theorem save_changes_released_dt_empty_iff `{Platform} (fs fs1 : store) (df : DataFrame)
    (sel : string) (i : nat) (f : edit_form) (now : string) :
  load_data fs = Some (fs1, df) →
  locate df sel = Some (Some i) →
  validate_required (edit_required f) = [] →
  ∃ df' (r' : row) v,
    tab_edit fs sel (Save_changes f now) = Some (Some df', Some Success_changes_saved)
    ∧ rows df' !! i = Some r'
    ∧ r' !! "released_dt" = Some v
    ∧ (v = ""
       ↔ status_e f = "In Storage"
         ∨ released_date_e f = None
         ∨ ∃ d, released_date_e f = Some d
                ∧ astimezone_tzlocal (DateTime d (released_time_e f)) = None).
Proof.
  intros Hload Hloc Hvalid.
  destruct (save_changes_spec fs fs1 df sel i f now Hload Hloc Hvalid)
    as (rec & Hrec & Hrun & Hrow & _).
  destruct (edit_record_cells rec f now) as (_ & _ & _ & Hd & _).
  eexists _, _, _. split_and!; [exact Hrun | exact Hrow | exact Hd |].
  case_bool_decide as Hs; cbn [negb].
  - split; [by left | done].
  - rewrite combine_date_time_inputs_empty. tauto.
Qed.

(** Jane Doe's record is saved as Released with no release date picked: the
    release timestamp is saved empty. *)
Lemma save_changes_released_dt_empty_iff_example :
  ∃ df' (r' : row),
    @tab_edit example_platform example_store "3f2b8c1e"
       (Save_changes example_edit_form_released_undated example_now)
      = Some (Some df', Some Success_changes_saved)
    ∧ rows df' !! 0 = Some r'
    ∧ r' !! "released_dt" = Some "".
Proof.
  destruct (@save_changes_released_dt_empty_iff example_platform example_store
              example_store example_frame "3f2b8c1e" 0
              example_edit_form_released_undated example_now)
    as (df' & r' & v & Hrun & Hrow & Hv & Hiff).
  - vm_compute. reflexivity.
  - vm_compute. reflexivity.
  - vm_compute. reflexivity.
  - exists df', r'. split; [exact Hrun|]. split; [exact Hrow|].
    assert (v = "") as Hempty by (apply Hiff; right; left; reflexivity).
    rewrite Hempty in Hv. exact Hv.
Defined.

Lemma add_record_all_cells `{Platform} (f : add_form) (uuid4 now : string) :
  Forall (λ c, is_Some (row_of_dict (add_record f uuid4 now) !! c)) COLUMNS.
Proof.
  unfold COLUMNS.
  repeat (apply Forall_cons; split;
          [rewrite lookup_row_of_dict; eexists; reflexivity|]).
  apply Forall_nil_2.
Qed.

(** X10. A record accepted by [Save Record] is stored with a text in each of
    the 22 columns and nothing else; its name, tag and storage location are
    the trimmed inputs and are not empty, its date of death is printed from
    the form, and its [admitted_dt] is empty exactly when the admission date
    is unset or the conversion of the admission date and time to the system
    zone raises. *)
Theorem save_record_fields `{Platform} (fs : store) (f : add_form) (uuid4 now : string) :
  validate_required (add_required f) = [] →
  ∃ fs1 df (r : row) v,
    load_data fs = Some (fs1, df)
    ∧ tab_add_save fs f uuid4 now
        = Some (Some {| columns := COLUMNS; rows := rows df ++ [r] |}, Success_saved)
    ∧ (∀ c, is_Some (r !! c) ↔ c ∈ COLUMNS)
    ∧ r !! "deceased_name" = Some (Text.strip (deceased_name f))
    ∧ r !! "body_tag_no" = Some (Text.strip (body_tag_no f))
    ∧ r !! "storage_location" = Some (Text.strip (storage_location f))
    ∧ r !! "dod_date" = Some (to_date_str (dod f))
    ∧ Text.strip (deceased_name f) ≠ ""
    ∧ Text.strip (body_tag_no f) ≠ ""
    ∧ Text.strip (storage_location f) ≠ ""
    ∧ to_date_str (dod f) ≠ ""
    ∧ r !! "admitted_dt" = Some v
    ∧ (v = ""
       ↔ admitted_date f = None
         ∨ ∃ d, admitted_date f = Some d
                ∧ astimezone_tzlocal (DateTime d (admitted_time f)) = None).
Proof.
  intros Hvalid.
  destruct (tab_add_save_spec fs f uuid4 now) as (fs1 & df & Hload & _ & Hsave).
  destruct (validate_required_add_nil f Hvalid) as (Hn & Ht & [d Hd] & Hs).
  destruct (add_record_cells f uuid4 now) as (_ & Hadm & _).
  exists fs1, df, (row_of_dict (add_record f uuid4 now)). eexists.
  split_and!; [exact Hload | | | | | | | | | | | exact Hadm |].
  - rewrite Hsave, Hvalid. by rewrite bool_decide_eq_true_2.
  - intros c. split.
    + intros Hc. rewrite <- (add_record_keys f uuid4 now). by apply row_of_dict_keys.
    + intros Hc. pose proof (add_record_all_cells f uuid4 now) as Hall.
      rewrite Forall_forall in Hall. by apply Hall.
  - rewrite lookup_row_of_dict. reflexivity.
  - rewrite lookup_row_of_dict. reflexivity.
  - rewrite lookup_row_of_dict. reflexivity.
  - rewrite lookup_row_of_dict. reflexivity.
  - by apply blank_false_strip.
  - by apply blank_false_strip.
  - by apply blank_false_strip.
  - rewrite Hd. apply date_isoformat_nonempty.
  - apply combine_date_time_inputs_empty.
Qed.

(** Jane Doe's record in a new file. *)
Lemma save_record_fields_example :
  ∃ r : row,
    @tab_add_save example_platform None example_add_form example_uuid example_now
      = Some (Some {| columns := COLUMNS; rows := [r] |}, Success_saved)
    ∧ r !! "deceased_name" = Some "Jane Doe"
    ∧ r !! "dod_date" = Some "2024-03-01"
    ∧ is_Some (r !! "remarks").
Proof.
  destruct (@save_record_fields example_platform None example_add_form example_uuid
              example_now)
    as (fs1 & df & r & v & Hload & Hrun & Hcells & Hname & _ & _ & Hdod & _).
  - vm_compute. reflexivity.
  - assert (df = {| columns := COLUMNS; rows := [] |}) as ->.
    { vm_compute in Hload. by injection Hload as _ <-. }
    exists r. split; [exact Hrun|]. split; [exact Hname|]. split; [exact Hdod|].
    apply Hcells. apply (bool_decide_unpack _). vm_compute. exact I.
Defined.

(** ** What the Browse tab keeps *)

Lemma elem_of_getitem_mask (p : row → bool) (df : DataFrame) (r : row) :
  r ∈ rows (getitem_mask p df) ↔ r ∈ rows df ∧ p r = true.
Proof. cbn [rows getitem_mask]. rewrite !list_elem_of_In. apply filter_In. Qed.

Lemma isin_true (c : string) (vs : list string) (r : row) :
  isin c vs r = true ↔ ∃ v, r !! c = Some v ∧ v ∈ vs.
Proof.
  unfold isin. destruct (r !! c) as [v|].
  - rewrite bool_decide_eq_true. split; [by exists v | by intros (v' & [= <-] & ?)].
  - split; [done | by intros (v' & [=] & _)].
Qed.

Lemma elem_of_getitem_isin (c : string) (vs : list string) (df out : DataFrame) (r : row) :
  getitem_isin c vs df = Some out →
  r ∈ rows out ↔ r ∈ rows df ∧ ∃ v, r !! c = Some v ∧ v ∈ vs.
Proof.
  unfold getitem_isin. destruct (has_column c df); [|done]. intros [= <-].
  by rewrite elem_of_getitem_mask, isin_true.
Qed.

Lemma elem_of_filter_status (vs : list string) (df out : DataFrame) (r : row) :
  filter_status vs df = Some out →
  r ∈ rows out
  ↔ r ∈ rows df ∧ (vs = [] ∨ ∃ v, r !! "release_status" = Some v ∧ v ∈ vs).
Proof.
  unfold filter_status. case_bool_decide as Hvs.
  - intros [= <-]. split; [intros ?; split; [done | by left] | by intros [? _]].
  - intros Hf. rewrite (elem_of_getitem_isin _ _ _ _ r Hf). split.
    + intros [? ?]. split; [done | by right].
    + intros [? [?|?]]; done.
Qed.

Lemma elem_of_filter_sex (vs : list string) (df out : DataFrame) (r : row) :
  filter_sex vs df = Some out →
  r ∈ rows out ↔ r ∈ rows df ∧ (vs = [] ∨ ∃ v, r !! "sex" = Some v ∧ v ∈ vs).
Proof.
  unfold filter_sex. case_bool_decide as Hvs.
  - intros [= <-]. split; [intros ?; split; [done | by left] | by intros [? _]].
  - intros Hf. rewrite (elem_of_getitem_isin _ _ _ _ r Hf). split.
    + intros [? ?]. split; [done | by right].
    + intros [? [?|?]]; done.
Qed.

(** The selection by [apply] keeps the rows that pass, with or without the
    columns: a frame with no rows has no row that passes. *)
Lemma elem_of_getitem_apply (c : string) (f : option string → bool) (df out : DataFrame)
    (r : row) :
  getitem_apply c f df = Some out →
  r ∈ rows out ↔ r ∈ rows df ∧ f (r !! c) = true.
Proof.
  unfold getitem_apply. destruct (has_column c df); [|done].
  case_bool_decide as Hrows; intros [= <-].
  - cbn [rows]. rewrite Hrows. split; [by intros ?%elem_of_nil | by intros [?%elem_of_nil _]].
  - apply elem_of_getitem_mask.
Qed.

Lemma elem_of_filter_from (f : option date) (df out : DataFrame) (r : row) :
  filter_from f df = Some out →
  r ∈ rows out
  ↔ r ∈ rows df
    ∧ ∀ a, f = Some a → ∃ d, parse_date (r !! "dod_date") = Some d ∧ date_le a d = true.
Proof.
  destruct f as [a|]; cbn [filter_from].
  - intros Hf. rewrite (elem_of_getitem_apply _ _ _ _ r Hf). split.
    + intros [Hin Hp]. split; [done|]. intros a' [= <-].
      destruct (parse_date (r !! "dod_date")) as [d|]; [by exists d | done].
    + intros [Hin Hp]. split; [done|]. destruct (Hp a eq_refl) as (d & -> & Hle). done.
  - intros [= <-]. split; [intros ?; split; [done | by intros a [=]] | by intros [? _]].
Qed.

Lemma elem_of_filter_to (f : option date) (df out : DataFrame) (r : row) :
  filter_to f df = Some out →
  r ∈ rows out
  ↔ r ∈ rows df
    ∧ ∀ b, f = Some b → ∃ d, parse_date (r !! "dod_date") = Some d ∧ date_le d b = true.
Proof.
  destruct f as [b|]; cbn [filter_to].
  - intros Hf. rewrite (elem_of_getitem_apply _ _ _ _ r Hf). split.
    + intros [Hin Hp]. split; [done|]. intros b' [= <-].
      destruct (parse_date (r !! "dod_date")) as [d|]; [by exists d | done].
    + intros [Hin Hp]. split; [done|]. destruct (Hp b eq_refl) as (d & -> & Hle). done.
  - intros [= <-]. split; [intros ?; split; [done | by intros b [=]] | by intros [? _]].
Qed.

Lemma lower_contains_true (m : string → bool) (c : string) (r : row) :
  lower_contains m c r = true ↔ ∃ v, r !! c = Some v ∧ m (Text.lower v) = true.
Proof.
  unfold lower_contains. destruct (r !! c) as [v|].
  - split; [by exists v | by intros (v' & [= <-] & ?)].
  - split; [done | by intros (v' & [=] & _)].
Qed.

Lemma elem_of_filter_text `{Platform} (q : string) (cs : list string)
    (df out : DataFrame) (r : row) :
  filter_text q cs df = Some out →
  r ∈ rows out ↔ r ∈ rows df ∧ query_matches q cs r.
Proof.
  unfold filter_text, query_matches. destruct (Text.blank q) eqn:Hq.
  - intros [= <-]. split; [intros ?; split; [done | by left] | by intros [? _]].
  - cbv zeta. destruct (forallb (λ c, has_column c df) cs); [|done].
    destruct (re_compile (Text.lower (Text.strip q))) as [m|]; [|done].
    rewrite bind_ret. intros [= <-]. rewrite elem_of_getitem_mask, existsb_exists.
    split.
    + intros [Hin (c & Hc & Hm)]. split; [done|]. right. exists m. split; [done|].
      apply lower_contains_true in Hm as (v & Hv & Hm).
      exists c, v. by rewrite list_elem_of_In.
    + intros [Hin [?|(m' & [= <-] & c & v & Hc & Hv & Hm)]]; [done|].
      split; [done|]. exists c. rewrite <- list_elem_of_In. split; [done|].
      apply lower_contains_true. by exists v.
Qed.

(** X11. The rows the Browse tab shows are exactly the loaded rows that pass
    every active filter: status and sex in the selected lists (an empty list
    selects all), a date of death that [strptime] accepts and that lies on or
    after the lower bound and on or before the upper bound when these are set
    (a row whose date does not parse is dropped by either bound), a match of
    the name query in the name, the tag or the next of kin, of the location
    query in the storage location and of the cause query in the cause of
    death. The tab writes no row: the file is the one [load_data] left. *)
Theorem tab_browse_keeps_matching `{Platform} (fs fs1 : store) (flt : browse_filters)
    (out : DataFrame) :
  tab_browse fs flt = Some (fs1, out) →
  fs1 = ensure_storage fs
  ∧ ∃ df, load_data fs = Some (fs1, df)
    ∧ ∀ r : row,
        r ∈ rows out
        ↔ r ∈ rows df
          ∧ (f_status flt = []
             ∨ ∃ v, r !! "release_status" = Some v ∧ v ∈ f_status flt)
          ∧ (f_sex flt = [] ∨ ∃ v, r !! "sex" = Some v ∧ v ∈ f_sex flt)
          ∧ (∀ a, f_from flt = Some a →
               ∃ d, parse_date (r !! "dod_date") = Some d ∧ date_le a d = true)
          ∧ (∀ b, f_to flt = Some b →
               ∃ d, parse_date (r !! "dod_date") = Some d ∧ date_le d b = true)
          ∧ query_matches (q_name flt) ["deceased_name"; "body_tag_no"; "next_of_kin"] r
          ∧ query_matches (q_location flt) ["storage_location"] r
          ∧ query_matches (q_cause flt) ["cause_of_death"] r.
Proof.
  unfold tab_browse. intros Hrun.
  destruct (load_data_spec fs) as (t & Ht & Hload).
  rewrite Hload, bind_ret in Hrun. cbv beta iota in Hrun.
  destruct (apply_filters flt (schema_normalize t)) as [out'|] eqn:Hf; [|done].
  rewrite bind_ret in Hrun. injection Hrun as <- <-.
  apply apply_filters_steps in Hf
    as (d1 & d2 & d3 & d4 & d5 & d6 & H1 & H2 & H3 & H4 & H5 & H6 & H7).
  split; [by rewrite Ht|]. exists (schema_normalize t). split; [exact Hload|].
  intros r.
  rewrite (elem_of_filter_text _ _ _ _ r H7), (elem_of_filter_text _ _ _ _ r H6),
    (elem_of_filter_text _ _ _ _ r H5).
  rewrite (elem_of_filter_to _ _ _ r H4), (elem_of_filter_from _ _ _ r H3),
    (elem_of_filter_sex _ _ _ r H2), (elem_of_filter_status _ _ _ r H1).
  tauto.
Qed.

(** Among the three records of the examples, those in storage that match
    doe are Jane Doe and Max Doe; both come from the loaded frame and are in
    storage. *)
Lemma tab_browse_keeps_matching_example :
  ∃ df,
    load_data (Some browse_frame) = Some (Some browse_frame, df)
    ∧ ∀ r : row,
        r ∈ [browse_row_jane; browse_row_max] →
        r ∈ rows df ∧ r !! "release_status" = Some "In Storage".
Proof.
  destruct (@tab_browse_keeps_matching example_platform (Some browse_frame)
              (Some browse_frame)
              {| f_status := ["In Storage"]; f_sex := []; f_from := None; f_to := None;
                 q_name := " Doe "; q_location := ""; q_cause := "" |}
              {| columns := COLUMNS; rows := [browse_row_jane; browse_row_max] |})
    as [_ (df & Hload & Hiff)].
  - vm_compute. reflexivity.
  - exists df. split; [exact Hload|]. intros r Hr.
    apply Hiff in Hr as (Hin & [Hnil|(v & Hv & Hs)] & _); [discriminate Hnil|].
    split; [exact Hin|]. apply list_elem_of_singleton in Hs. by rewrite Hv, Hs.
Defined.

Lemma date_le_trans (a b c : date) :
  date_le a b = true → date_le b c = true → date_le a c = true.
Proof.
  destruct a as [ya ma da], b as [yb mb db], c as [yc mc dc]. unfold date_le.
  cbn [year month day].
  rewrite !orb_true_iff, !andb_true_iff, !orb_true_iff, !andb_true_iff,
    !Nat.ltb_lt, !Nat.eqb_eq, !Nat.leb_le.
  lia.
Qed.

(** X12. With a lower bound later than the upper bound the two date filters
    leave no row: whenever they return, the frame they return has none. They
    return exactly on a frame that has the column of the date of death and at
    least one row; on a frame with no rows the first bound returns a frame
    without columns and the second raises [KeyError]. *)
Theorem date_range_reversed_empty (a b : date) (df : DataFrame) :
  date_le a b = false →
  (∀ out, filter_from (Some a) df ≫= filter_to (Some b) = Some out → rows out = [])
  ∧ (is_Some (filter_from (Some a) df ≫= filter_to (Some b))
     ↔ "dod_date" ∈ columns df ∧ rows df ≠ []).
Proof.
  intros Hab. split.
  - intros out Hrun.
    destruct (filter_from (Some a) df) as [d1|] eqn:H1; [|done].
    rewrite bind_ret in Hrun.
    apply elem_of_nil_inv. intros r Hr.
    apply (elem_of_filter_to _ _ _ r Hrun) in Hr as [Hr Hb].
    apply (elem_of_filter_from _ _ _ r H1) in Hr as [_ Ha].
    destruct (Ha a eq_refl) as (d & Hd & Hle1).
    destruct (Hb b eq_refl) as (d' & Hd' & Hle2).
    rewrite Hd in Hd'. injection Hd' as <-.
    by rewrite (date_le_trans _ _ _ Hle1 Hle2) in Hab.
  - cbn [filter_from filter_to]. unfold getitem_apply, has_column.
    case_bool_decide as Hc.
    + case_bool_decide as Hrows; rewrite bind_ret; cbn [filter_to];
        unfold getitem_apply, has_column; cbn [columns getitem_mask].
      * rewrite bool_decide_eq_false_2 by (by intros ?%elem_of_nil).
        split; [by intros [? ?] | by intros [_ ?]].
      * rewrite (bool_decide_eq_true_2 _ Hc). split; [done | by eexists].
    + split; [by intros [? ?] | by intros [? _]].
Qed.

(** From 2 March back to 1 March 2024, on the three records of the
    examples. *)
Lemma date_range_reversed_empty_example :
  ∃ out,
    filter_from (Some (Date 2024 3 2)) browse_frame ≫= filter_to (Some (Date 2024 3 1))
      = Some out
    ∧ rows out = [].
Proof.
  destruct (date_range_reversed_empty (Date 2024 3 2) (Date 2024 3 1) browse_frame)
    as [Hrows Hsome]; [vm_compute; reflexivity|].
  destruct (proj2 Hsome) as [out Hout].
  - split; [apply (bool_decide_unpack _); vm_compute; exact I | discriminate].
  - exists out. split; [exact Hout | by apply Hrows].
Defined.

(** ** Backup and restore *)

(** X13. [Create Backup] writes the frame [load_data] returns, not a copy of
    the file: the backup equals the file exactly when the file is already in
    schema normal form (a column the schema does not know is not backed up).
    The store itself is only read. Importing the backup later, over whatever
    the store then holds, makes the store the backup, and loading then
    returns the frame that was loaded when the backup was made. *)
Theorem backup_then_restore (fs later : store) (ts : string) :
  ∃ t bk,
    ensure_storage fs = Some t
    ∧ sidebar_backup fs ts
        = Some (Some t, ("data/mortuary_records_backup_" +:+ ts +:+ ".csv", bk))
    ∧ load_data fs = Some (Some t, bk)
    ∧ (bk = t ↔ schema_normal t)
    ∧ sidebar_import later (Some (Parsed bk)) = (Some bk, Some Success_import)
    ∧ load_data (Some bk) = Some (Some bk, bk).
Proof.
  destruct (load_data_spec fs) as (t & Ht & Hload).
  pose proof (schema_normalize_normal t) as Hn.
  exists t, (schema_normalize t). split_and!.
  - exact Ht.
  - unfold sidebar_backup. rewrite Hload, bind_ret. reflexivity.
  - exact Hload.
  - split; [by intros <- | apply schema_normalize_id].
  - destruct (sidebar_import_spec later (schema_normalize t)) as (_ & _ & ->).
    by rewrite (schema_normalize_id _ Hn).
  - by apply load_data_normal.
Qed.

(** The table of the older version is backed up without its [drawer]
    column. *)
Example backup_of_legacy_table :
  ∃ bk,
    sidebar_backup (Some legacy_table) "20240302_103100"
      = Some (Some legacy_table, ("data/mortuary_records_backup_20240302_103100.csv", bk))
    ∧ columns bk = COLUMNS
    ∧ bk ≠ legacy_table.
Proof.
  exists (schema_normalize legacy_table). split_and!.
  - unfold sidebar_backup.
    destruct (load_data_spec (Some legacy_table)) as (t & [= <-] & ->).
    rewrite bind_ret. reflexivity.
  - reflexivity.
  - intros Heq. apply (f_equal columns) in Heq. discriminate Heq.
Qed.

(** ** Dates printed and parsed back *)

(** X14. A date of the calendar with a year of four digits, printed by
    [to_date_str], is parsed back by [strptime(..., "%Y-%m-%d")] and by the
    [parse_date] of the date filters to the same date; the text is not empty,
    while no date is printed as the empty text, which does not parse. *)
Theorem to_date_str_parses_back (y m d : nat) (dt : date) :
  1000 ≤ y →
  date_new y m d = Some dt →
  Strptime.date_Ymd (to_date_str (Some dt)) = Some dt
  ∧ parse_date (Some (to_date_str (Some dt))) = Some dt
  ∧ to_date_str (Some dt) ≠ to_date_str None
  ∧ parse_date (Some (to_date_str None)) = None.
Proof.
  intros Hy Hnew.
  pose proof (date_Ymd_strftime_Ymd y m d dt Hy Hnew) as Hparse.
  split_and!; [exact Hparse | exact Hparse | apply date_isoformat_nonempty | reflexivity].
Qed.

(** The date of death of the examples. *)
Lemma to_date_str_parses_back_example :
  Strptime.date_Ymd (to_date_str (Some (Date 2024 3 1))) = Some (Date 2024 3 1).
Proof.
  apply (to_date_str_parses_back 2024 3 1 (Date 2024 3 1)); [lia|].
  vm_compute. reflexivity.
Defined.

(** ** The Edit form reopened on a stored record *)

(** X15. The Edit form opened on a record that [Save Record] stored starts
    on the date of death that was entered and on the hour and minute of the
    time of death that was entered (a calendar date with a year of four
    digits, a time of the clock). The guard on the empty text changes nothing:
    the date input starts on what the [parse_date] of the filters returns. *)
Theorem edit_form_reopens_saved_dates `{Platform} (f : add_form) (uuid4 now : string)
    (y m d : nat) (dt : date) :
  1000 ≤ y →
  date_new y m d = Some dt →
  dod f = Some dt →
  hour (tod f) < 24 →
  minute (tod f) < 60 →
  dod_default (row_of_dict (add_record f uuid4 now)) = Some dt
  ∧ tod_default (row_of_dict (add_record f uuid4 now))
    = Time (hour (tod f)) (minute (tod f)) 0 0
  ∧ ∀ rec : row, dod_default rec = parse_date (rec !! "dod_date").
Proof.
  intros Hy Hnew Hdod Hh Hm. split_and!.
  - unfold dod_default. rewrite lookup_row_of_dict.
    change (dict_get "dod_date" (add_record f uuid4 now))
      with (Some (to_date_str (dod f))).
    rewrite bind_ret, Hdod. cbn [to_date_str].
    rewrite bool_decide_eq_false_2 by apply date_isoformat_nonempty.
    by apply (date_Ymd_strftime_Ymd y m d).
  - unfold tod_default. rewrite lookup_row_of_dict.
    change (dict_get "tod_time" (add_record f uuid4 now))
      with (Some (to_time_str (Some (tod f)))).
    rewrite bind_ret. cbn [to_time_str].
    destruct (tod f) as [h mi s us]. cbn [hour minute] in *.
    pose proof (time_HM_strftime_HM h mi s us Hh Hm) as Hparse.
    case_bool_decide as Hempty; [by rewrite Hempty in Hparse|].
    by rewrite Hparse.
  - intros rec. unfold dod_default, parse_date.
    destruct (rec !! "dod_date") as [x|]; [|done]. rewrite !bind_ret.
    case_bool_decide as Hx; [by rewrite Hx | done].
Qed.

(** Jane Doe's record: 1 March 2024, twenty to midnight. *)
Lemma edit_form_reopens_saved_dates_example :
  dod_default browse_row_jane = Some (Date 2024 3 1)
  ∧ tod_default browse_row_jane = Time 23 40 0 0.
Proof.
  destruct (@edit_form_reopens_saved_dates example_platform example_add_form
              example_uuid example_now 2024 3 1 (Date 2024 3 1))
    as (Hd & Ht & _).
  - lia.
  - vm_compute. reflexivity.
  - reflexivity.
  - vm_compute. lia.
  - vm_compute. lia.
  - split; [exact Hd | exact Ht].
Defined.

(** ** The table the Browse tab displays *)

Lemma getitem_columns_show_cols (out : DataFrame) :
  columns out = COLUMNS →
  getitem_columns show_cols out
    = Some {| columns := show_cols; rows := reindex show_cols <$> rows out |}.
Proof.
  intros Hc. unfold getitem_columns. rewrite Hc.
  assert (forallb (λ c, bool_decide (c ∈ COLUMNS)) show_cols = true) as ->
    by (vm_compute; reflexivity).
  reflexivity.
Qed.

Lemma getitem_columns_no_columns (out : DataFrame) :
  columns out = [] → getitem_columns show_cols out = None.
Proof. intros Hc. unfold getitem_columns. rewrite Hc. reflexivity. Qed.

Lemma tab_browse_spec `{Platform} (fs : store) (flt : browse_filters) :
  ∃ t, ensure_storage fs = Some t
       ∧ load_data fs = Some (Some t, schema_normalize t)
       ∧ tab_browse fs flt
         = (λ out, (Some t, out)) <$> apply_filters flt (schema_normalize t).
Proof.
  destruct (load_data_spec fs) as (t & Ht & Hload). exists t.
  split; [exact Ht|]. split; [exact Hload|].
  unfold tab_browse. rewrite Hload, bind_ret. cbv beta iota.
  destruct (apply_filters flt (schema_normalize t)) as [out|]; reflexivity.
Qed.

(** X16. The table the Browse tab displays is defined exactly when the
    filters kept the columns. What the filters return has either the columns
    of the schema, and then the displayed table has the ten displayed columns
    and one row per filtered row, holding its cells in those columns; or no
    column and no row, a date bound being set, and then the selection of the
    displayed columns raises [KeyError]. The columns are kept whenever a row
    is left or no date bound is set. On a store without records (or a missing
    file) the tab raises as soon as a date bound is set. *)
Theorem tab_browse_view_or_key_error `{Platform} (fs : store) (flt : browse_filters) :
  (∀ fs1 out, tab_browse fs flt = Some (fs1, out) →
     (columns out = COLUMNS
      ∧ ∃ view,
          tab_browse_view fs flt = Some (fs1, out, view)
          ∧ columns view = show_cols
          ∧ Forall2 (λ r r' : row,
                       ∀ c, r' !! c = if decide (c ∈ show_cols) then r !! c else None)
                    (rows out) (rows view))
     ∨ (columns out = [] ∧ rows out = []
        ∧ (is_Some (f_from flt) ∨ is_Some (f_to flt))
        ∧ tab_browse_view fs flt = None))
  ∧ (∀ fs1 out, tab_browse fs flt = Some (fs1, out) →
       rows out ≠ [] ∨ (f_from flt = None ∧ f_to flt = None) →
       columns out = COLUMNS)
  ∧ (∀ fs1 df, load_data fs = Some (fs1, df) → rows df = [] →
       is_Some (f_from flt) ∨ is_Some (f_to flt) →
       tab_browse_view fs flt = None).
Proof.
  destruct (tab_browse_spec fs flt) as (t & Ht & Hload & Hrun).
  assert (columns (schema_normalize t) = COLUMNS) as Hcols by reflexivity.
  split_and!.
  - intros fs1 out Hout. rewrite Hrun in Hout.
    destruct (apply_filters flt (schema_normalize t)) as [out'|] eqn:Hf; [|done].
    injection Hout as <- <-.
    destruct (apply_filters_rows _ _ _ Hf) as (_ & _ & [Hc|(Hc & Hr & Hd)]).
    + left. rewrite Hcols in Hc. split; [exact Hc|].
      exists {| columns := show_cols; rows := reindex show_cols <$> rows out' |}.
      split_and!.
      * unfold tab_browse_view. rewrite Hrun. cbn [fmap option_fmap option_map].
        rewrite bind_ret. cbv beta iota.
        rewrite (getitem_columns_show_cols _ Hc), bind_ret. reflexivity.
      * reflexivity.
      * cbn [rows]. apply Forall2_fmap_r, Forall_Forall2_diag, Forall_forall.
        intros r _ c. apply lookup_reindex.
    + right. split_and!; [exact Hc | exact Hr | exact Hd |].
      unfold tab_browse_view. rewrite Hrun. cbn [fmap option_fmap option_map].
      rewrite bind_ret. cbv beta iota.
      rewrite (getitem_columns_no_columns _ Hc). reflexivity.
  - intros fs1 out Hout Hcase. rewrite Hrun in Hout.
    destruct (apply_filters flt (schema_normalize t)) as [out'|] eqn:Hf; [|done].
    injection Hout as <- <-.
    destruct (apply_filters_rows _ _ _ Hf) as (_ & Hkeep & _).
    rewrite (Hkeep Hcase). exact Hcols.
  - intros fs1 df Hdf Hrows Hbound. rewrite Hload in Hdf. injection Hdf as <- <-.
    unfold tab_browse_view. rewrite Hrun.
    destruct (apply_filters flt (schema_normalize t)) as [out|] eqn:Hf; [|reflexivity].
    cbn [fmap option_fmap option_map]. rewrite bind_ret. cbv beta iota.
    assert (columns out = []) as Hc; [|by rewrite (getitem_columns_no_columns _ Hc)].
    apply apply_filters_steps in Hf
      as (d1 & d2 & d3 & d4 & d5 & d6 & H1 & H2 & H3 & H4 & H5 & H6 & H7).
    assert (∀ a b : DataFrame, rows a `sublist_of` rows b → rows b = [] → rows a = []) as Hnil.
    { intros a b Hab Hb. rewrite Hb in Hab. by apply sublist_nil_r in Hab. }
    apply filter_status_narrows in H1 as [_ Hs1].
    apply filter_sex_narrows in H2 as [_ Hs2].
    apply filter_text_narrows in H5 as [Hc5 _], H6 as [Hc6 _], H7 as [Hc7 _].
    pose proof (Hnil _ _ Hs2 (Hnil _ _ Hs1 Hrows)) as Hr2.
    rewrite Hc7, Hc6, Hc5.
    destruct (f_from flt) as [a|], (f_to flt) as [b|]; cbn [filter_from filter_to] in H3, H4.
    + apply getitem_apply_rows in H3 as (Hs3 & _ & _ & _).
      apply getitem_apply_rows in H4 as (_ & _ & Hc4 & _).
      apply Hc4, (Hnil _ _ Hs3 Hr2).
    + apply getitem_apply_rows in H3 as (_ & _ & Hc3 & _).
      injection H4 as <-. by apply Hc3.
    + injection H3 as <-. apply getitem_apply_rows in H4 as (_ & _ & Hc4 & _).
      by apply Hc4.
    + by destruct Hbound as [[? ?]|[? ?]].
Qed.

(** On a new installation, with no file yet, picking a lower bound for the
    date of death makes the filters return a frame without columns and the
    tab raise; with the name query doe besides, the filters raise themselves.
    On the three records of the examples the same bound leaves the table of
    the ten columns. *)
Example browse_date_bound_on_empty_store :
  @tab_browse example_platform None
    {| f_status := []; f_sex := []; f_from := Some (Date 2024 3 1); f_to := None;
       q_name := ""; q_location := ""; q_cause := "" |}
    = Some (Some no_records, {| columns := []; rows := [] |})
  ∧ @tab_browse_view example_platform None
      {| f_status := []; f_sex := []; f_from := Some (Date 2024 3 1); f_to := None;
         q_name := ""; q_location := ""; q_cause := "" |}
    = None
  ∧ @tab_browse example_platform None
      {| f_status := []; f_sex := []; f_from := Some (Date 2024 3 1); f_to := None;
         q_name := "doe"; q_location := ""; q_cause := "" |}
    = None
  ∧ ∃ out view,
      @tab_browse_view example_platform (Some browse_frame)
        {| f_status := []; f_sex := []; f_from := Some (Date 2024 3 1); f_to := None;
           q_name := ""; q_location := ""; q_cause := "" |}
      = Some (Some browse_frame, out, view)
      ∧ columns view = show_cols
      ∧ length (rows view) = length (rows out).
Proof.
  split_and!; [vm_compute; reflexivity..|].
  eexists _, _. split_and!; [vm_compute; reflexivity | reflexivity | reflexivity].
Qed.

(** ** What no button of the Edit tab changes *)

Lemma mark_now_column (status now1 now2 c : string) (i : nat) (df : DataFrame) :
  c ≠ "release_status" → c ≠ "released_dt" → c ≠ "last_updated" →
  (λ r : row, r !! c) <$> rows (mark_now status now1 now2 i df)
    = (λ r : row, r !! c) <$> rows df.
Proof.
  intros H1 H2 H3.
  destruct (mark_now_rows status now1 now2 i df) as (_ & _ & Hi & Hother).
  apply list_eq. intros j. rewrite !list_lookup_fmap.
  destruct (decide (j = i)) as [->|Hj].
  - rewrite Hi. destruct (rows df !! i) as [r|]; [|done]. cbn [fmap option_fmap option_map].
    by rewrite !lookup_insert_ne.
  - by rewrite Hother.
Qed.

Lemma loc_set_row_column (c : string) (i : nat) (d : dict) (rec : row) (df : DataFrame) :
  rows df !! i = Some rec →
  reindex (columns df) (row_of_dict d) !! c = rec !! c →
  (λ r : row, r !! c) <$> rows (loc_set_row i d df) = (λ r : row, r !! c) <$> rows df.
Proof.
  intros Hrec Hcell. cbn [rows loc_set_row].
  apply list_eq. intros j. rewrite !list_lookup_fmap.
  destruct (decide (j = i)) as [->|Hj].
  - rewrite list_lookup_insert_eq by (by eapply lookup_lt_Some).
    rewrite Hrec. cbn [fmap option_fmap option_map]. by rewrite Hcell.
  - by rewrite list_lookup_insert_ne.
Qed.

(** X17. One run of the Edit tab that does not raise, whatever the button
    and whatever the form holds, leaves a file in which the records are the
    same in number and order, each with the [record_id] and the [admitted_dt]
    it had: the tab neither adds, removes nor reorders records, and no
    handler of it rewrites an identifier or an admission time. *)
Theorem tab_edit_keeps_identity `{Platform} (fs fs1 fs2 : store) (df : DataFrame)
    (sel : string) (b : edit_button) (msg : option message) :
  load_data fs = Some (fs1, df) →
  tab_edit fs sel b = Some (fs2, msg) →
  ∃ df2,
    load_data fs2 = Some (fs2, df2)
    ∧ length (rows df2) = length (rows df)
    ∧ record_ids df2 = record_ids df
    ∧ (λ r : row, r !! "admitted_dt") <$> rows df2
      = (λ r : row, r !! "admitted_dt") <$> rows df.
Proof.
  intros Hload Hrun.
  assert (load_data fs1 = Some (fs1, df)) as Hsame.
  { destruct (load_data_spec fs) as (t & Ht & Hload').
    rewrite Hload in Hload'. injection Hload' as -> ->.
    destruct (load_data_spec (Some t)) as (t' & Ht' & ->).
    cbn [ensure_storage] in Ht'. by injection Ht' as <-. }
  destruct (load_data_schema_normal _ _ _ Hload) as [Hn _].
  assert (fs2 = fs1 → ∃ df2, load_data fs2 = Some (fs2, df2)
            ∧ length (rows df2) = length (rows df)
            ∧ record_ids df2 = record_ids df
            ∧ (λ r : row, r !! "admitted_dt") <$> rows df2
              = (λ r : row, r !! "admitted_dt") <$> rows df) as Hkept.
  { intros ->. exists df. by split_and!. }
  assert (∀ status now1 now2 i, fs2 = Some (mark_now status now1 now2 i df) →
            ∃ df2, load_data fs2 = Some (fs2, df2)
            ∧ length (rows df2) = length (rows df)
            ∧ record_ids df2 = record_ids df
            ∧ (λ r : row, r !! "admitted_dt") <$> rows df2
              = (λ r : row, r !! "admitted_dt") <$> rows df) as Hmark.
  { intros status now1 now2 i ->. exists (mark_now status now1 now2 i df). split_and!.
    - apply load_data_normal. by apply mark_now_normal.
    - apply (mark_now_rows status now1 now2 i df).
    - apply mark_now_record_ids.
    - by apply mark_now_column. }
  destruct (empty_frame df) eqn:Hempty.
  { apply Hkept. unfold tab_edit in Hrun. rewrite Hload, bind_ret in Hrun.
    cbv beta iota in Hrun. rewrite Hempty in Hrun. congruence. }
  destruct (locate df sel) as [[i|]|] eqn:Hloc.
  - destruct (tab_edit_found fs fs1 df sel i b Hload Hloc) as (rec & Hrec & Hstep).
    rewrite Hstep in Hrun. destruct b as [|f now|now1 now2|now1 now2].
    + apply Hkept. congruence.
    + destruct (negb (bool_decide (validate_required (edit_required f) = []))).
      { apply Hkept. congruence. }
      injection Hrun as <- _.
      destruct (edit_record_cells rec f now) as (Hid & Hadm & _).
      cbv zeta in Hid, Hadm.
      exists (loc_set_row i (edit_record rec f now) df). split_and!.
      * apply load_data_normal. by apply loc_set_row_normal.
      * cbn [rows loc_set_row]. apply length_insert.
      * unfold record_ids. apply (loc_set_row_column _ _ _ rec); [done|].
        destruct Hn as [-> _]. exact Hid.
      * apply (loc_set_row_column _ _ _ rec); [done|].
        destruct Hn as [-> _]. exact Hadm.
    + injection Hrun as <- _. by eapply Hmark.
    + injection Hrun as <- _. by eapply Hmark.
  - apply Hkept. unfold tab_edit in Hrun. rewrite Hload, bind_ret in Hrun.
    cbv beta iota in Hrun. rewrite Hempty, Hloc, bind_ret in Hrun. congruence.
  - unfold tab_edit in Hrun. rewrite Hload, bind_ret in Hrun.
    cbv beta iota in Hrun. rewrite Hempty, Hloc in Hrun. discriminate Hrun.
Qed.

(** Marking Jane Doe's record as transferred leaves one record, with her
    identifier. *)
Lemma tab_edit_keeps_identity_example :
  ∃ df2, length (rows df2) = 1 ∧ record_ids df2 = record_ids example_frame.
Proof.
  destruct (@tab_edit_keeps_identity example_platform example_store example_store
              (Some (mark_now "Transferred" "t1" "t2" 0 example_frame)) example_frame
              "3f2b8c1e" (Mark_transferred "t1" "t2") (Some Success_transferred))
    as (df2 & _ & Hlen & Hids & _).
  - vm_compute. reflexivity.
  - vm_compute. reflexivity.
  - exists df2. split; [exact Hlen | exact Hids].
Defined.
